(** * PayFastacy: the payment reconciliation core of route.js

    A shallow embedding of the request handlers of [routes] (POST /init,
    POST /callback, GET /search, GET /txn/:txnId), of
    [generateUniqueContent], of [apiKeyMiddleware] and of the [payment]
    table of db/schema.js, followed by the properties of the specification
    that were checked against them and by further properties of the code.

    Modelling conventions.
    - A string is a text in its UTF-8 encoding ([string], a sequence of
      bytes); [char_length] counts its characters, which is what the width
      of a [varchar] column and the [_] of LIKE count.  The database reads
      no text that holds the NUL character: a statement that stores such a
      text is rejected ([varchar]); in the texts a SELECT compares with (a
      [ref], a token, a filter of a search) the character is taken not to
      occur.
    - A number of a request is a JSON number, a rational ([Number]); the
      [integer] column holds integers ([Z]), and a number is converted to
      it as the database converts the parameter it receives ([int4_in]):
      a number with a fractional part or outside the 32-bit range makes
      the database reject the statement.
    - The [payment] table is the list of its rows in the order in which a
      query without ORDER BY returns them; an UPDATE writes the new version
      of a row behind the rows it leaves alone.  The primary key, the three
      UNIQUE constraints and the widths of the columns are enforced by
      [db_insert] and [db_update]; a statement that is rejected for one of
      its parameters is rejected before it runs.
    - What the libraries do with the values of the handlers is modelled as
      far as the handlers depend on it: drizzle leaves a column out of an
      INSERT or of the SET of an UPDATE when its value is [undefined], and
      an [undefined] operand of [eq] reaches the database as NULL, which
      equals nothing.
    - Timestamps are instants in milliseconds since the epoch ([Z]), the
      resolution of a JavaScript Date; what [now()] counts below a
      millisecond is left out.  The session of the database is taken to
      run in UTC, so that what its [timestamp] columns hold are instants.
    - A handler is a program over the effects it performs ([Prog]): drawing
      a token from [nanoid], reading the clock, logging, and the SELECT,
      INSERT and UPDATE statements it awaits.  [exec] runs a program against
      a [World]; statements of concurrent requests that commit between two
      statements of the handler are given as an [Interference].
    - [nanoid] is the library's generator: the tokens it draws are an input
      of a run ([nanoid_source]), and what [customAlphabet] promises of them
      is a hypothesis ([nanoid_contract]) where a property needs it.
    - A request is the body or query the schema of the route lets through:
      [amount] and [ref] are required by the schema of POST /init; no field
      of the body of a webhook is required, so [content], [transferAmount]
      and [referenceCode] may each be absent; the filters of a search are
      optional, and its dates are calendar dates ([format_date]).
    - A reply is the status code and the payload the handler passes to
      [reply.send].  What the client receives of the payload of a 200 reply
      is decided afterwards by the response schema of the route, which is
      outside this development: the properties below that speak of a reply
      speak of the payload handed to [reply.send].  The handlers are
      modelled as they run once the [preHandler] of their route has let the
      request through; the [preHandler] itself ([apiKeyMiddleware]) and the
      routes that compose the two are modelled beside them.
    - The handler of GET /txn/:txnId touches no table: it is a function of
      the configured key and of what [fetch] answers, and returns its reply
      with the requests it sent. *)

From Stdlib Require Import ZArith QArith List String Ascii Bool Arith Lia.
From Stdlib Require Import Sorted Permutation.
Import ListNotations.
Local Open Scope string_scope.
Local Open Scope Z_scope.
Local Open Scope list_scope.

(** ** Strings *)

(** [String.prototype.includes]: [includes s t] holds when [t] occurs in [s]
    at some position. *)
Fixpoint includes (s t : string) : bool :=
  String.prefix t s ||
  match s with
  | EmptyString => false
  | String _ s' => includes s' t
  end.

(** A byte that continues a character of more than one byte. *)
Definition continuation (c : ascii) : bool :=
  match c with
  | Ascii _ _ _ _ _ _ b6 b7 => b7 && negb b6
  end.

(** The string without the continuation bytes it starts with. *)
Fixpoint skip_continuation (s : string) : string :=
  match s with
  | EmptyString => EmptyString
  | String c s' => if continuation c then skip_continuation s' else s
  end.

(** The string without its first [n] characters. *)
Fixpoint drop_chars (n : nat) (s : string) : string :=
  match n with
  | O => s
  | S n' =>
      match s with
      | EmptyString => EmptyString
      | String _ s' => drop_chars n' (skip_continuation s')
      end
  end.

(** The bytes that start a character. *)
Fixpoint leading_bytes (s : string) : nat :=
  match s with
  | EmptyString => O
  | String c s' => ((if continuation c then 0 else 1) + leading_bytes s')%nat
  end.

(** The number of characters of a text. *)
Definition char_length (s : string) : nat :=
  match s with
  | EmptyString => O
  | String _ s' => S (leading_bytes s')
  end.

Fixpoint spaces (s : string) : bool :=
  match s with
  | EmptyString => true
  | String c s' => Ascii.eqb c " " && spaces s'
  end.

(** The text does not hold the NUL character. *)
Fixpoint nul_free (s : string) : bool :=
  match s with
  | EmptyString => true
  | String c s' => negb (Ascii.eqb c Ascii.zero) && nul_free s'
  end.

(** ** Numbers *)

(** A JSON number.  The numbers of JavaScript are among the rationals. *)
Definition Number : Type := Q.

Definition whole (z : Z) : Number := inject_Z z.

(** ** The payment table (db/schema.js) *)

Module payment.

Record row : Type := mkRow {
  id : Z;                       (* serial, primary key *)
  txnId : option string;        (* varchar, unique, nullable *)
  amount : Z;                   (* integer, not null *)
  ref : string;                 (* varchar, not null, unique *)
  content : string;             (* varchar, not null, unique *)
  status : bool;                (* boolean, not null, default false *)
  createdAt : Z;                (* timestamp, not null, default now() *)
  updatedAt : option Z          (* timestamp, nullable *)
}.

End payment.

Definition Payment : Type := payment.row.

Record Database : Type := mkDatabase {
  rows : list Payment;
  payment_id_seq : Z              (* next value of the serial sequence *)
}.

Inductive DbError : Type :=
| UniqueViolation (constraint : string)       (* 23505 *)
| NotNullViolation (column : string)          (* 23502 *)
| NumericValueOutOfRange                      (* 22003, of type integer *)
| InvalidTextRepresentation                   (* 22P02, of type integer *)
| CharacterNotInRepertoire                    (* 22021, the NUL character *)
| StringDataRightTruncation (width : nat).    (* 22001, of varchar(width) *)

(** A number as a parameter of type [integer]: the driver sends the text of
    the number, which the database reads as a 32-bit integer.  A number
    with a fractional part is no integer; from ten to the 21 on the text is
    in exponent notation. *)
Definition int4_in (n : Number) : DbError + Z :=
  if Qnum n mod Zpos (Qden n) =? 0 then
    let z := Qnum n / Zpos (Qden n) in
    if (-2147483648 <=? z) && (z <=? 2147483647) then inr z
    else if Z.abs z <? 10 ^ 21 then inl NumericValueOutOfRange
    else inl InvalidTextRepresentation
  else inl InvalidTextRepresentation.

(** A text stored in a [varchar(n)] column: the database reads no text
    that holds the NUL character, and a text of more than [n] characters is
    rejected, unless the characters in excess are all spaces, which are
    then cut off. *)
Definition varchar (n : nat) (s : string) : DbError + string :=
  if nul_free s then
    match drop_chars n s with
    | EmptyString => inr s
    | excess =>
        if spaces excess
        then inr (substring 0 (String.length s - String.length excess) s)
        else inl (StringDataRightTruncation n)
    end
  else inl CharacterNotInRepertoire.

(** Values of an INSERT: the handler supplies [amount], [ref] and [content];
    a column whose value is [undefined] is left to its default. *)
Record InsertValues : Type := mkInsertValues {
  ins_amount : Number;
  ins_ref : string;
  ins_content : option string
}.

(** Values of the UPDATE's SET clause; a column whose value is [undefined]
    ([None]) is left out of the clause. *)
Record UpdateSet : Type := mkUpdateSet {
  set_txnId : option string;
  set_status : bool;
  set_updatedAt : Z
}.

Definition has_txnId (t : string) (p : Payment) : bool :=
  match payment.txnId p with
  | Some t' => String.eqb t' t
  | None => false
  end.

(** INSERT INTO payment (amount, ref, content): the id comes from the
    sequence, [status] and [created_at] from their defaults.  A value that
    does not fit its column makes the database reject the statement before
    it runs: first a parameter it cannot read, then a text that is too long
    for its column.  Once the statement runs, the sequence advances whether
    or not the row is accepted. *)
Definition db_insert (now : Z) (v : InsertValues) (d : Database)
  : Database * option DbError :=
  match int4_in (ins_amount v) with
  | inl e => (d, Some e)
  | inr amount =>
  if negb (nul_free (ins_ref v)
           && match ins_content v with
              | Some c => nul_free c
              | None => true
              end)
  then (d, Some CharacterNotInRepertoire)
  else
  match varchar 50 (ins_ref v) with
  | inl e => (d, Some e)
  | inr ref =>
  match match ins_content v with
        | Some c => match varchar 20 c with
                    | inl e => inl e
                    | inr c' => inr (Some c')
                    end
        | None => inr None
        end with
  | inl e => (d, Some e)
  | inr content =>
      let d' := mkDatabase (rows d) (payment_id_seq d + 1) in
      match content with
      | None => (d', Some (NotNullViolation "content"))
      | Some c =>
          if existsb (fun p => payment.id p =? payment_id_seq d) (rows d)
          then (d', Some (UniqueViolation "payment_pkey"))
          else if existsb (fun p => String.eqb (payment.ref p) ref) (rows d)
          then (d', Some (UniqueViolation "payment_ref_unique"))
          else if existsb (fun p => String.eqb (payment.content p) c) (rows d)
          then (d', Some (UniqueViolation "payment_content_unique"))
          else
            (mkDatabase
               (rows d ++
                [payment.mkRow (payment_id_seq d) None amount ref c
                               false now None])
               (payment_id_seq d + 1),
             None)
      end
  end end end.

(** The SET clause as the database stores it: [txn_id] is a
    [varchar(100)]. *)
Definition stored_set (s : UpdateSet) : DbError + UpdateSet :=
  match set_txnId s with
  | None => inr s
  | Some t =>
      match varchar 100 t with
      | inl e => inl e
      | inr t' => inr (mkUpdateSet (Some t') (set_status s) (set_updatedAt s))
      end
  end.

(** The new version of a row: the columns of the SET clause are replaced,
    the others kept. *)
Definition apply_set (s : UpdateSet) (p : Payment) : Payment :=
  payment.mkRow (payment.id p)
                (match set_txnId s with
                 | Some t => Some t
                 | None => payment.txnId p
                 end)
                (payment.amount p)
                (payment.ref p) (payment.content p) (set_status s)
                (payment.createdAt p) (Some (set_updatedAt s)).

(** UPDATE payment SET txn_id, status, updated_at WHERE [where_]: the new
    versions of the rows the predicate selects are written behind the rows
    it leaves alone, unless the new [txn_id] would then occur twice in the
    table. *)
Definition db_update (s : UpdateSet) (where_ : Payment -> bool) (d : Database)
  : Database * option DbError :=
  match stored_set s with
  | inl e => (d, Some e)
  | inr s' =>
      let hit := filter where_ (rows d) in
      let kept := filter (fun p => negb (where_ p)) (rows d) in
      match hit with
      | [] => (d, None)
      | _ :: more =>
          if match set_txnId s' with
             | Some t => existsb (has_txnId t) kept
                         || negb (Nat.eqb (List.length more) 0)
             | None => false
             end
          then (d, Some (UniqueViolation "payment_txn_id_unique"))
          else (mkDatabase (kept ++ map (apply_set s') hit) (payment_id_seq d),
                None)
      end
  end.

(** Insertion into a list sorted by [key], after the elements with an equal
    key; [sort_by] is the ascending ORDER BY. *)
Fixpoint insert_by (key : Payment -> Z) (p : Payment) (l : list Payment)
  : list Payment :=
  match l with
  | [] => [p]
  | q :: l' => if key p <? key q then p :: l else q :: insert_by key p l'
  end.

Definition sort_by (key : Payment -> Z) (l : list Payment) : list Payment :=
  fold_left (fun acc p => insert_by key p acc) l [].

(** SELECT * FROM payment [WHERE ..] [ORDER BY ..] [LIMIT ..], for a WHERE
    clause the database can evaluate.  (A SELECT with a parameter that the
    database cannot read as the type of its column does not get here: see
    [select_where].) *)
Definition db_select (where_ : option (Payment -> bool))
           (orderBy : option (Payment -> Z)) (limit : option nat)
           (d : Database) : list Payment :=
  let r1 := match where_ with Some f => filter f (rows d) | None => rows d end in
  let r2 := match orderBy with Some k => sort_by k r1 | None => r1 end in
  match limit with Some n => firstn n r2 | None => r2 end.

(** ** Effects of a handler *)

Inductive Exception : Type :=
| Error (message : string)            (* throw new Error(message) *)
| TypeError (message : string)        (* member access on undefined *)
| ReferenceError (message : string)   (* an identifier that is not bound *)
| RangeError (message : string)       (* Date.prototype.toISOString *)
| QueryError (e : DbError).           (* a statement the database rejects *)

(** The body of a webhook request, as far as the handler reads it; a
    property is [None] when it is absent ([undefined]): the schema of the
    route requires none. *)
Record CallbackBody : Type := mkCallbackBody {
  cb_content : option string;
  cb_transferAmount : option Number;
  cb_referenceCode : option string
}.

Record LogEntry : Type := mkLogEntry {
  log_event : string;
  log_body : CallbackBody
}.

Inductive Prog (A : Type) : Type :=
| Return (a : A)
| Throw (e : Exception)
| Stuck                               (* the loop fuel of the model ran out *)
| Nanoid (k : string -> Prog A)
| NewDate (k : Z -> Prog A)
| LogInfo (entry : LogEntry) (k : Prog A)
| Select (where_ : option (Payment -> bool)) (orderBy : option (Payment -> Z))
         (limit : option nat) (k : list Payment -> Prog A)
| SelectRejected (e : DbError) (k : Prog A)   (* a SELECT with a parameter the
                                                 database cannot read *)
| Insert (values : InsertValues) (k : option DbError -> Prog A)
| UpdateById (set : UpdateSet) (key : Z) (k : option DbError -> Prog A).

Arguments Return {A} a.
Arguments Throw {A} e.
Arguments Stuck {A}.
Arguments Nanoid {A} k.
Arguments NewDate {A} k.
Arguments LogInfo {A} entry k.
Arguments Select {A} where_ orderBy limit k.
Arguments SelectRejected {A} e k.
Arguments Insert {A} values k.
Arguments UpdateById {A} set key k.

Fixpoint bind {A B : Type} (p : Prog A) (f : A -> Prog B) : Prog B :=
  match p with
  | Return a => f a
  | Throw e => Throw e
  | Stuck => Stuck
  | Nanoid k => Nanoid (fun c => bind (k c) f)
  | NewDate k => NewDate (fun t => bind (k t) f)
  | LogInfo entry k => LogInfo entry (bind k f)
  | Select w o l k => Select w o l (fun r => bind (k r) f)
  | SelectRejected e k => SelectRejected e (bind k f)
  | Insert v k => Insert v (fun r => bind (k r) f)
  | UpdateById s i k => UpdateById s i (fun r => bind (k r) f)
  end.

(** [try { p } catch (error) { h error }] *)
Fixpoint try_catch {A : Type} (p : Prog A) (h : Exception -> Prog A) : Prog A :=
  match p with
  | Return a => Return a
  | Throw e => h e
  | Stuck => Stuck
  | Nanoid k => Nanoid (fun c => try_catch (k c) h)
  | NewDate k => NewDate (fun t => try_catch (k t) h)
  | LogInfo entry k => LogInfo entry (try_catch k h)
  | Select w o l k => Select w o l (fun r => try_catch (k r) h)
  | SelectRejected e k => SelectRejected e (try_catch k h)
  | Insert v k => Insert v (fun r => try_catch (k r) h)
  | UpdateById s i k => UpdateById s i (fun r => try_catch (k r) h)
  end.

Notation "x <- p ;; q" := (bind p (fun x => q))
  (at level 61, p at next level, right associativity).
Notation "p ;;; q" := (bind p (fun _ => q))
  (at level 61, right associativity).

(** Awaiting a statement: a rejection is thrown at the [await]. *)
Definition await_result (r : option DbError) : Prog unit :=
  match r with
  | None => Return tt
  | Some e => Throw (QueryError e)
  end.

Definition select (where_ : option (Payment -> bool))
           (orderBy : option (Payment -> Z)) (limit : option nat)
  : Prog (list Payment) :=
  Select where_ orderBy limit Return.

(** A SELECT whose WHERE clause is a condition the database evaluates, or
    a parameter it rejects. *)
Definition select_where (where_ : DbError + (Payment -> bool))
  : Prog (list Payment) :=
  match where_ with
  | inr f => select (Some f) None None
  | inl e => SelectRejected e (Throw (QueryError e))
  end.

Definition insert (v : InsertValues) : Prog unit := Insert v await_result.

Definition update_by_id (s : UpdateSet) (key : Z) : Prog unit :=
  UpdateById s key await_result.

(** [Array.prototype.filter] with a callback that may throw. *)
Fixpoint array_filter {A : Type} (f : A -> Prog bool) (l : list A)
  : Prog (list A) :=
  match l with
  | [] => Return []
  | x :: l' =>
      b <- f x ;;
      rest <- array_filter f l' ;;
      Return (if b then x :: rest else rest)
  end.

(** ** Running a handler *)

Record World : Type := mkWorld {
  db : Database;
  clock : Z;                          (* the instant of the request *)
  nanoid_source : nat -> string;      (* the n-th token nanoid() draws *)
  nanoid_calls : nat                  (* tokens drawn so far *)
}.

Inductive Event : Type :=
| EvNanoid (token : string)
| EvLog (entry : LogEntry)
| EvSelect (seen : Database) (result : list Payment)
| EvSelectRejected (e : DbError)
| EvInsert (values : InsertValues) (result : option DbError)
| EvUpdate (set : UpdateSet) (key : Z) (result : option DbError).

Inductive Outcome (A : Type) : Type :=
| Returned (a : A)
| Uncaught (e : Exception)
| OutOfFuel.

Arguments Returned {A} a.
Arguments Uncaught {A} e.
Arguments OutOfFuel {A}.

(** What concurrent requests commit before each statement of the handler:
    the head of the list acts on the database before the handler's next
    statement.  The empty list is a handler running alone. *)
Definition Interference : Type := list (Database -> Database).

Record Run (A : Type) : Type := mkRun {
  outcome : Outcome A;
  final : World;
  trace : list Event;
  rest : Interference               (* interference not yet consumed *)
}.

Arguments mkRun {A} outcome final trace rest.
Arguments outcome {A} r.
Arguments final {A} r.
Arguments trace {A} r.
Arguments rest {A} r.

Definition after {A : Type} (ev : Event) (r : Run A) : Run A :=
  mkRun (outcome r) (final r) (ev :: trace r) (rest r).

Definition with_db (w : World) (d : Database) : World :=
  mkWorld d (clock w) (nanoid_source w) (nanoid_calls w).

Definition arrive (env : Interference) (w : World) : World * Interference :=
  match env with
  | [] => (w, [])
  | f :: env' => (with_db w (f (db w)), env')
  end.

Fixpoint exec {A : Type} (p : Prog A) (env : Interference) (w : World) : Run A :=
  match p with
  | Return a => mkRun (Returned a) w [] env
  | Throw e => mkRun (Uncaught e) w [] env
  | Stuck => mkRun OutOfFuel w [] env
  | Nanoid k =>
      let token := nanoid_source w (nanoid_calls w) in
      after (EvNanoid token)
            (exec (k token) env
                  (mkWorld (db w) (clock w) (nanoid_source w) (S (nanoid_calls w))))
  | NewDate k => exec (k (clock w)) env w
  | LogInfo entry k => after (EvLog entry) (exec k env w)
  | Select wh ob lim k =>
      let (w1, env1) := arrive env w in
      let result := db_select wh ob lim (db w1) in
      after (EvSelect (db w1) result) (exec (k result) env1 w1)
  | SelectRejected e k =>
      let (w1, env1) := arrive env w in
      after (EvSelectRejected e) (exec k env1 w1)
  | Insert v k =>
      let (w1, env1) := arrive env w in
      let (d2, r) := db_insert (clock w1) v (db w1) in
      after (EvInsert v r) (exec (k r) env1 (with_db w1 d2))
  | UpdateById s key k =>
      let (w1, env1) := arrive env w in
      let (d2, r) := db_update s (fun p => payment.id p =? key) (db w1) in
      after (EvUpdate s key r) (exec (k r) env1 (with_db w1 d2))
  end.

(** ** Replies *)

Inductive Body (D : Type) : Type :=
| Success (data : D)                  (* { success: true, data } *)
| SuccessMessage (message : string)   (* { success: true, message } *)
| FailureMessage (message : string)   (* { success: false, message } *)
| FailureError (error : string)       (* { success: false, error } *)
| FailureCaught (error : Exception).  (* { success: false, error: error.message } *)

Arguments Success {D} data.
Arguments SuccessMessage {D} message.
Arguments FailureMessage {D} message.
Arguments FailureError {D} error.
Arguments FailureCaught {D} error.

Record Reply (D : Type) : Type := mkReply {
  code : Z;
  body : Body D
}.

Arguments mkReply {D} code body.
Arguments code {D} r.
Arguments body {D} r.

(** [reply.send(body)] answers with status 200, [reply.code(c).send(body)]
    with status [c].  The reply is the payload as the handler hands it to
    [reply.send]. *)
Definition send {D : Type} (b : Body D) : Reply D := mkReply 200 b.

Definition success {D : Type} (r : Reply D) : bool :=
  match body r with
  | Success _ | SuccessMessage _ => true
  | _ => false
  end.

(** ** Token generator *)

Definition alphabet : string :=
  "0123456789ABCDEFGHIJKLMNOPQRSTUVWXYZabcdefghijklmnopqrstuvwxyz".

(** [parseInt(process.env.CONTENT_LENGTH) || 11]; the argument is the value
    of [parseInt], [None] for NaN. *)
Definition content_length (parsed : option Z) : Z :=
  match parsed with
  | Some n => if n =? 0 then 11 else n
  | None => 11
  end.

Definition maxAttempts : nat := 10.

(** The [while] loop of [generateUniqueContent] on its three variables;
    [fuel] bounds the iterations of the model. *)
Fixpoint while_loop (fuel : nat) (content : option string) (isUnique : bool)
         (attempts : nat) : Prog (option string * bool) :=
  if negb isUnique && (attempts <? maxAttempts)%nat then
    match fuel with
    | O => Stuck
    | S fuel' =>
        Nanoid (fun token =>
          existing <- select (Some (fun p => String.eqb (payment.content p) token))
                             None (Some 1%nat) ;;
          while_loop fuel' (Some token)
                     (if (List.length existing =? 0)%nat then true else isUnique)
                     (S attempts))
    end
  else Return (content, isUnique).

Definition generateUniqueContent : Prog (option string) :=
  r <- while_loop maxAttempts None false 0 ;;
  if negb (snd r)
  then Throw (Error "Failed to generate unique content after multiple attempts")
  else Return (fst r).

(** ** POST /init *)

Record InitBody : Type := mkInitBody {
  init_amount : Number;
  init_ref : string
}.

Record InitData : Type := mkInitData {
  data_content : option string;
  data_ref : string;
  data_amount : Number
}.

Definition init_handler (request : InitBody) : Prog (Reply InitData) :=
  try_catch
    (let amount := init_amount request in
     let ref := init_ref request in
     existingRef <- select (Some (fun p => String.eqb (payment.ref p) ref))
                           None (Some 1%nat) ;;
     if (0 <? List.length existingRef)%nat
     then Return (mkReply 400 (FailureError "Reference code already exists"))
     else
       content <- generateUniqueContent ;;
       insert (mkInsertValues amount ref content) ;;;
       Return (send (Success (mkInitData content ref amount))))
    (fun error => Return (mkReply 500 (FailureCaught error))).

(** ** POST /callback *)

(** [webhookContent.includes(p.content)], where [webhookContent] may be
    [undefined]. *)
Definition webhook_includes (webhookContent : option string) (p : Payment)
  : Prog bool :=
  match webhookContent with
  | Some w => Return (includes w (payment.content p))
  | None =>
      Throw (TypeError "Cannot read properties of undefined (reading 'includes')")
  end.

(** [eq(payment.amount, transferAmount)]: the number is a parameter of
    type [integer]; [undefined] reaches the database as NULL, which no
    amount equals. *)
Definition eq_amount (transferAmount : option Number)
  : DbError + (Payment -> bool) :=
  match transferAmount with
  | None => inr (fun _ => false)
  | Some n =>
      match int4_in n with
      | inl e => inl e
      | inr z => inr (fun p => payment.amount p =? z)
      end
  end.

(** [and(eq(payment.amount, transferAmount), eq(payment.status, false))] *)
Definition callback_where (transferAmount : option Number)
  : DbError + (Payment -> bool) :=
  match eq_amount transferAmount with
  | inl e => inl e
  | inr amount_is =>
      inr (fun p => amount_is p && Bool.eqb (payment.status p) false)
  end.

(** The value of [payments]: the pending rows of the transferred amount,
    filtered by the memo. *)
Definition callback_payments (webhookContent : option string)
           (transferAmount : option Number) : Prog (list Payment) :=
  results <- select_where (callback_where transferAmount) ;;
  array_filter (webhook_includes webhookContent) results.

(** The handler; [payments.length === 0] is the empty-list case. *)
Definition callback_handler (request : CallbackBody) : Prog (Reply unit) :=
  try_catch
    (let webhookContent := cb_content request in
     let transferAmount := cb_transferAmount request in
     let referenceCode := cb_referenceCode request in
     LogInfo (mkLogEntry "sepay_webhook" request)
       (payments <- callback_payments webhookContent transferAmount ;;
        match payments with
        | [] =>
            Return (mkReply 404
                      (FailureMessage "Payment not found or already processed"))
        | first :: _ =>
            NewDate (fun now =>
              update_by_id (mkUpdateSet referenceCode true now)
                           (payment.id first) ;;;
              Return (send (SuccessMessage "Payment processed successfully")))
        end))
    (fun error => Return (mkReply 500 (FailureCaught error))).

(** ** GET /search *)

Fixpoint suffixes (s : string) : list string :=
  s :: match s with
       | EmptyString => []
       | String _ s' => suffixes s'
       end.

(** The LIKE operator: [%] matches any sequence of characters, [_] any one
    character (of one byte or more), and a backslash makes the next pattern
    character literal.  (The database rejects a pattern that ends in a lone
    backslash; the patterns of the handler end in [%].) *)
Fixpoint like_match (pattern s : string) {struct pattern} : bool :=
  match pattern with
  | EmptyString => match s with EmptyString => true | _ => false end
  | String c pattern' =>
      if Ascii.eqb c "%" then existsb (like_match pattern') (suffixes s)
      else if Ascii.eqb c "_" then
        match s with
        | String _ s' => like_match pattern' (skip_continuation s')
        | EmptyString => false
        end
      else if Ascii.eqb c "\" then
        match pattern' with
        | String e pattern'' =>
            match s with
            | String d s' => Ascii.eqb e d && like_match pattern'' s'
            | EmptyString => false
            end
        | EmptyString => false
        end
      else
        match s with
        | String d s' => Ascii.eqb c d && like_match pattern' s'
        | EmptyString => false
        end
  end.

Definition like (column : Payment -> string) (pattern : string) (p : Payment)
  : bool :=
  like_match pattern (column p).

Definition gte (column : Payment -> Z) (v : Z) (p : Payment) : bool :=
  v <=? column p.

Definition lte (column : Payment -> Z) (v : Z) (p : Payment) : bool :=
  column p <=? v.

(** [and(...conditions)] *)
Definition and_ (conditions : list (Payment -> bool)) (p : Payment) : bool :=
  forallb (fun c => c p) conditions.

Definition digit_at (s : string) (i : nat) : option Z :=
  match String.get i s with
  | Some c =>
      let n := Z.of_nat (nat_of_ascii c) in
      if (48 <=? n) && (n <=? 57) then Some (n - 48) else None
  | None => None
  end.

Definition dash_at (s : string) (i : nat) : bool :=
  match String.get i s with
  | Some c => Ascii.eqb c "-"
  | None => false
  end.

(** Days from 1970-01-01 to the day [d] of month [m] of year [y]. *)
Definition days_from_civil (y m d : Z) : Z :=
  let y' := if m <=? 2 then y - 1 else y in
  let era := y' / 400 in
  let yoe := y' - era * 400 in
  let mp := (m + 9) mod 12 in
  let doy := (153 * mp + 2) / 5 + d - 1 in
  let doe := yoe * 365 + yoe / 4 - yoe / 100 + doy in
  era * 146097 + doe - 719468.

(** The digits of a [YYYY-MM-DD] string as year, month and day. *)
Definition date_fields (s : string) : option (Z * Z * Z) :=
  match digit_at s 0, digit_at s 1, digit_at s 2, digit_at s 3,
        digit_at s 5, digit_at s 6, digit_at s 8, digit_at s 9 with
  | Some y1, Some y2, Some y3, Some y4, Some m1, Some m2, Some d1, Some d2 =>
      if (String.length s =? 10)%nat && dash_at s 4 && dash_at s 7
      then Some (y1 * 1000 + y2 * 100 + y3 * 10 + y4, m1 * 10 + m2, d1 * 10 + d2)
      else None
  | _, _, _, _, _, _, _, _ => None
  end.

Definition is_leap (y : Z) : bool :=
  ((y mod 4 =? 0) && negb (y mod 100 =? 0)) || (y mod 400 =? 0).

Definition days_in_month (y m : Z) : Z :=
  if m =? 2 then (if is_leap y then 29 else 28)
  else if (m =? 4) || (m =? 6) || (m =? 9) || (m =? 11) then 30
  else 31.

(** The [format: 'date'] of the query schema: a [YYYY-MM-DD] string that
    names a day of the calendar. *)
Definition format_date (s : string) : bool :=
  match date_fields s with
  | Some (y, m, d) =>
      (1 <=? m) && (m <=? 12) && (1 <=? d) && (d <=? days_in_month y m)
  | None => false
  end.

(** The date part of [new Date(date + "Thh:mm:ss+07:00")] for a
    [YYYY-MM-DD] string: the month is 01 to 12 and the day 01 to 31,
    whatever the month; a day past the end of the month counts on into the
    next one.  [None] is the Invalid Date.  (A string of another shape does
    not pass the [format: 'date'] of the query schema.) *)
Definition parse_date (s : string) : option (Z * Z * Z) :=
  match date_fields s with
  | Some (y, m, d) =>
      if (1 <=? m) && (m <=? 12) && (1 <=? d) && (d <=? 31)
      then Some (y, m, d)
      else None
  | None => None
  end.

(** [new Date(date + "Thh:mm:ss+07:00")] in milliseconds since the epoch;
    [None] is the Invalid Date. *)
Definition new_Date_utc7 (date : string) (hh mm ss : Z) : option Z :=
  match parse_date date with
  | Some (y, m, d) =>
      Some (((days_from_civil y m d * 86400 + hh * 3600 + mm * 60 + ss)
             - 7 * 3600) * 1000)
  | None => None
  end.

(** A Date bound as a query parameter is serialised with [toISOString],
    which throws on the Invalid Date. *)
Definition date_param (d : option Z) : Prog Z :=
  match d with
  | Some t => Return t
  | None => Throw (RangeError "Invalid time value")
  end.

(** [if (s)] on an optional string: [undefined] and the empty string are
    falsy. *)
Definition truthy (s : option string) : option string :=
  match s with
  | Some EmptyString => None
  | other => other
  end.

Record SearchQuery : Type := mkSearchQuery {
  q_ref : option string;
  q_content : option string;
  q_status : option string;
  q_from : option string;
  q_to : option string
}.

Definition is_string (s : option string) (lit : string) : bool :=
  match s with
  | Some s' => String.eqb s' lit
  | None => false
  end.

Definition search_conditions (query : SearchQuery)
  : Prog (list (Payment -> bool)) :=
  let conditions := [] in
  let conditions :=
    match truthy (q_ref query) with
    | Some ref => (conditions ++ [like payment.ref ("%" ++ ref ++ "%")%string])%list
    | None => conditions
    end in
  let conditions :=
    match truthy (q_content query) with
    | Some content => (conditions ++ [like payment.content ("%" ++ content ++ "%")%string])%list
    | None => conditions
    end in
  let conditions :=
    if is_string (q_status query) "paid"
    then (conditions ++ [fun p => Bool.eqb (payment.status p) true])%list
    else if is_string (q_status query) "unpaid"
    then (conditions ++ [fun p => Bool.eqb (payment.status p) false])%list
    else conditions in
  conditions <-
    match truthy (q_from query) with
    | Some from =>
        t <- date_param (new_Date_utc7 from 0 0 0) ;;
        Return (conditions ++ [gte payment.createdAt t])%list
    | None => Return conditions
    end ;;
  match truthy (q_to query) with
  | Some to =>
      t <- date_param (new_Date_utc7 to 23 59 59) ;;
      Return (conditions ++ [lte payment.createdAt t])%list
  | None => Return conditions
  end.

Record SearchData (View : Type) : Type := mkSearchData {
  search_data : list View;
  search_count : nat
}.

Arguments mkSearchData {View} search_data search_count.
Arguments search_data {View} s.
Arguments search_count {View} s.

(** Reading an identifier: a [ReferenceError] when the module has no
    binding for it. *)
Definition identifier {V : Type} (name : string) (binding : option V) : Prog V :=
  match binding with
  | Some v => Return v
  | None => Throw (ReferenceError (name ++ " is not defined")%string)
  end.

(** The handler, given what [formatPaymentResponse] is bound to. *)
Definition search_handler_in {View : Type}
           (formatPaymentResponse : option (Payment -> View))
           (query : SearchQuery) : Prog (Reply (SearchData View)) :=
  try_catch
    (conditions <- search_conditions query ;;
     let whereClause :=
       if (0 <? List.length conditions)%nat then Some (and_ conditions) else None in
     payments <- select whereClause (Some payment.createdAt) None ;;
     format <- identifier "formatPaymentResponse" formatPaymentResponse ;;
     Return (send (Success (mkSearchData (map format payments)
                                         (List.length payments)))))
    (fun error => Return (mkReply 500 (FailureCaught error))).

(** The names route.js binds at module level: its imports, [nanoid],
    [generateUniqueContent] and [routes]. *)
Definition route_js_bindings : list string :=
  ["apiKeyMiddleware"; "customAlphabet"; "payment"; "eq"; "and"; "gte"; "lte";
   "like"; "isNull"; "nanoid"; "generateUniqueContent"; "routes"].

Definition binding_in {V : Type} (scope : list string) (name : string) (v : V)
  : option V :=
  if existsb (String.eqb name) scope then Some v else None.

(** GET /search as route.js has it: [formatPaymentResponse] is resolved in
    the scope of the module, whatever function of that name ([declared])
    may exist outside it. *)
Definition search_handler {View : Type} (declared : Payment -> View)
           (query : SearchQuery) : Prog (Reply (SearchData View)) :=
  search_handler_in
    (binding_in route_js_bindings "formatPaymentResponse" declared) query.

(** ** The API key check (middleware.js) *)

(** The reply of the [preHandler]: [{ error, message }] with a status. *)
Record Denial : Type := mkDenial {
  denial_code : Z;
  denial_error : string;
  denial_message : string
}.

(** [apiKeyMiddleware]: [apiKey] is the [x-api-key] header, [validApiKey]
    the value of [process.env.APP_KEY]; each is [None] when undefined.  The
    result is the reply sent, or [None] when the hook returns without
    replying. *)
Definition apiKeyMiddleware (apiKey validApiKey : option string)
  : option Denial :=
  match truthy apiKey with
  | None => Some (mkDenial 401 "Unauthorized" "API key is required")
  | Some key =>
      if match validApiKey with
         | Some valid => negb (String.eqb key valid)
         | None => true
         end
      then Some (mkDenial 403 "Forbidden" "Invalid API key")
      else None
  end.

(** What a route answers: the reply of its [preHandler], or the reply of
    its handler. *)
Inductive RouteReply (D : Type) : Type :=
| Denied (d : Denial)
| Handled (r : Reply D).

Arguments Denied {D} d.
Arguments Handled {D} r.

(** A route with a [preHandler]: the handler runs when the hook has not
    replied. *)
Definition with_preHandler {D : Type} (hook : option Denial)
           (handler : Prog (Reply D)) : Prog (RouteReply D) :=
  match hook with
  | Some d => Return (Denied d)
  | None => r <- handler ;; Return (Handled r)
  end.

(** The routes of [routes] on the table: POST /init and GET /search have
    the [preHandler], POST /callback has none. *)
Definition post_init (apiKey validApiKey : option string) (request : InitBody)
  : Prog (RouteReply InitData) :=
  with_preHandler (apiKeyMiddleware apiKey validApiKey) (init_handler request).

Definition post_callback (request : CallbackBody) : Prog (RouteReply unit) :=
  r <- callback_handler request ;; Return (Handled r).

Definition get_search {View : Type} (declared : Payment -> View)
           (apiKey validApiKey : option string) (query : SearchQuery)
  : Prog (RouteReply (SearchData View)) :=
  with_preHandler (apiKeyMiddleware apiKey validApiKey)
                  (search_handler declared query).

(** ** GET /txn/:txnId *)

(** A parsed JSON text.  Numbers are integers. *)
#[warnings="-register-all"]
Inductive Json : Type :=
| JNull
| JBool (b : bool)
| JNumber (n : Z)
| JString (s : string)
| JArray (items : list Json)
| JObject (fields : list (string * Json)).

(** The own property [key] of an object; of two fields with one key the
    later one counts. *)
Definition field (key : string) (fields : list (string * Json)) : option Json :=
  fold_left (fun found kv => if String.eqb (fst kv) key then Some (snd kv)
                             else found)
            fields None.

(** [v.key] on a value that is not [null], for the keys the handler reads
    ([status], [messages], [success], [error], [transaction]): [None] is
    [undefined]. *)
Definition property (v : Json) (key : string) : option Json :=
  match v with
  | JObject fields => field key fields
  | _ => None
  end.

(** [v?.key] on a value that may be [undefined] or [null]. *)
Definition optional_property (v : option Json) (key : string) : option Json :=
  match v with
  | None | Some JNull => None
  | Some v' => property v' key
  end.

(** The truth value of a value in a condition. *)
Definition json_truthy (v : option Json) : bool :=
  match v with
  | None | Some JNull => false
  | Some (JBool b) => b
  | Some (JNumber n) => negb (n =? 0)
  | Some (JString s) => negb (String.eqb s "")
  | Some (JArray _) | Some (JObject _) => true
  end.

(** [v !== 200] *)
Definition is_not_200 (v : option Json) : bool :=
  match v with
  | Some (JNumber n) => negb (n =? 200)
  | _ => true
  end.

Record FetchRequest : Type := mkFetchRequest {
  fetch_url : string;
  fetch_method : string;
  fetch_headers : list (string * string)
}.

(** What [response.json()] gives: the parsed text, or the message of the
    error it rejects with. *)
Inductive ResponseBody : Type :=
| Parsed (data : Json)
| Unparsable (message : string).

Record Response : Type := mkResponse {
  response_status : Z;
  response_statusText : string;
  response_body : ResponseBody
}.

(** [response.ok]: the status is in the range 200-299. *)
Definition response_ok (r : Response) : bool :=
  (200 <=? response_status r) && (response_status r <=? 299).

(** What [fetch] gives: a response, or the message of the error it rejects
    with. *)
Inductive FetchOutcome : Type :=
| Responded (r : Response)
| Failed (message : string).

(** What the [catch] of the handler can catch. *)
Inductive TxnError : Type :=
| FetchFailed (message : string)      (* fetch rejected *)
| JsonInvalid (message : string)      (* response.json() rejected *)
| NullPayload                         (* data.status on null *)
| BadStatusCode (c : Z).              (* reply.code(c) refused c *)

Inductive TxnBody : Type :=
| TxnSuccess (data : option Json)     (* { success: true, data } *)
| TxnFailure (error : Json)           (* { success: false, error } *)
| TxnCaught (e : TxnError).           (* { success: false, error: error.message } *)

Record TxnReply : Type := mkTxnReply {
  txn_code : Z;
  txn_body : TxnBody
}.

(** [reply.code(c).send(b)]: [reply.code] accepts the status codes 100 to
    599 and throws on others, into the [catch] of the handler. *)
Definition txn_reply_code (c : Z) (b : TxnBody) : TxnReply :=
  if (100 <=? c) && (c <=? 599) then mkTxnReply c b
  else mkTxnReply 500 (TxnCaught (BadStatusCode c)).

Definition sepay_request (sepayApiKey txnId : string) : FetchRequest :=
  mkFetchRequest
    ("https://my.sepay.vn/userapi/transactions/details/" ++ txnId)%string
    "GET"
    [("Authorization", ("Bearer " ++ sepayApiKey)%string);
     ("Content-Type", "application/json")].

(** [data.error || 'Failed to fetch transaction details'] *)
Definition error_or_default (error : option Json) : Json :=
  match error with
  | Some e => if json_truthy error then e
              else JString "Failed to fetch transaction details"
  | None => JString "Failed to fetch transaction details"
  end.

(** What the handler does with the parsed payload [data]. *)
Definition txn_payload_reply (data : Json) : TxnReply :=
  match data with
  | JNull => mkTxnReply 500 (TxnCaught NullPayload)
  | _ =>
      if is_not_200 (property data "status")
         || negb (json_truthy (optional_property (property data "messages")
                                                 "success"))
      then mkTxnReply 400 (TxnFailure (error_or_default (property data "error")))
      else mkTxnReply 200 (TxnSuccess (property data "transaction"))
  end.

(** The handler of GET /txn/:txnId: [sepayApiKey] is the value of
    [process.env.SEPAY_API_KEY], [fetch] the network.  The result is the
    reply and the requests sent. *)
Definition txn_handler (sepayApiKey : option string)
           (fetch : FetchRequest -> FetchOutcome) (txnId : string)
  : TxnReply * list FetchRequest :=
  match truthy sepayApiKey with
  | None =>
      (mkTxnReply 500 (TxnFailure (JString "SEPAY_API_KEY not configured")), [])
  | Some key =>
      let request := sepay_request key txnId in
      (match fetch request with
       | Failed message => mkTxnReply 500 (TxnCaught (FetchFailed message))
       | Responded response =>
           if negb (response_ok response)
           then txn_reply_code
                  (response_status response)
                  (TxnFailure
                     (JString ("SePay API error: "
                               ++ response_statusText response)%string))
           else
             match response_body response with
             | Unparsable message =>
                 mkTxnReply 500 (TxnCaught (JsonInvalid message))
             | Parsed data => txn_payload_reply data
             end
       end,
       [request])
  end.

(** GET /txn/:txnId behind its [preHandler]. *)
Definition get_txn (apiKey validApiKey sepayApiKey : option string)
           (fetch : FetchRequest -> FetchOutcome) (txnId : string)
  : (Denial + TxnReply) * list FetchRequest :=
  match apiKeyMiddleware apiKey validApiKey with
  | Some d => (inl d, [])
  | None =>
      let r := txn_handler sepayApiKey fetch txnId in (inr (fst r), snd r)
  end.

(** * Notions used in the properties *)

(** ** Runs of composed programs *)

(** The run of [p] followed by the run of what comes after it. *)
Definition then_run {A B : Type} (r : Run A)
           (k : A -> Interference -> World -> Run B) : Run B :=
  match outcome r with
  | Returned a =>
      let r' := k a (rest r) (final r) in
      mkRun (outcome r') (final r') (trace r ++ trace r') (rest r')
  | Uncaught e => mkRun (Uncaught e) (final r) (trace r) (rest r)
  | OutOfFuel => mkRun OutOfFuel (final r) (trace r) (rest r)
  end.

(** The run of [p] inside a [try] whose [catch] runs [h]. *)
Definition catch_run {A : Type} (r : Run A)
           (h : Exception -> Interference -> World -> Run A) : Run A :=
  match outcome r with
  | Uncaught e =>
      let r' := h e (rest r) (final r) in
      mkRun (outcome r') (final r') (trace r ++ trace r') (rest r')
  | _ => r
  end.

(** ** The replies and errors of the handlers, by name *)

(** The reply of every [catch]: 500 with the message of the error. *)
Definition caught {D : Type} (e : Exception) : Reply D :=
  mkReply 500 (FailureCaught e).

(** NoMatchingPayment. *)
Definition not_found : Reply unit :=
  mkReply 404 (FailureMessage "Payment not found or already processed").

Definition processed : Reply unit :=
  send (SuccessMessage "Payment processed successfully").

(** DuplicateReference. *)
Definition duplicate_reference : Reply InitData :=
  mkReply 400 (FailureError "Reference code already exists").

(** GenerationExhausted. *)
Definition exhausted : Exception :=
  Error "Failed to generate unique content after multiple attempts".

Definition includes_error : Exception :=
  TypeError "Cannot read properties of undefined (reading 'includes')".

Definition not_defined : Exception :=
  ReferenceError "formatPaymentResponse is not defined".

(** The reply of POST /callback after its UPDATE. *)
Definition update_reply (r : option DbError) : Reply unit :=
  match r with
  | None => processed
  | Some e => caught (QueryError e)
  end.

(** The reply of POST /init after its INSERT. *)
Definition insert_reply (request : InitBody) (content : option string)
           (r : option DbError) : Reply InitData :=
  match r with
  | None =>
      send (Success (mkInitData content (init_ref request) (init_amount request)))
  | Some e => caught (QueryError e)
  end.

(** ** Matching a webhook *)

(** [t] is a substring of [s]. *)
Definition is_substring (t s : string) : Prop :=
  exists a b, s = (a ++ t ++ b)%string.

(** The WHERE clause of the handler: the amount and [status = false]. *)
Definition pending_of (transferAmount : Z) (p : Payment) : bool :=
  (payment.amount p =? transferAmount) && Bool.eqb (payment.status p) false.

(** The callback of [filter] on a memo that is a string. *)
Definition memo_has (webhookContent : string) (p : Payment) : bool :=
  includes webhookContent (payment.content p).

Definition candidate (wc : string) (amt : Z) (p : Payment) : bool :=
  pending_of amt p && memo_has wc p.

(** ** The table *)

(** The primary key: no two rows have the same [id]. *)
Definition unique_ids (d : Database) : Prop :=
  NoDup (map payment.id (rows d)).

Definition same_id (first p : Payment) : bool :=
  payment.id p =? payment.id first.

(** The rows with another id than [first]. *)
Definition others (first : Payment) (l : list Payment) : list Payment :=
  filter (fun p => negb (same_id first p)) l.

(** The row [p] turned to paid at the instant [at_], with [txnId] as its
    transaction id. *)
Definition paid (p : Payment) (txnId : option string) (at_ : Z) : Payment :=
  payment.mkRow (payment.id p) txnId (payment.amount p) (payment.ref p)
                (payment.content p) true (payment.createdAt p) (Some at_).

(** The columns that the UPDATE of POST /callback does not set. *)
Definition identity_of (p : Payment) : Z * Z * string * string * Z :=
  (payment.id p, payment.amount p, payment.ref p, payment.content p,
   payment.createdAt p).

(** The 32-bit range of the [integer] column. *)
Definition int4 (z : Z) : Prop := -2147483648 <= z <= 2147483647.

(** ** Attempts of the token generator *)

(** Some row has the token as its [content]. *)
Definition taken (d : Database) (token : string) : bool :=
  existsb (fun p => String.eqb (payment.content p) token) (rows d).

(** The result of the SELECT of an attempt. *)
Definition existing_of (d : Database) (token : string) : list Payment :=
  db_select (Some (fun p => String.eqb (payment.content p) token)) None
            (Some 1%nat) d.

(** A run of attempts: each one draws a token and then reads the table. *)
Inductive attempts_trace : nat -> list Event -> Prop :=
| attempts_none : attempts_trace 0 []
| attempts_more (n : nat) (token : string) (seen : Database)
                (result : list Payment) (tr : list Event) :
    attempts_trace n tr ->
    attempts_trace (S n) (EvNanoid token :: EvSelect seen result :: tr).

(** The tokens drawn by up to [n] attempts against the table [d]: drawing
    goes on while the token drawn is taken. *)
Fixpoint tokens_drawn (d : Database) (source : nat -> string) (calls n : nat)
  : list string :=
  match n with
  | O => []
  | S n' =>
      source calls ::
      (if taken d (source calls) then tokens_drawn d source (S calls) n' else [])
  end.

Definition attempt_events (d : Database) (tokens : list string) : list Event :=
  flat_map (fun t => [EvNanoid t; EvSelect d (existing_of d t)]) tokens.

(** The world after [k] tokens were drawn. *)
Definition drew (w : World) (k : nat) : World :=
  mkWorld (db w) (clock w) (nanoid_source w) (nanoid_calls w + k).

Definition in_alphabet (c : ascii) : Prop :=
  In c (list_ascii_of_string alphabet).

(** What [customAlphabet(alphabet, size)] promises of a token. *)
Definition well_drawn (size : Z) (token : string) : Prop :=
  Z.of_nat (String.length token) = size
  /\ forall c, In c (list_ascii_of_string token) -> in_alphabet c.

Definition nanoid_contract (size : Z) (w : World) : Prop :=
  forall n, well_drawn size (nanoid_source w n).

(** ** CreatePayment *)

Definition ref_exists (d : Database) (ref : string) : bool :=
  existsb (fun p => String.eqb (payment.ref p) ref) (rows d).

(** The result of the SELECT that checks [ref]. *)
Definition existing_ref (d : Database) (ref : string) : list Payment :=
  db_select (Some (fun p => String.eqb (payment.ref p) ref)) None (Some 1%nat) d.

(** The part of the handler after the check of [ref]. *)
Definition create_after_check (request : InitBody) : Prog (Reply InitData) :=
  content <- generateUniqueContent ;;
  insert (mkInsertValues (init_amount request) (init_ref request) content) ;;;
  Return (send (Success (mkInitData content (init_ref request)
                                    (init_amount request)))).

(** ** SearchPayments *)

(** A text without the wildcards and the escape character of LIKE. *)
Definition plain_char (c : ascii) : bool :=
  negb (Ascii.eqb c "%" || Ascii.eqb c "_" || Ascii.eqb c "\").

Fixpoint plain (t : string) : bool :=
  match t with
  | EmptyString => true
  | String c t' => plain_char c && plain t'
  end.

(** The rows a query asks for, filter by filter. *)
Definition matches (query : SearchQuery) (p : Payment) : Prop :=
  (forall ref, truthy (q_ref query) = Some ref ->
               like_match ("%" ++ ref ++ "%") (payment.ref p) = true)
  /\ (forall content, truthy (q_content query) = Some content ->
                      like_match ("%" ++ content ++ "%") (payment.content p) = true)
  /\ (q_status query = Some "paid"%string -> payment.status p = true)
  /\ (q_status query = Some "unpaid"%string -> payment.status p = false)
  /\ (forall from t, truthy (q_from query) = Some from ->
                     new_Date_utc7 from 0 0 0 = Some t ->
                     t <= payment.createdAt p)
  /\ (forall to t, truthy (q_to query) = Some to ->
                   new_Date_utc7 to 23 59 59 = Some t ->
                   payment.createdAt p <= t).

(** The dates of a query pass the [format: 'date'] of the schema. *)
Definition dates_pass_schema (query : SearchQuery) : Prop :=
  (forall from, truthy (q_from query) = Some from -> format_date from = true)
  /\ (forall to, truthy (q_to query) = Some to -> format_date to = true).

(** The text filters of a query are texts the database reads. *)
Definition filters_are_text (query : SearchQuery) : Prop :=
  (forall ref, q_ref query = Some ref -> nul_free ref = true)
  /\ (forall content, q_content query = Some content -> nul_free content = true).

(** The ascending order of ORDER BY. *)
Definition ascending (key : Payment -> Z) (l : list Payment) : Prop :=
  StronglySorted (fun a b => key a <= key b) l.

(** ** Sample states *)

Definition pending_row : Payment :=
  payment.mkRow 1 None 50000 "order-1" "abc123XYZ99" false 1000 None.

Definition paid_row : Payment :=
  payment.mkRow 2 (Some "FT1") 70000 "order-2" "k9Qw2LmZx07" true 1200 (Some 2000).

Definition twin_row : Payment :=
  payment.mkRow 3 None 50000 "order-3" "Zx07k9Qw2Lm" false 1500 None.

Definition memo : string := "Chuyen tien ND abc123XYZ99 tks".

(** A memo that names the tokens of two pending rows. *)
Definition twin_memo : string := "ND abc123XYZ99 Zx07k9Qw2Lm tks".

(** A world at instant 5000 in which [nanoid] draws the same token every
    time. *)
Definition world_of (l : list Payment) (seq : Z) : World :=
  mkWorld (mkDatabase l seq) 5000 (fun _ => "AAAAAAAAAAA") 0.

Definition sample_world : World := world_of [pending_row; paid_row] 3.

Definition twin_world : World := world_of [pending_row; paid_row; twin_row] 4.

Definition empty_world : World := world_of [] 1.

(** Four rows created around the first day of 2024 in UTC+7: one
    millisecond before it starts (2023-12-31T16:59:59.999Z), when it starts,
    in its last second (2024-01-01T16:59:59.000Z), and one millisecond
    later. *)
Definition new_year_rows : list Payment :=
  [payment.mkRow 1 None 50000 "order-1" "abc123XYZ99" false 1704128399001 None;
   payment.mkRow 2 None 50000 "order-2" "k9Qw2LmZx07" false 1704128399000 None;
   payment.mkRow 3 None 50000 "order-3" "Zx07k9Qw2Lm" false 1704041999999 None;
   payment.mkRow 4 None 50000 "order-4" "Lm07k9Qw2Zx" false 1704042000000 None].

Definition new_year_world : World := world_of new_year_rows 5.

(** A table that holds the one token [nanoid] draws. *)
Definition crowded_world : World :=
  world_of [payment.mkRow 1 None 50000 "order-1" "AAAAAAAAAAA" false 1000 None] 2.

(** A world in which the first token [nanoid] draws is taken and the
    second is free. *)
Definition second_free_world : World :=
  mkWorld (mkDatabase [payment.mkRow 1 None 50000 "order-1" "AAAAAAAAAAA" false
                                     1000 None] 2)
          5000
          (fun n => match n with O => "AAAAAAAAAAA" | _ => "BBBBBBBBBBB" end)
          0.

(** A world in which [nanoid] draws tokens of 21 characters. *)
Definition long_token_world : World :=
  mkWorld (db sample_world) 5000 (fun _ => "AAAAAAAAAAAAAAAAAAAAA") 0.

(** A second request for the same [ref] that commits its row between the
    check and the INSERT of the handler. *)
Definition rival_request : Database -> Database :=
  fun d => fst (db_insert 4000 (mkInsertValues (whole 99000) "order-9"
                                               (Some "BBBBBBBBBBB")) d).

Definition race : Interference :=
  [fun d => d; fun d => d; rival_request].

(** ** Rows and events *)

(** The row POST /init inserts. *)
Definition created_row (amount : Z) (ref content : string) (d : Database)
           (now : Z) : Payment :=
  payment.mkRow (payment_id_seq d) None amount ref content false now None.

Definition is_update (ev : Event) : bool :=
  match ev with
  | EvUpdate _ _ _ => true
  | _ => false
  end.


(** * Properties *)

(** ** Substrings *)

Lemma prefix_app (t s : string) :
  String.prefix t s = true <-> exists b, s = (t ++ b)%string.
Proof.
  revert s; induction t as [|c t IH]; intros s.
  - split; [intros _; exists s; reflexivity | intros _; now destruct s].
  - destruct s as [|d s]; simpl.
    + split; [discriminate | intros [b Hb]; discriminate].
    + destruct (ascii_dec c d) as [->|Hcd].
      * rewrite IH. split; intros [b Hb]; exists b; congruence.
      * split; [discriminate | intros [b Hb]; congruence].
Qed.

(** [includes s t] says that [t] is a substring of [s]. *)
Lemma includes_spec (s t : string) :
  includes s t = true <-> exists a b, s = (a ++ t ++ b)%string.
Proof.
  induction s as [|c s IH]; cbn [includes].
  - rewrite orb_false_r, prefix_app. split.
    + intros [b Hb]. exists EmptyString, b. exact Hb.
    + intros [a [b Hab]]. destruct a; simpl in Hab; [|discriminate].
      exists b. exact Hab.
  - rewrite orb_true_iff, prefix_app, IH. split.
    + intros [[b Hb] | [a [b Hab]]].
      * exists EmptyString, b. exact Hb.
      * exists (String c a), b. simpl. now rewrite Hab.
    + intros [a [b Hab]]. destruct a as [|c' a]; simpl in Hab.
      * left. exists b. exact Hab.
      * right. exists a, b. congruence.
Qed.

(** ** Characters, widths and numbers *)

Lemma skip_continuation_head (s : string) (c : ascii) (s' : string) :
  skip_continuation s = String c s' -> continuation c = false.
Proof.
  induction s as [|d s IH]; simpl; [discriminate|].
  destruct (continuation d) eqn:Hd; [exact IH|].
  intros E. injection E as <- _. exact Hd.
Qed.

Lemma leading_bytes_skip (s : string) :
  leading_bytes (skip_continuation s) = leading_bytes s.
Proof.
  induction s as [|d s IH]; simpl; [reflexivity|].
  destruct (continuation d) eqn:Hd; simpl; [exact IH|now rewrite Hd].
Qed.

Lemma drop_chars_empty (n : nat) : drop_chars n EmptyString = EmptyString.
Proof. destruct n; reflexivity. Qed.

Lemma drop_chars_skip (n : nat) :
  forall s, (leading_bytes s <= n)%nat ->
            drop_chars n (skip_continuation s) = EmptyString.
Proof.
  induction n as [|n IH]; intros s Hlen.
  - simpl. induction s as [|d s IHs]; simpl in *; [reflexivity|].
    destruct (continuation d); [apply IHs; lia | lia].
  - destruct (skip_continuation s) as [|c s'] eqn:Hs; [reflexivity|].
    simpl. apply IH.
    pose proof (skip_continuation_head s c s' Hs) as Hc.
    rewrite <- leading_bytes_skip, Hs in Hlen. simpl in Hlen.
    rewrite Hc in Hlen. lia.
Qed.

(** A text of at most [n] characters, without the NUL character, is stored
    as it is. *)
Lemma varchar_fits (n : nat) (s : string) :
  nul_free s = true -> (char_length s <= n)%nat -> varchar n s = inr s.
Proof.
  intros Hnul Hlen. unfold varchar. rewrite Hnul.
  assert (Hdrop : drop_chars n s = EmptyString).
  { destruct s as [|c s]; [apply drop_chars_empty|].
    simpl in Hlen. destruct n as [|n]; [lia|].
    simpl. apply drop_chars_skip. lia. }
  now rewrite Hdrop.
Qed.

(** A whole number of the 32-bit range is read as itself. *)
Lemma int4_in_whole (z : Z) : int4 z -> int4_in (whole z) = inr z.
Proof.
  unfold int4, int4_in, whole. intros Hz. simpl.
  rewrite Z.mod_1_r, Z.div_1_r. simpl.
  replace ((-2147483648 <=? z) && (z <=? 2147483647)) with true; [reflexivity|].
  symmetry. apply andb_true_iff. split; apply Z.leb_le; lia.
Qed.

(** What is read as an integer is in the 32-bit range. *)
Lemma int4_in_range (n : Number) (z : Z) : int4_in n = inr z -> int4 z.
Proof.
  unfold int4_in, int4.
  destruct (Qnum n mod Z.pos (Qden n) =? 0); [|discriminate].
  destruct ((-2147483648 <=? Qnum n / Z.pos (Qden n))
            && (Qnum n / Z.pos (Qden n) <=? 2147483647)) eqn:Hr.
  - intros E. injection E as <-. apply andb_true_iff in Hr.
    destruct Hr as [H1 H2]. apply Z.leb_le in H1, H2. lia.
  - destruct (Z.abs _ <? 10 ^ 21); discriminate.
Qed.

(** ** Running composed programs *)

Lemma then_run_after {A B : Type} (ev : Event) (r : Run A)
      (k : A -> Interference -> World -> Run B) :
  then_run (after ev r) k = after ev (then_run r k).
Proof. destruct r as [[a|e|] f t rs]; reflexivity. Qed.

Lemma catch_run_after {A : Type} (ev : Event) (r : Run A)
      (h : Exception -> Interference -> World -> Run A) :
  catch_run (after ev r) h = after ev (catch_run r h).
Proof. destruct r as [[a|e|] f t rs]; reflexivity. Qed.

Lemma exec_bind {A B : Type} (p : Prog A) (f : A -> Prog B) :
  forall env w,
    exec (bind p f) env w
    = then_run (exec p env w) (fun a env' w' => exec (f a) env' w').
Proof.
  induction p as [a|e| |k IH|k IH|entry k IH|wh ob lim k IH|e k IH|v k IH
                 |s key k IH];
    intros env w; simpl.
  - unfold then_run; simpl. now destruct (exec (f a) env w).
  - reflexivity.
  - reflexivity.
  - now rewrite IH, then_run_after.
  - apply IH.
  - now rewrite IH, then_run_after.
  - destruct (arrive env w) as [w1 env1]. now rewrite IH, then_run_after.
  - destruct (arrive env w) as [w1 env1]. now rewrite IH, then_run_after.
  - destruct (arrive env w) as [w1 env1].
    destruct (db_insert (clock w1) v (db w1)) as [d2 r].
    now rewrite IH, then_run_after.
  - destruct (arrive env w) as [w1 env1].
    destruct (db_update s (fun p => payment.id p =? key) (db w1)) as [d2 r].
    now rewrite IH, then_run_after.
Qed.

Lemma exec_try_catch {A : Type} (p : Prog A) (h : Exception -> Prog A) :
  forall env w,
    exec (try_catch p h) env w
    = catch_run (exec p env w) (fun e env' w' => exec (h e) env' w').
Proof.
  induction p as [a|e| |k IH|k IH|entry k IH|wh ob lim k IH|e k IH|v k IH
                 |s key k IH];
    intros env w; simpl.
  - reflexivity.
  - unfold catch_run; simpl. now destruct (exec (h e) env w).
  - reflexivity.
  - now rewrite IH, catch_run_after.
  - apply IH.
  - now rewrite IH, catch_run_after.
  - destruct (arrive env w) as [w1 env1]. now rewrite IH, catch_run_after.
  - destruct (arrive env w) as [w1 env1]. now rewrite IH, catch_run_after.
  - destruct (arrive env w) as [w1 env1].
    destruct (db_insert (clock w1) v (db w1)) as [d2 r].
    now rewrite IH, catch_run_after.
  - destruct (arrive env w) as [w1 env1].
    destruct (db_update s (fun p => payment.id p =? key) (db w1)) as [d2 r].
    now rewrite IH, catch_run_after.
Qed.

(** ** The webhook handler *)

Lemma exec_filter_memo (wc : string) (l : list Payment) env w :
  exec (array_filter (webhook_includes (Some wc)) l) env w
  = mkRun (Returned (filter (memo_has wc) l)) w [] env.
Proof.
  induction l as [|p l IH]; simpl; [reflexivity|].
  rewrite exec_bind, IH. unfold then_run, memo_has; simpl.
  now destruct (includes wc (payment.content p)).
Qed.

Lemma exec_filter_undefined (l : list Payment) env w :
  exec (array_filter (webhook_includes None) l) env w
  = match l with
    | [] => mkRun (Returned []) w [] env
    | _ :: _ => mkRun (Uncaught includes_error) w [] env
    end.
Proof. destruct l; reflexivity. Qed.

(** The WHERE clause of the handler for an amount the database reads as
    [amt], and for a body without amount. *)
Lemma callback_where_int4 (n : Number) (amt : Z) :
  int4_in n = inr amt -> callback_where (Some n) = inr (pending_of amt).
Proof. intros H. unfold callback_where, eq_amount. now rewrite H. Qed.

Lemma callback_where_rejected (n : Number) (e : DbError) :
  int4_in n = inl e -> callback_where (Some n) = inl e.
Proof. intros H. unfold callback_where, eq_amount. now rewrite H. Qed.

Lemma callback_where_cases (transferAmount : option Number) :
  (exists n e, transferAmount = Some n /\ int4_in n = inl e
               /\ callback_where transferAmount = inl e)
  \/ (exists n amt, transferAmount = Some n /\ int4_in n = inr amt
                    /\ callback_where transferAmount = inr (pending_of amt))
  \/ (transferAmount = None
      /\ exists f, callback_where transferAmount = inr f
                   /\ forall l, filter f l = []).
Proof.
  destruct transferAmount as [n|].
  - destruct (int4_in n) as [e|amt] eqn:Hn.
    + left. exists n, e. auto using callback_where_rejected.
    + right. left. exists n, amt. auto using callback_where_int4.
  - right. right. split; [reflexivity|]. eexists. split; [reflexivity|].
    intros l. induction l as [|p l IH]; [reflexivity|exact IH].
Qed.

(** POST /callback under any interference, as an equation. *)
Lemma exec_callback_handler (request : CallbackBody) env w :
  exec (callback_handler request) env w
  = let w1 := fst (arrive env w) in
    let env1 := snd (arrive env w) in
    after (EvLog (mkLogEntry "sepay_webhook" request))
      match callback_where (cb_transferAmount request) with
      | inl e =>
          after (EvSelectRejected e)
                (mkRun (Returned (caught (QueryError e))) w1 [] env1)
      | inr f =>
          let results := filter f (rows (db w1)) in
          after (EvSelect (db w1) results)
            match cb_content request with
            | None =>
                mkRun (Returned (match results with
                                 | [] => not_found
                                 | _ :: _ => caught includes_error
                                 end))
                      w1 [] env1
            | Some wc =>
                match filter (memo_has wc) results with
                | [] => mkRun (Returned not_found) w1 [] env1
                | first :: _ =>
                    let w2 := fst (arrive env1 w1) in
                    let env2 := snd (arrive env1 w1) in
                    let s := mkUpdateSet (cb_referenceCode request) true
                                         (clock w1) in
                    let u := db_update s (same_id first) (db w2) in
                    after (EvUpdate s (payment.id first) (snd u))
                          (mkRun (Returned (update_reply (snd u)))
                                 (with_db w2 (fst u)) [] env2)
                end
            end
      end.
Proof.
  unfold callback_handler. rewrite exec_try_catch. cbv zeta.
  cbn [exec]. rewrite catch_run_after. f_equal.
  rewrite exec_bind. unfold callback_payments. rewrite exec_bind.
  destruct (callback_where (cb_transferAmount request)) as [e|f];
    cbn [select_where select exec];
    destruct (arrive env w) as [w1 env1]; cbn [fst snd].
  - rewrite !then_run_after, catch_run_after. reflexivity.
  - rewrite !then_run_after, catch_run_after. f_equal.
    unfold then_run. cbn [outcome final rest trace exec db_select].
    destruct (cb_content request) as [wc|].
    + rewrite exec_filter_memo. cbn [outcome final rest trace app].
      destruct (filter (memo_has wc) (filter f (rows (db w1))))
        as [|first more]; unfold catch_run.
      * reflexivity.
      * cbn [outcome final rest trace exec update_by_id bind].
        destruct (arrive env1 w1) as [w2 env2]. cbn [fst snd].
        fold (same_id first).
        destruct (db_update _ (same_id first) (db w2)) as [d3 [e|]];
          reflexivity.
    + rewrite exec_filter_undefined.
      destruct (filter f (rows (db w1))); reflexivity.
Qed.

Lemma with_db_same (w : World) : with_db w (db w) = w.
Proof. now destruct w. Qed.

(** The run of the handler on a memo and an amount the database reads as
    [amt], when no other request interferes. *)
Lemma callback_run (wc : string) (n : Number) (amt : Z)
      (referenceCode : option string) (w : World) :
  int4_in n = inr amt ->
  let request := mkCallbackBody (Some wc) (Some n) referenceCode in
  let results := filter (pending_of amt) (rows (db w)) in
  exec (callback_handler request) [] w
  = match filter (memo_has wc) results with
    | [] =>
        mkRun (Returned not_found) w
              [EvLog (mkLogEntry "sepay_webhook" request); EvSelect (db w) results]
              []
    | first :: _ =>
        let s := mkUpdateSet referenceCode true (clock w) in
        let u := db_update s (same_id first) (db w) in
        mkRun (Returned (update_reply (snd u))) (with_db w (fst u))
              [EvLog (mkLogEntry "sepay_webhook" request); EvSelect (db w) results;
               EvUpdate s (payment.id first) (snd u)]
              []
    end.
Proof.
  intros Hn request results. rewrite exec_callback_handler.
  subst request. cbn [cb_content cb_transferAmount cb_referenceCode arrive fst snd].
  cbv zeta. rewrite (callback_where_int4 n amt Hn). fold results.
  destruct (filter (memo_has wc) results); reflexivity.
Qed.

Lemma exec_callback_payments (wc : string) (n : Number) (amt : Z) (w : World) :
  int4_in n = inr amt ->
  exec (callback_payments (Some wc) (Some n)) [] w
  = mkRun (Returned (filter (memo_has wc) (filter (pending_of amt) (rows (db w)))))
          w
          [EvSelect (db w) (filter (pending_of amt) (rows (db w)))]
          [].
Proof.
  intros Hn. unfold callback_payments. rewrite exec_bind.
  rewrite (callback_where_int4 n amt Hn). simpl.
  rewrite then_run_after. unfold then_run; simpl.
  rewrite exec_filter_memo. reflexivity.
Qed.

(** The run of the handler on a body without [content]. *)
Lemma callback_run_undefined (transferAmount : option Number)
      (referenceCode : option string) (w : World) :
  let request := mkCallbackBody None transferAmount referenceCode in
  exec (callback_handler request) [] w
  = match callback_where transferAmount with
    | inl e =>
        mkRun (Returned (caught (QueryError e))) w
              [EvLog (mkLogEntry "sepay_webhook" request); EvSelectRejected e] []
    | inr f =>
        mkRun (Returned (match filter f (rows (db w)) with
                         | [] => not_found
                         | _ :: _ => caught includes_error
                         end))
              w
              [EvLog (mkLogEntry "sepay_webhook" request);
               EvSelect (db w) (filter f (rows (db w)))]
              []
    end.
Proof.
  intros request. rewrite exec_callback_handler.
  subst request. cbn [cb_content cb_transferAmount cb_referenceCode arrive fst snd].
  cbv zeta. destruct (callback_where transferAmount); reflexivity.
Qed.

(** The run of the handler on an amount the database does not read as an
    integer. *)
Lemma callback_run_rejected (content : option string) (n : Number) (e : DbError)
      (referenceCode : option string) (w : World) :
  int4_in n = inl e ->
  let request := mkCallbackBody content (Some n) referenceCode in
  exec (callback_handler request) [] w
  = mkRun (Returned (caught (QueryError e))) w
          [EvLog (mkLogEntry "sepay_webhook" request); EvSelectRejected e] [].
Proof.
  intros Hn request. rewrite exec_callback_handler.
  subst request. cbn [cb_content cb_transferAmount cb_referenceCode arrive fst snd].
  cbv zeta. now rewrite (callback_where_rejected n e Hn).
Qed.

(** ** The table under an UPDATE by primary key *)

Lemma pending_of_spec (amt : Z) (p : Payment) :
  pending_of amt p = true
  <-> payment.status p = false /\ payment.amount p = amt.
Proof.
  unfold pending_of. rewrite andb_true_iff, Z.eqb_eq.
  destruct (payment.status p); simpl; intuition congruence.
Qed.

Lemma filter_same_id (first : Payment) (l : list Payment) :
  NoDup (map payment.id l) -> In first l -> filter (same_id first) l = [first].
Proof.
  unfold same_id. induction l as [|q l IH]; simpl; intros Hnd Hin; [easy|].
  inversion Hnd as [|x xs Hnot Hnd']; subst.
  assert (Hnone : forall l', ~ In (payment.id first) (map payment.id l') ->
                             filter (fun p => payment.id p =? payment.id first) l' = []).
  { induction l' as [|y l' IH']; simpl; intros Hy; [reflexivity|].
    destruct (Z.eqb_spec (payment.id y) (payment.id first)) as [E|E].
    - exfalso; apply Hy; now left.
    - apply IH'. intros Hc; apply Hy; now right. }
  destruct Hin as [->|Hin].
  - rewrite Z.eqb_refl. f_equal. now apply Hnone.
  - destruct (Z.eqb_spec (payment.id q) (payment.id first)) as [E|E].
    + exfalso. apply Hnot. rewrite E. now apply in_map.
    + now apply IH.
Qed.

Lemma in_others (first : Payment) (l : list Payment) (p : Payment) :
  In p (others first l) <-> In p l /\ payment.id p <> payment.id first.
Proof.
  unfold others, same_id. rewrite filter_In.
  destruct (Z.eqb_spec (payment.id p) (payment.id first)); simpl;
    intuition congruence.
Qed.

Lemma existsb_false {A : Type} (f : A -> bool) (l : list A) :
  existsb f l = false <-> forall x, In x l -> f x = false.
Proof.
  split.
  - intros H x Hx. destruct (f x) eqn:Hf; [|reflexivity].
    assert (Ht : existsb f l = true) by (apply existsb_exists; eauto).
    congruence.
  - intros H. destruct (existsb f l) eqn:E; [|reflexivity].
    apply existsb_exists in E. destruct E as [x [Hx Hf]].
    rewrite (H x Hx) in Hf. discriminate.
Qed.

Lemma has_txnId_spec (t : string) (p : Payment) :
  has_txnId t p = true <-> payment.txnId p = Some t.
Proof.
  unfold has_txnId. destruct (payment.txnId p) as [u|]; [|split; discriminate].
  rewrite String.eqb_eq. split; congruence.
Qed.

(** The SET clause of a [referenceCode] of at most 100 characters without
    the NUL character, or of an absent one, is stored as it is. *)
Lemma stored_set_fits (referenceCode : option string) (st : bool) (at_ : Z) :
  (forall refc, referenceCode = Some refc ->
                nul_free refc = true /\ (char_length refc <= 100)%nat) ->
  stored_set (mkUpdateSet referenceCode st at_)
  = inr (mkUpdateSet referenceCode st at_).
Proof.
  intros H. unfold stored_set. cbn [set_txnId set_status set_updatedAt].
  destruct referenceCode as [refc|]; [|reflexivity].
  destruct (H refc eq_refl) as [Hnul Hlen].
  now rewrite (varchar_fits 100 refc Hnul Hlen).
Qed.

Lemma stored_set_rejected (refc : string) (e : DbError) (st : bool) (at_ : Z) :
  varchar 100 refc = inl e ->
  stored_set (mkUpdateSet (Some refc) st at_) = inl e.
Proof.
  intros H. unfold stored_set. cbn [set_txnId]. now rewrite H.
Qed.

(** The UPDATE keyed by the id of a row of a table with distinct ids. *)
Lemma db_update_by_id (s : UpdateSet) (first : Payment) (d : Database) :
  unique_ids d -> In first (rows d) ->
  db_update s (same_id first) d
  = match stored_set s with
    | inl e => (d, Some e)
    | inr s' =>
        if match set_txnId s' with
           | Some t => existsb (has_txnId t) (others first (rows d))
           | None => false
           end
        then (d, Some (UniqueViolation "payment_txn_id_unique"))
        else (mkDatabase (others first (rows d) ++ [apply_set s' first])
                         (payment_id_seq d),
              None)
    end.
Proof.
  intros Hnd Hin. unfold db_update.
  destruct (stored_set s) as [e|s']; [reflexivity|].
  rewrite (filter_same_id first (rows d) Hnd Hin).
  fold (others first (rows d)). cbn [List.length Nat.eqb negb map].
  destruct (set_txnId s') as [t|]; [|reflexivity].
  now rewrite orb_false_r.
Qed.

(** Whatever the UPDATE answers, it leaves the table as it was, or it is
    accepted and writes the new versions of the rows of its key behind the
    other rows. *)
Lemma db_update_cases (s : UpdateSet) (f : Payment -> bool) (d : Database) :
  (fst (db_update s f d) = d
   /\ (snd (db_update s f d) = None -> filter f (rows d) = []))
  \/ (exists s' h more,
         stored_set s = inr s'
         /\ snd (db_update s f d) = None
         /\ filter f (rows d) = h :: more
         /\ fst (db_update s f d)
            = mkDatabase (filter (fun p => negb (f p)) (rows d)
                          ++ map (apply_set s') (h :: more))
                         (payment_id_seq d)
         /\ forall t, set_txnId s' = Some t ->
                      more = []
                      /\ existsb (has_txnId t)
                                 (filter (fun p => negb (f p)) (rows d)) = false).
Proof.
  unfold db_update. destruct (stored_set s) as [e|s'].
  { left. split; [reflexivity|discriminate]. }
  destruct (filter f (rows d)) as [|h more] eqn:Hhit.
  { left. simpl. auto. }
  destruct (set_txnId s') as [t|] eqn:Ht.
  - destruct (existsb (has_txnId t) _) eqn:Hdup; cbn [orb].
    + left. split; [reflexivity|discriminate].
    + destruct more as [|h' more]; cbn [List.length Nat.eqb negb].
      * right. exists s', h, [].
        split; [reflexivity|]. split; [reflexivity|]. split; [reflexivity|].
        split; [reflexivity|].
        intros t' E. rewrite Ht in E. injection E as <-. auto.
      * left. split; [reflexivity|discriminate].
  - right. exists s', h, more.
    split; [reflexivity|]. split; [reflexivity|]. split; [reflexivity|].
    split; [reflexivity|]. intros t' E. rewrite Ht in E. discriminate E.
Qed.

Lemma filter_head_split {A : Type} (f : A -> bool) (l : list A) :
  forall x xs, filter f l = x :: xs ->
               exists l1 l2, l = l1 ++ x :: l2
                             /\ (forall y, In y l1 -> f y = false)
                             /\ f x = true /\ filter f l2 = xs.
Proof.
  induction l as [|a l IH]; simpl; intros x xs H; [discriminate|].
  destruct (f a) eqn:Ha.
  - injection H as -> Hxs. exists [], l. simpl. repeat split; auto.
    intros y [].
  - destruct (IH x xs H) as [l1 [l2 [-> [H1 [Hx H2]]]]].
    exists (a :: l1), l2. simpl. repeat split; auto.
    intros y [<-|Hy]; auto.
Qed.

(** A table with distinct ids is its row of a given id and the rows of the
    other ids. *)
Lemma rows_split_by_id (first : Payment) (l : list Payment) :
  NoDup (map payment.id l) -> In first l ->
  Permutation l (first :: others first l).
Proof.
  intros Hnd Hin.
  assert (H : forall l', Permutation l' (filter (same_id first) l'
                                         ++ others first l')).
  { induction l' as [|q l' IH]; [reflexivity|].
    unfold others in *. cbn [filter].
    destruct (same_id first q); cbn [negb app].
    - now constructor.
    - rewrite IH at 1. apply Permutation_middle. }
  rewrite (H l) at 1. now rewrite (filter_same_id first l Hnd Hin).
Qed.

(** The table after an accepted UPDATE keyed by the id of [first]. *)
Lemma updated_rows_perm (first : Payment) (l : list Payment) (p : Payment) :
  Permutation (others first l ++ [p]) (p :: others first l).
Proof. symmetry. apply Permutation_cons_append. Qed.

(** ** ProcessCallback: the three ends of a run with a match *)

Lemma first_match_in_table (wc : string) (amt : Z) (l : list Payment)
      (first : Payment) (more : list Payment) :
  filter (memo_has wc) (filter (pending_of amt) l) = first :: more ->
  In first l.
Proof.
  intros Hpay.
  assert (H : In first (filter (memo_has wc) (filter (pending_of amt) l))).
  { rewrite Hpay. now left. }
  apply filter_In in H. destruct H as [H _]. apply filter_In in H. tauto.
Qed.

(** The UPDATE is accepted: the reply is the success reply and the new
    version of the first match is written behind the other rows. *)
Lemma callback_accepted (wc : string) (n : Number) (amt : Z)
      (referenceCode : option string) (w : World)
      (first : Payment) (more : list Payment) (s' : UpdateSet) :
  int4_in n = inr amt -> unique_ids (db w) ->
  filter (memo_has wc) (filter (pending_of amt) (rows (db w))) = first :: more ->
  stored_set (mkUpdateSet referenceCode true (clock w)) = inr s' ->
  (forall t p, set_txnId s' = Some t -> In p (rows (db w)) ->
               payment.id p <> payment.id first -> payment.txnId p <> Some t) ->
  let request := mkCallbackBody (Some wc) (Some n) referenceCode in
  exec (callback_handler request) [] w
  = mkRun (Returned processed)
          (with_db w (mkDatabase (others first (rows (db w)) ++ [apply_set s' first])
                                 (payment_id_seq (db w))))
          [EvLog (mkLogEntry "sepay_webhook" request);
           EvSelect (db w) (filter (pending_of amt) (rows (db w)));
           EvUpdate (mkUpdateSet referenceCode true (clock w)) (payment.id first)
                    None]
          [].
Proof.
  intros Hn Hnd Hpay Hset Hfree request. subst request.
  rewrite (callback_run wc n amt referenceCode w Hn). cbv zeta. rewrite Hpay.
  rewrite (db_update_by_id _ first (db w) Hnd
                           (first_match_in_table wc amt _ first more Hpay)).
  rewrite Hset.
  assert (Hno : match set_txnId s' with
                | Some t => existsb (has_txnId t) (others first (rows (db w)))
                | None => false
                end = false).
  { destruct (set_txnId s') as [t|] eqn:Ht; [|reflexivity].
    apply existsb_false. intros p Hp. apply in_others in Hp.
    destruct Hp as [Hp Hid].
    destruct (has_txnId t p) eqn:Hh; [|reflexivity].
    apply has_txnId_spec in Hh. exfalso. exact (Hfree t p eq_refl Hp Hid Hh). }
  rewrite Hno. reflexivity.
Qed.

(** The UPDATE is rejected because another row carries the transaction
    id: the reply is 500 and nothing changes. *)
Lemma callback_rejected_reuse (wc : string) (n : Number) (amt : Z)
      (referenceCode : option string) (w : World)
      (first other : Payment) (more : list Payment) (s' : UpdateSet) (t : string) :
  int4_in n = inr amt -> unique_ids (db w) ->
  filter (memo_has wc) (filter (pending_of amt) (rows (db w))) = first :: more ->
  stored_set (mkUpdateSet referenceCode true (clock w)) = inr s' ->
  set_txnId s' = Some t ->
  In other (rows (db w)) -> payment.id other <> payment.id first ->
  payment.txnId other = Some t ->
  let request := mkCallbackBody (Some wc) (Some n) referenceCode in
  exec (callback_handler request) [] w
  = mkRun (Returned (caught (QueryError (UniqueViolation "payment_txn_id_unique"))))
          w
          [EvLog (mkLogEntry "sepay_webhook" request);
           EvSelect (db w) (filter (pending_of amt) (rows (db w)));
           EvUpdate (mkUpdateSet referenceCode true (clock w)) (payment.id first)
                    (Some (UniqueViolation "payment_txn_id_unique"))]
          [].
Proof.
  intros Hn Hnd Hpay Hset Ht Hother Hid Htxn request. subst request.
  rewrite (callback_run wc n amt referenceCode w Hn). cbv zeta. rewrite Hpay.
  rewrite (db_update_by_id _ first (db w) Hnd
                           (first_match_in_table wc amt _ first more Hpay)).
  rewrite Hset, Ht.
  assert (Hex : existsb (has_txnId t) (others first (rows (db w))) = true).
  { apply existsb_exists. exists other. split; [now apply in_others|].
    now apply has_txnId_spec. }
  rewrite Hex. cbn [fst snd update_reply]. now rewrite with_db_same.
Qed.

(** The UPDATE is rejected for the width of [txn_id]: the reply is 500 and
    nothing changes. *)
Lemma callback_rejected_width (wc : string) (n : Number) (amt : Z)
      (referenceCode : option string) (w : World)
      (first : Payment) (more : list Payment) (e : DbError) :
  int4_in n = inr amt ->
  filter (memo_has wc) (filter (pending_of amt) (rows (db w))) = first :: more ->
  stored_set (mkUpdateSet referenceCode true (clock w)) = inl e ->
  let request := mkCallbackBody (Some wc) (Some n) referenceCode in
  exec (callback_handler request) [] w
  = mkRun (Returned (caught (QueryError e))) w
          [EvLog (mkLogEntry "sepay_webhook" request);
           EvSelect (db w) (filter (pending_of amt) (rows (db w)));
           EvUpdate (mkUpdateSet referenceCode true (clock w)) (payment.id first)
                    (Some e)]
          [].
Proof.
  intros Hn Hpay Hset request. subst request.
  rewrite (callback_run wc n amt referenceCode w Hn). cbv zeta. rewrite Hpay.
  unfold db_update. rewrite Hset. cbn [fst snd update_reply].
  now rewrite with_db_same.
Qed.

(** ** ProcessCallback: matching and the transition to paid *)

Lemma in_callback_payments (wc : string) (amt : Z) (l : list Payment) (p : Payment) :
  In p (filter (memo_has wc) (filter (pending_of amt) l))
  <-> In p l /\ payment.status p = false /\ payment.amount p = amt
      /\ is_substring (payment.content p) wc.
Proof.
  rewrite !filter_In, pending_of_spec. unfold memo_has, is_substring.
  rewrite includes_spec. tauto.
Qed.

(** C1 (as amended).  For a memo that is a string and a [transferAmount]
    the database reads as the integer [amt], the rows the handler keeps in
    [payments] are exactly the rows of the table with [status = false],
    [amount = amt] and a [content] that is a substring of the memo.  When
    there is such a row and the ids of the table are distinct:
    - with a [referenceCode] of at most 100 characters, without the NUL
      character, that no row of another id has as [txnId], the handler
      answers with the success reply, and the table is the one before with
      the first of these rows replaced by its paid version: [status =
      true], [txnId = referenceCode], [updatedAt] the instant of the
      request, the other columns kept; every other row is as it was;
    - with such a [referenceCode] that a row of another id has as [txnId],
      the UPDATE is rejected by the UNIQUE constraint on [txn_id]: the
      answer is 500 and nothing changes;
    - with a [referenceCode] the [varchar(100)] column does not take (it
      is too long, or holds the NUL character), the UPDATE is rejected: the
      answer is 500 and nothing changes;
    - without [referenceCode], the handler answers with the success reply
      and the first of these rows is paid with its [txnId] left as it
      was. *)
Theorem callback_match_marks_paid
        (w : World) (wc : string) (n : Number) (amt : Z)
        (referenceCode : option string) :
  int4_in n = inr amt ->
  let request := mkCallbackBody (Some wc) (Some n) referenceCode in
  let run := exec (callback_handler request) [] w in
  exists payments,
    outcome (exec (callback_payments (Some wc) (Some n)) [] w) = Returned payments
    /\ (forall p, In p payments
                  <-> In p (rows (db w)) /\ payment.status p = false
                      /\ payment.amount p = amt
                      /\ is_substring (payment.content p) wc)
    /\ (unique_ids (db w) ->
        forall first more, payments = first :: more ->
          (forall refc,
              referenceCode = Some refc ->
              nul_free refc = true -> (char_length refc <= 100)%nat ->
              (forall p, In p (rows (db w)) -> payment.id p <> payment.id first ->
                         payment.txnId p <> Some refc) ->
              outcome run = Returned processed
              /\ success processed = true
              /\ Permutation (rows (db (final run)))
                             (payment.mkRow (payment.id first) (Some refc)
                                            (payment.amount first)
                                            (payment.ref first)
                                            (payment.content first) true
                                            (payment.createdAt first)
                                            (Some (clock w))
                              :: others first (rows (db w))))
          /\ (forall refc other,
                 referenceCode = Some refc ->
                 nul_free refc = true -> (char_length refc <= 100)%nat ->
                 In other (rows (db w)) ->
                 payment.id other <> payment.id first ->
                 payment.txnId other = Some refc ->
                 outcome run
                 = Returned (caught (QueryError
                                       (UniqueViolation "payment_txn_id_unique")))
                 /\ final run = w)
          /\ (forall refc e,
                 referenceCode = Some refc -> varchar 100 refc = inl e ->
                 outcome run = Returned (caught (QueryError e))
                 /\ final run = w)
          /\ (referenceCode = None ->
              outcome run = Returned processed
              /\ Permutation (rows (db (final run)))
                             (payment.mkRow (payment.id first)
                                            (payment.txnId first)
                                            (payment.amount first)
                                            (payment.ref first)
                                            (payment.content first) true
                                            (payment.createdAt first)
                                            (Some (clock w))
                              :: others first (rows (db w))))).
Proof.
  intros Hn request run.
  exists (filter (memo_has wc) (filter (pending_of amt) (rows (db w)))).
  split; [now rewrite (exec_callback_payments wc n amt w Hn)|].
  split; [intros p; apply in_callback_payments|].
  intros Hnd first more Hpay. subst run request.
  split; [|split; [|split]].
  - intros refc -> Hnul Hlen Hfree.
    rewrite (callback_accepted wc n amt (Some refc) w first more
               (mkUpdateSet (Some refc) true (clock w)) Hn Hnd Hpay).
    + cbn [outcome final db with_db rows]. split; [reflexivity|].
      split; [reflexivity|]. apply updated_rows_perm.
    + apply stored_set_fits. intros r E. injection E as <-. now split.
    + intros t p E. injection E as <-. apply Hfree.
  - intros refc other -> Hnul Hlen Hother Hid Htxn.
    rewrite (callback_rejected_reuse wc n amt (Some refc) w first other more
               (mkUpdateSet (Some refc) true (clock w)) refc Hn Hnd Hpay);
      auto.
    apply stored_set_fits. intros r E. injection E as <-. now split.
  - intros refc e -> Hwide.
    rewrite (callback_rejected_width wc n amt (Some refc) w first more e Hn Hpay);
      auto.
    now apply stored_set_rejected.
  - intros ->.
    rewrite (callback_accepted wc n amt None w first more
               (mkUpdateSet None true (clock w)) Hn Hnd Hpay).
    + cbn [outcome final db with_db rows]. split; [reflexivity|].
      apply updated_rows_perm.
    + reflexivity.
    + intros t p E. discriminate E.
Qed.

Lemma callback_match_marks_paid_witness :
  outcome (exec (callback_handler
                   (mkCallbackBody (Some memo) (Some (whole 50000))
                                   (Some "FT9"%string)))
                [] sample_world)
  = Returned processed.
Proof.
  destruct (callback_match_marks_paid sample_world memo (whole 50000) 50000
                                      (Some "FT9"%string) eq_refl)
    as [payments [Hrun [_ Hpaid]]].
  vm_compute in Hrun. injection Hrun as Hrun.
  refine (proj1 (proj1 (Hpaid _ pending_row [] (eq_sym Hrun)) "FT9"%string
                       eq_refl eq_refl _ _)).
  - repeat constructor; simpl; intuition discriminate.
  - simpl. lia.
  - intros p [<-|[<-|[]]] Hid; [now contradiction Hid | discriminate].
Defined.

(** The claim C1 as stated fails when [referenceCode] is already the
    [txnId] of another row: the table has a matching pending row, and the
    UPDATE is rejected by the UNIQUE constraint on [txn_id]. *)
Lemma callback_reused_reference_rejected :
  let request := mkCallbackBody (Some memo) (Some (whole 50000))
                                (Some "FT1"%string) in
  let run := exec (callback_handler request) [] sample_world in
  outcome (exec (callback_payments (Some memo) (Some (whole 50000)))
                [] sample_world)
  = Returned [pending_row]
  /\ outcome run
     = Returned (caught (QueryError (UniqueViolation "payment_txn_id_unique")))
  /\ rows (db (final run)) = [pending_row; paid_row]
  /\ ~ (exists r, outcome run = Returned r /\ success r = true).
Proof.
  vm_compute. repeat split.
  intros [r [Hr Hs]]. injection Hr as <-. discriminate Hs.
Qed.

(** ** ProcessCallback: no match *)

(** C3 (as amended).  For a memo that is a string: when [transferAmount] is
    read by the database as the integer [amt] and no pending row has
    [amount = amt] and a [content] that is a substring of the memo, the
    handler answers 404 (not found) and leaves the table, and everything
    else, as it was.  When [transferAmount] is a number the database does
    not read as a 32-bit integer, the SELECT is rejected: the handler
    answers 500 with that error, and nothing changes either. *)
Theorem callback_no_match_not_found
        (w : World) (wc : string) (n : Number) (referenceCode : option string) :
  let run := exec (callback_handler
                     (mkCallbackBody (Some wc) (Some n) referenceCode)) [] w in
  (forall amt,
      int4_in n = inr amt ->
      (forall p, In p (rows (db w)) -> payment.status p = false ->
                 payment.amount p = amt -> ~ is_substring (payment.content p) wc) ->
      outcome run = Returned not_found
      /\ code not_found = 404
      /\ success not_found = false
      /\ final run = w)
  /\ (forall e,
         int4_in n = inl e ->
         outcome run = Returned (caught (QueryError e))
         /\ code (caught (D := unit) (QueryError e)) = 500
         /\ final run = w).
Proof.
  intros run. subst run. split.
  - intros amt Hn Hnone. rewrite (callback_run wc n amt referenceCode w Hn).
    cbv zeta.
    destruct (filter (memo_has wc) (filter (pending_of amt) (rows (db w))))
      as [|first more] eqn:Hpay.
    + repeat split.
    + exfalso.
      assert (Hin : In first (first :: more)) by now left.
      rewrite <- Hpay in Hin. apply in_callback_payments in Hin.
      destruct Hin as [Hin [Hst [Ham Hsub]]]. exact (Hnone first Hin Hst Ham Hsub).
  - intros e Hn. rewrite (callback_run_rejected (Some wc) n e referenceCode w Hn).
    repeat split.
Qed.

Lemma not_substring_longer (t s : string) :
  (String.length s < String.length t)%nat -> ~ is_substring t s.
Proof.
  intros Hlen [a [b ->]].
  assert (Happ : forall x y, String.length (x ++ y)%string
                             = (String.length x + String.length y)%nat).
  { induction x as [|c x IH]; intros y; simpl; [reflexivity|now rewrite IH]. }
  rewrite !Happ in Hlen. lia.
Qed.

Lemma callback_no_match_not_found_witness :
  outcome (exec (callback_handler
                   (mkCallbackBody (Some "tks"%string) (Some (whole 50000))
                                   (Some "FT9"%string)))
                [] sample_world)
  = Returned not_found
  /\ final (exec (callback_handler
                    (mkCallbackBody (Some "tks"%string) (Some (whole 50000))
                                    (Some "FT9"%string)))
                 [] sample_world)
     = sample_world.
Proof.
  assert (H : forall p, In p (rows (db sample_world)) ->
                        payment.status p = false -> payment.amount p = 50000 ->
                        ~ is_substring (payment.content p) "tks").
  { intros p [<-|[<-|[]]] Hst Ham.
    - apply not_substring_longer. simpl. lia.
    - discriminate Hst. }
  destruct (proj1 (callback_no_match_not_found sample_world "tks" (whole 50000)
                                               (Some "FT9"%string))
                  50000 eq_refl H)
    as [Hout [_ [_ Hfin]]].
  split; [exact Hout | exact Hfin].
Defined.

(** The claim C3 as stated fails for a [transferAmount] outside the 32-bit
    range of the [amount] column: no row has that amount, yet the SELECT is
    rejected and the handler answers 500, not 404. *)
Lemma callback_amount_out_of_range :
  let request := mkCallbackBody (Some memo) (Some (whole 2147483648))
                                (Some "FT9"%string) in
  let run := exec (callback_handler request) [] sample_world in
  (forall p, In p (rows (db sample_world)) -> payment.amount p <> 2147483648)
  /\ outcome run = Returned (caught (QueryError NumericValueOutOfRange))
  /\ code (caught (D := unit) (QueryError NumericValueOutOfRange)) = 500
  /\ outcome run <> Returned not_found.
Proof.
  split; [intros p [<-|[<-|[]]]; discriminate|].
  vm_compute. repeat split. discriminate.
Qed.

(** ** ProcessCallback: a body without [content] *)

(** C10 (as amended).  A request whose body has no [content] never changes
    a row.  With a [transferAmount] the database reads as the integer
    [amt], it is answered 500 (the exception thrown at
    [webhookContent.includes]) when the table has a pending row with
    [amount = amt], and 404 (not found) when it has none.  With a
    [transferAmount] the database does not read as a 32-bit integer it is
    answered 500 with the error of the SELECT, and without [transferAmount]
    it is answered 404. *)
Theorem callback_without_content
        (w : World) (transferAmount : option Number)
        (referenceCode : option string) :
  let run := exec (callback_handler
                     (mkCallbackBody None transferAmount referenceCode)) [] w in
  final run = w
  /\ (forall n amt,
         transferAmount = Some n -> int4_in n = inr amt ->
         ((exists p, In p (rows (db w)) /\ payment.status p = false
                     /\ payment.amount p = amt) ->
          outcome run = Returned (caught includes_error))
         /\ ((forall p, In p (rows (db w)) -> payment.status p = false ->
                        payment.amount p <> amt) ->
             outcome run = Returned not_found))
  /\ (forall n e,
         transferAmount = Some n -> int4_in n = inl e ->
         outcome run = Returned (caught (QueryError e)))
  /\ (transferAmount = None -> outcome run = Returned not_found).
Proof.
  intros run. subst run. rewrite callback_run_undefined. cbv zeta.
  split; [destruct (callback_where transferAmount); reflexivity|].
  split; [|split].
  - intros n amt -> Hn. rewrite (callback_where_int4 n amt Hn). cbn [outcome].
    destruct (filter (pending_of amt) (rows (db w))) as [|q more] eqn:Hres.
    + split; [|reflexivity].
      intros [p [Hin [Hst Ham]]]. exfalso.
      assert (Hp : In p (filter (pending_of amt) (rows (db w)))).
      { apply filter_In. split; [exact Hin|]. now apply pending_of_spec. }
      rewrite Hres in Hp. exact Hp.
    + split; [reflexivity|].
      intros Hnone. exfalso.
      assert (Hq : In q (filter (pending_of amt) (rows (db w)))).
      { rewrite Hres. now left. }
      apply filter_In in Hq. destruct Hq as [Hin Hq].
      apply pending_of_spec in Hq. destruct Hq as [Hst Ham].
      exact (Hnone q Hin Hst Ham).
  - intros n e -> Hn. now rewrite (callback_where_rejected n e Hn).
  - intros ->.
    destruct (callback_where_cases None)
      as [[n [e [E _]]]|[[n [amt [E _]]]|[_ [f [-> Hf]]]]];
      try discriminate E.
    now rewrite Hf.
Qed.

Lemma callback_without_content_witness :
  outcome (exec (callback_handler
                   (mkCallbackBody None (Some (whole 50000)) (Some "FT9"%string)))
                [] sample_world)
  = Returned (caught includes_error).
Proof.
  apply (proj1 (proj1 (proj2 (callback_without_content
                                sample_world (Some (whole 50000))
                                (Some "FT9"%string)))
                      (whole 50000) 50000 eq_refl eq_refl)).
  exists pending_row. split; [now left|]. split; reflexivity.
Defined.

(** The claim C10 as stated fails on a table with no pending row of the
    transferred amount: the callback of [filter] is never called, nothing
    is thrown, and the answer is 404. *)
Lemma callback_without_content_not_found :
  let run := exec (callback_handler
                     (mkCallbackBody None (Some (whole 50000))
                                     (Some "FT9"%string)))
                  [] empty_world in
  outcome run = Returned not_found
  /\ code not_found = 404
  /\ outcome run <> Returned (caught includes_error).
Proof. vm_compute. repeat split. discriminate. Qed.

Lemma filter_filter_and {A : Type} (f g : A -> bool) (l : list A) :
  filter f (filter g l) = filter (fun x => g x && f x) l.
Proof.
  induction l as [|x l IH]; simpl; [reflexivity|].
  destruct (g x); simpl; [destruct (f x)|]; now rewrite IH.
Qed.

Lemma filter_comm {A : Type} (f g : A -> bool) (l : list A) :
  filter f (filter g l) = filter g (filter f l).
Proof.
  rewrite !filter_filter_and. apply filter_ext. intros x. apply andb_comm.
Qed.

Lemma filter_none {A : Type} (f : A -> bool) (l : list A) :
  (forall x, In x l -> f x = false) -> filter f l = [].
Proof.
  induction l as [|x l IH]; simpl; intros H; [reflexivity|].
  rewrite (H x (or_introl eq_refl)). apply IH. intros y Hy. apply H. now right.
Qed.

Lemma filter_keeps {A : Type} (f : A -> bool) (l : list A) :
  (forall x, In x l -> f x = true) -> filter f l = l.
Proof.
  induction l as [|x l IH]; simpl; intros H; [reflexivity|].
  rewrite (H x (or_introl eq_refl)). f_equal. apply IH.
  intros y Hy. apply H. now right.
Qed.

Lemma NoDup_map_inv_eq {A B : Type} (f : A -> B) (l : list A) :
  NoDup (map f l) -> forall x y, In x l -> In y l -> f x = f y -> x = y.
Proof.
  induction l as [|a l IH]; simpl; intros Hnd x y Hx Hy Hxy; [easy|].
  inversion Hnd as [|b bs Hnot Hnd']; subst.
  destruct Hx as [->|Hx], Hy as [->|Hy]; auto.
  - exfalso. apply Hnot. rewrite Hxy. now apply in_map.
  - exfalso. apply Hnot. rewrite <- Hxy. now apply in_map.
Qed.

(** The rows of the other ids after an accepted UPDATE keyed by the id of
    [first] are the rows of the other ids before it. *)
Lemma others_updated (first p : Payment) (l : list Payment) :
  payment.id p = payment.id first ->
  others first (others first l ++ [p]) = others first l.
Proof.
  intros Hid. unfold others. rewrite filter_app.
  cbn [filter]. unfold same_id at 3. rewrite Hid, Z.eqb_refl. cbn [negb].
  rewrite app_nil_r. apply filter_keeps.
  intros x Hx. apply filter_In in Hx. tauto.
Qed.

(** The matches behind the first one have other ids. *)
Lemma later_matches_other_ids (f : Payment -> bool) (l : list Payment)
      (first : Payment) (more : list Payment) :
  NoDup (map payment.id l) -> filter f l = first :: more ->
  forall q, In q more -> same_id first q = false.
Proof.
  intros Hnd Hf q Hq.
  destruct (filter_head_split f l first more Hf) as [l1 [l2 [-> [_ [_ Hmore]]]]].
  rewrite <- Hmore in Hq. apply filter_In in Hq. destruct Hq as [Hq _].
  unfold same_id.
  destruct (Z.eqb_spec (payment.id q) (payment.id first)) as [E|E]; [|reflexivity].
  exfalso. rewrite map_app in Hnd. simpl in Hnd.
  apply NoDup_remove_2 in Hnd. apply Hnd. rewrite <- E.
  apply in_or_app. right. now apply in_map.
Qed.

(** ** ProcessCallback: several matches *)

(** C7 (as amended).  When more than one pending row matches, the row the
    handler selects is the head of [payments], which is the first matching
    row in the order of the table, and the one UPDATE it issues is keyed by
    the id of that row and sets [status = true], [txnId = referenceCode]
    and [updatedAt].  Either the database rejects that UPDATE: the answer
    is 500 and nothing changes.  Or it accepts it: the answer is the
    success reply, and the table is the one before with that one row
    replaced by its paid version.  It accepts it when [referenceCode] is
    absent, or has at most 100 characters, none of them NUL, and is not
    the [txnId] of a row of another id.  In both cases the rows of the
    other ids are what they were. *)
Theorem callback_updates_first_match_only
        (w : World) (wc : string) (n : Number) (amt : Z)
        (referenceCode : option string)
        (first second : Payment) (more : list Payment) :
  int4_in n = inr amt ->
  unique_ids (db w) ->
  outcome (exec (callback_payments (Some wc) (Some n)) [] w)
  = Returned (first :: second :: more) ->
  let run := exec (callback_handler
                     (mkCallbackBody (Some wc) (Some n) referenceCode)) [] w in
  let s := mkUpdateSet referenceCode true (clock w) in
  (exists before behind,
      rows (db w) = before ++ first :: behind
      /\ forall p, In p before ->
                   ~ (payment.status p = false /\ payment.amount p = amt
                      /\ is_substring (payment.content p) wc))
  /\ ((exists e,
          filter is_update (trace run) = [EvUpdate s (payment.id first) (Some e)]
          /\ outcome run = Returned (caught (QueryError e))
          /\ final run = w)
      \/ (exists txn,
             filter is_update (trace run) = [EvUpdate s (payment.id first) None]
             /\ outcome run = Returned processed
             /\ Permutation (rows (db (final run)))
                            (payment.mkRow (payment.id first) txn
                                           (payment.amount first)
                                           (payment.ref first)
                                           (payment.content first) true
                                           (payment.createdAt first)
                                           (Some (clock w))
                             :: others first (rows (db w)))
             /\ (referenceCode = None -> txn = payment.txnId first)
             /\ (forall refc, referenceCode = Some refc ->
                              exists t, varchar 100 refc = inr t /\ txn = Some t)))
  /\ (referenceCode = None -> outcome run = Returned processed)
  /\ (forall refc,
         referenceCode = Some refc ->
         nul_free refc = true -> (char_length refc <= 100)%nat ->
         (forall p, In p (rows (db w)) -> payment.id p <> payment.id first ->
                    payment.txnId p <> Some refc) ->
         outcome run = Returned processed)
  /\ Permutation (others first (rows (db (final run))))
                 (others first (rows (db w))).
Proof.
  intros Hn Hnd Hpay run s.
  rewrite (exec_callback_payments wc n amt w Hn) in Hpay.
  cbn [outcome] in Hpay. injection Hpay as Hpay.
  pose proof (first_match_in_table wc amt _ first _ Hpay) as Hin.
  assert (Hrun : run
                 = let u := db_update s (same_id first) (db w) in
                   mkRun (Returned (update_reply (snd u))) (with_db w (fst u))
                         [EvLog (mkLogEntry "sepay_webhook"
                                   (mkCallbackBody (Some wc) (Some n) referenceCode));
                          EvSelect (db w) (filter (pending_of amt) (rows (db w)));
                          EvUpdate s (payment.id first) (snd u)]
                         []).
  { subst run. rewrite (callback_run wc n amt referenceCode w Hn). cbv zeta.
    now rewrite Hpay. }
  rewrite (db_update_by_id s first (db w) Hnd Hin) in Hrun. cbv zeta in Hrun.
  split.
  { rewrite filter_filter_and in Hpay.
    destruct (filter_head_split _ _ _ _ Hpay)
      as [before [behind [Hrows [Hbefore _]]]].
    exists before, behind. split; [exact Hrows|].
    intros p Hp [Hst [Ham Hsub]]. specialize (Hbefore p Hp).
    assert (Ht : pending_of amt p && memo_has wc p = true).
    { apply andb_true_iff. split; [now apply pending_of_spec|].
      now apply includes_spec. }
    simpl in Hbefore. congruence. }
  destruct (stored_set s) as [e|s'] eqn:Hset.
  { (* the width of txn_id *)
    cbn [fst snd update_reply] in Hrun. rewrite with_db_same in Hrun.
    rewrite Hrun. cbn [outcome final trace filter is_update].
    split; [left; exists e; auto|]. unfold stored_set in Hset. subst s.
    cbn [set_txnId] in Hset.
    destruct referenceCode as [refc|]; [|discriminate Hset].
    split; [discriminate|]. split; [|reflexivity].
    intros r E Hnul Hlen _. injection E as <-.
    rewrite (varchar_fits 100 refc Hnul Hlen) in Hset. discriminate Hset. }
  assert (Htxn : (referenceCode = None -> set_txnId s' = None)
                 /\ (forall refc, referenceCode = Some refc ->
                                  exists t, varchar 100 refc = inr t
                                            /\ set_txnId s' = Some t)).
  { unfold stored_set in Hset. subst s. cbn [set_txnId set_status set_updatedAt] in Hset.
    destruct referenceCode as [refc|].
    - destruct (varchar 100 refc) as [e|t] eqn:Hv; [discriminate Hset|].
      injection Hset as <-. split; [discriminate|].
      intros r E. injection E as <-. exists t. split; [exact Hv|reflexivity].
    - injection Hset as <-. split; [reflexivity|]. intros r E. discriminate E. }
  assert (Hst : set_status s' = true /\ set_updatedAt s' = clock w).
  { unfold stored_set in Hset. subst s. cbn [set_txnId set_status set_updatedAt] in Hset.
    destruct referenceCode as [refc|];
      [destruct (varchar 100 refc); [discriminate Hset|]|];
      injection Hset as <-; split; reflexivity. }
  destruct Htxn as [Hnone Hsome]. destruct Hst as [Hstatus Hat].
  destruct (match set_txnId s' with
            | Some t => existsb (has_txnId t) (others first (rows (db w)))
            | None => false
            end) eqn:Hdup.
  { (* the UNIQUE constraint on txn_id *)
    cbn [fst snd update_reply] in Hrun. rewrite with_db_same in Hrun.
    rewrite Hrun. cbn [outcome final trace filter is_update].
    split; [left; eexists; auto|].
    split; [intros E; rewrite (Hnone E) in Hdup; discriminate Hdup|].
    split; [|reflexivity].
    intros refc E Hnul Hlen Hfree. exfalso.
    destruct (Hsome refc E) as [t [Ht Hs']].
    rewrite (varchar_fits 100 refc Hnul Hlen) in Ht. injection Ht as <-.
    rewrite Hs' in Hdup. apply existsb_exists in Hdup.
    destruct Hdup as [p [Hp Hh]]. apply in_others in Hp.
    apply has_txnId_spec in Hh. exact (Hfree p (proj1 Hp) (proj2 Hp) Hh). }
  (* accepted *)
  cbn [fst snd update_reply] in Hrun. rewrite Hrun.
  cbn [outcome final trace filter is_update db with_db rows].
  split.
  { right.
    exists (match set_txnId s' with
            | Some t => Some t
            | None => payment.txnId first
            end).
    split; [reflexivity|]. split; [reflexivity|]. split.
    - unfold apply_set. rewrite Hstatus, Hat. apply updated_rows_perm.
    - split.
      + intros E. now rewrite (Hnone E).
      + intros refc E. destruct (Hsome refc E) as [t [Ht Hs']].
        exists t. now rewrite Hs'. }
  split; [reflexivity|]. split; [reflexivity|].
  now rewrite others_updated.
Qed.

Lemma callback_updates_first_match_only_witness :
  outcome (exec (callback_handler
                   (mkCallbackBody (Some twin_memo) (Some (whole 50000))
                                   (Some "FT9"%string)))
                [] twin_world)
  = Returned processed.
Proof.
  refine (proj1 (proj2 (proj2 (proj2
            (callback_updates_first_match_only
               twin_world twin_memo (whole 50000) 50000 (Some "FT9"%string)
               pending_row twin_row [] eq_refl _ eq_refl))))
            "FT9"%string eq_refl eq_refl _ _).
  - repeat constructor; simpl; intuition discriminate.
  - simpl. lia.
  - intros p [<-|[<-|[<-|[]]]] Hid; discriminate.
Defined.

(** The claim C7 as stated fails when the database rejects the UPDATE: two
    pending rows match, the first is selected, and with a [referenceCode]
    that a paid row carries already the selected row is not updated; it
    stays pending, and the answer is 500. *)
Lemma callback_first_match_left_pending :
  let request := mkCallbackBody (Some twin_memo) (Some (whole 50000))
                                (Some "FT1"%string) in
  let run := exec (callback_handler request) [] twin_world in
  outcome (exec (callback_payments (Some twin_memo) (Some (whole 50000)))
                [] twin_world)
  = Returned [pending_row; twin_row]
  /\ outcome run
     = Returned (caught (QueryError (UniqueViolation "payment_txn_id_unique")))
  /\ rows (db (final run)) = [pending_row; paid_row; twin_row]
  /\ payment.status pending_row = false.
Proof. vm_compute. repeat split. Qed.

(** ** ProcessCallback: the same webhook delivered twice *)

Lemma stored_set_inv (s s' : UpdateSet) :
  stored_set s = inr s' ->
  set_status s' = set_status s
  /\ set_updatedAt s' = set_updatedAt s
  /\ (set_txnId s = None -> set_txnId s' = None)
  /\ (forall r, set_txnId s = Some r ->
                exists t, varchar 100 r = inr t /\ set_txnId s' = Some t).
Proof.
  unfold stored_set. destruct (set_txnId s) as [r|] eqn:Hr.
  - destruct (varchar 100 r) as [e|t] eqn:Hv; [discriminate|].
    intros E. injection E as <-. cbn. repeat split; try discriminate.
    intros r' E. injection E as <-. now exists t.
  - intros E. injection E as <-. repeat split; auto.
    intros r E. discriminate E.
Qed.

(** Where a run of the handler, alone, leaves the world: as it was, or
    with the table its one UPDATE answered. *)
Lemma callback_final_cases (request : CallbackBody) (w : World) :
  final (exec (callback_handler request) [] w) = w
  \/ exists n amt wc first more,
      cb_transferAmount request = Some n /\ int4_in n = inr amt
      /\ cb_content request = Some wc
      /\ filter (memo_has wc) (filter (pending_of amt) (rows (db w)))
         = first :: more
      /\ final (exec (callback_handler request) [] w)
         = with_db w (fst (db_update
                             (mkUpdateSet (cb_referenceCode request) true (clock w))
                             (same_id first) (db w))).
Proof.
  rewrite exec_callback_handler. cbn [arrive fst snd]. cbv zeta.
  destruct (callback_where_cases (cb_transferAmount request))
    as [[n [e [_ [_ ->]]]]|[[n [amt [Hta [Hn ->]]]]|[_ [f [-> Hf]]]]].
  - now left.
  - destruct (cb_content request) as [wc|] eqn:Hc; [|now left].
    destruct (filter (memo_has wc) (filter (pending_of amt) (rows (db w))))
      as [|first more] eqn:Hpay; [now left|].
    right. exists n, amt, wc, first, more. repeat split; auto.
  - rewrite Hf. destruct (cb_content request); now left.
Qed.

(** The UPDATE is rejected when a row outside its key carries the
    transaction id. *)
Lemma db_update_rejected (s s' : UpdateSet) (t : string) (f : Payment -> bool)
      (d : Database) (q h : Payment) :
  stored_set s = inr s' -> set_txnId s' = Some t ->
  In q (rows d) -> f q = true ->
  In h (rows d) -> f h = false -> payment.txnId h = Some t ->
  db_update s f d = (d, Some (UniqueViolation "payment_txn_id_unique")).
Proof.
  intros Hset Ht Hq Hfq Hh Hfh Htx. unfold db_update. rewrite Hset, Ht.
  destruct (filter f (rows d)) as [|x more] eqn:Hhit.
  - exfalso. assert (Hin : In q (filter f (rows d))) by (apply filter_In; auto).
    rewrite Hhit in Hin. exact Hin.
  - assert (Hex : existsb (has_txnId t)
                          (filter (fun p => negb (f p)) (rows d)) = true).
    { apply existsb_exists. exists h. split; [|now apply has_txnId_spec].
      apply filter_In. split; [exact Hh|]. now rewrite Hfh. }
    now rewrite Hex.
Qed.

(** A delivery that carries a [referenceCode], repeated, changes
    nothing. *)
Lemma callback_twice_same (content : option string)
      (transferAmount : option Number) (refc : string) (w : World) :
  let request := mkCallbackBody content transferAmount (Some refc) in
  final (exec (callback_handler request) []
              (final (exec (callback_handler request) [] w)))
  = final (exec (callback_handler request) [] w).
Proof.
  intros request.
  assert (Hsame : forall w', final (exec (callback_handler request) [] w) = w' ->
                             final (exec (callback_handler request) [] w') = w' ->
                             final (exec (callback_handler request) []
                                         (final (exec (callback_handler request) [] w)))
                             = final (exec (callback_handler request) [] w)).
  { intros w' H1 H2. now rewrite H1, H2. }
  destruct (callback_final_cases request w)
    as [Hw|[n [amt [wc [first [more [Hta [Hn [Hc [Hpay Hfin]]]]]]]]]].
  { apply (Hsame w Hw Hw). }
  cbn [request cb_referenceCode cb_transferAmount cb_content] in *.
  set (s := mkUpdateSet (Some refc) true (clock w)) in *.
  destruct (db_update_cases s (same_id first) (db w))
    as [[Hd _]|[s' [h [more' [Hset [_ [Hhit [Hd Hone]]]]]]]].
  { rewrite Hd, with_db_same in Hfin. apply (Hsame w Hfin Hfin). }
  destruct (stored_set_inv s s' Hset) as [Hstatus [_ [_ Hsome]]].
  destruct (Hsome refc eq_refl) as [t [_ Ht]].
  destruct (Hone t Ht) as [-> _]. cbn [map] in Hd.
  set (w1 := with_db w (fst (db_update s (same_id first) (db w)))) in *.
  apply (Hsame w1 Hfin).
  destruct (callback_final_cases request w1)
    as [Hw1|[n' [amt' [wc' [next [more2 [Hta' [Hn' [Hc' [Hpay' Hfin']]]]]]]]]];
    [exact Hw1|].
  cbn [request cb_referenceCode cb_transferAmount cb_content] in *.
  rewrite Hta in Hta'. injection Hta' as <-. rewrite Hn in Hn'.
  injection Hn' as <-. rewrite Hc in Hc'. injection Hc' as <-.
  rewrite Hfin'. replace (clock w1) with (clock w) by reflexivity. fold s.
  assert (Hh : In h (rows (db w)) /\ same_id first h = true).
  { apply filter_In. rewrite Hhit. now left. }
  assert (Hrows1 : rows (db w1)
                   = filter (fun p => negb (same_id first p)) (rows (db w))
                     ++ [apply_set s' h]).
  { unfold w1. cbn [db with_db]. now rewrite Hd. }
  assert (Hnext : In next (rows (db w1)) /\ payment.status next = false).
  { assert (H : In next (filter (memo_has wc)
                                (filter (pending_of amt) (rows (db w1))))).
    { rewrite Hpay'. now left. }
    apply in_callback_payments in H. tauto. }
  destruct Hnext as [Hnext Hpending].
  assert (Hkept : same_id first next = false).
  { rewrite Hrows1 in Hnext. apply in_app_or in Hnext.
    destruct Hnext as [Hk|[E|[]]].
    - apply filter_In in Hk. destruct Hk as [_ Hk].
      now apply negb_true_iff in Hk.
    - exfalso. rewrite <- E in Hpending. cbn in Hpending.
      rewrite Hstatus in Hpending. discriminate Hpending. }
  rewrite (db_update_rejected s s' t (same_id next) (db w1) next (apply_set s' h)
                              Hset Ht Hnext).
  - cbn [fst]. apply with_db_same.
  - apply Z.eqb_refl.
  - rewrite Hrows1. apply in_or_app. right. now left.
  - unfold same_id in *. cbn [apply_set payment.id].
    destruct Hh as [_ Hh]. apply Z.eqb_eq in Hh. rewrite Hh.
    rewrite Z.eqb_sym. exact Hkept.
  - cbn [apply_set payment.txnId]. now rewrite Ht.
Qed.

Lemma unique_ids_updated (first p : Payment) (d : Database) :
  unique_ids d -> In first (rows d) -> payment.id p = payment.id first ->
  unique_ids (mkDatabase (others first (rows d) ++ [p]) (payment_id_seq d)).
Proof.
  intros Hnd Hin Hid. unfold unique_ids in *. cbn [rows].
  apply (Permutation_NoDup (l := map payment.id (rows d))); [|exact Hnd].
  rewrite (rows_split_by_id first (rows d) Hnd Hin) at 1.
  rewrite map_app. cbn [map]. rewrite Hid.
  apply Permutation_cons_append.
Qed.

(** The matches that are left after the first one was paid. *)
Lemma candidates_after_paid (wc : string) (amt : Z) (first : Payment)
      (more : list Payment) (s : UpdateSet) (l : list Payment) :
  NoDup (map payment.id l) ->
  filter (memo_has wc) (filter (pending_of amt) l) = first :: more ->
  set_status s = true ->
  filter (memo_has wc)
         (filter (pending_of amt) (others first l ++ [apply_set s first]))
  = more.
Proof.
  intros Hnd Hpay Hst. rewrite !filter_app. cbn [filter].
  replace (pending_of amt (apply_set s first)) with false
    by (unfold pending_of; cbn; rewrite Hst; now rewrite andb_false_r).
  cbn [filter]. rewrite app_nil_r. unfold others.
  rewrite (filter_comm (pending_of amt)), (filter_comm (memo_has wc)), Hpay.
  cbn [filter]. unfold same_id at 1. rewrite Z.eqb_refl. cbn [negb].
  apply filter_keeps. intros q Hq.
  rewrite filter_filter_and in Hpay.
  now rewrite (later_matches_other_ids _ _ _ _ Hnd Hpay q Hq).
Qed.

(** C4 (as amended).  The second delivery of a webhook that carries a
    [referenceCode] never changes a row.  When the memo is a string, the
    amount is read by the database as an integer, some pending row
    matches, the ids of the table are distinct and [referenceCode] has at
    most 100 characters, none of them NUL, and is not yet the [txnId] of a
    row, the first delivery is answered with the success reply and turns
    one row, the first match and no other, to paid; the second delivery is
    answered 404 (not found) when that row was the only match, and 500 (its
    UPDATE is rejected by the UNIQUE constraint on [txn_id]) when there
    were more. *)
Theorem callback_delivered_twice
        (w : World) (content : option string) (transferAmount : option Number)
        (refc : string) :
  let request := mkCallbackBody content transferAmount (Some refc) in
  let run1 := exec (callback_handler request) [] w in
  let run2 := exec (callback_handler request) [] (final run1) in
  final run2 = final run1
  /\ (forall wc n amt first more,
         content = Some wc -> transferAmount = Some n -> int4_in n = inr amt ->
         unique_ids (db w) ->
         nul_free refc = true -> (char_length refc <= 100)%nat ->
         (forall p, In p (rows (db w)) -> payment.txnId p <> Some refc) ->
         outcome (exec (callback_payments content transferAmount) [] w)
         = Returned (first :: more) ->
         outcome run1 = Returned processed
         /\ Permutation (rows (db (final run1)))
                        (payment.mkRow (payment.id first) (Some refc)
                                       (payment.amount first) (payment.ref first)
                                       (payment.content first) true
                                       (payment.createdAt first) (Some (clock w))
                         :: others first (rows (db w)))
         /\ (more = [] -> outcome run2 = Returned not_found)
         /\ (more <> [] ->
             outcome run2
             = Returned (caught (QueryError
                                   (UniqueViolation "payment_txn_id_unique"))))).
Proof.
  intros request run1 run2. subst run1 run2 request.
  split; [apply callback_twice_same|].
  intros wc n amt first more -> -> Hn Hnd Hnul Hlen Hfresh Hpay.
  rewrite (exec_callback_payments wc n amt w Hn) in Hpay.
  cbn [outcome] in Hpay. injection Hpay as Hpay.
  pose proof (first_match_in_table wc amt _ first more Hpay) as Hin.
  set (s := mkUpdateSet (Some refc) true (clock w)).
  assert (Hset : stored_set s = inr s).
  { apply stored_set_fits. intros r E. injection E as <-. now split. }
  rewrite (callback_accepted wc n amt (Some refc) w first more s Hn Hnd Hpay Hset).
  2:{ intros t p E Hp _. injection E as <-. now apply Hfresh. }
  cbn [outcome final db with_db rows]. split; [reflexivity|].
  split; [apply updated_rows_perm|].
  set (w1 := with_db w (mkDatabase (others first (rows (db w)) ++ [apply_set s first])
                                   (payment_id_seq (db w)))).
  assert (Hpay1 : filter (memo_has wc) (filter (pending_of amt) (rows (db w1)))
                  = more).
  { unfold w1. cbn [db with_db rows].
    now apply candidates_after_paid. }
  destruct more as [|next more'].
  - split; [|congruence]. intros _.
    rewrite (callback_run wc n amt (Some refc) w1 Hn). cbv zeta.
    now rewrite Hpay1.
  - split; [discriminate|]. intros _.
    assert (Hid : payment.id (apply_set s first) <> payment.id next).
    { cbn [apply_set payment.id]. intros E.
      rewrite filter_filter_and in Hpay.
      pose proof (later_matches_other_ids _ _ _ _ Hnd Hpay next
                                          (or_introl eq_refl)) as Hne.
      unfold same_id in Hne. rewrite E, Z.eqb_refl in Hne. discriminate Hne. }
    rewrite (callback_rejected_reuse wc n amt (Some refc) w1 next
               (apply_set s first) more' s refc Hn);
      auto.
    + unfold w1. cbn [db with_db].
      now apply unique_ids_updated.
    + unfold w1. cbn [db with_db rows]. apply in_or_app. right. now left.
Qed.

Lemma callback_delivered_twice_witness :
  outcome (exec (callback_handler
                   (mkCallbackBody (Some memo) (Some (whole 50000))
                                   (Some "FT9"%string)))
                []
                (final (exec (callback_handler
                                (mkCallbackBody (Some memo) (Some (whole 50000))
                                                (Some "FT9"%string)))
                             [] sample_world)))
  = Returned not_found.
Proof.
  refine (proj1 (proj2 (proj2
            (proj2 (callback_delivered_twice sample_world (Some memo)
                                             (Some (whole 50000)) "FT9")
                   memo (whole 50000) 50000 pending_row []
                   eq_refl eq_refl eq_refl _ eq_refl _ _ eq_refl))) eq_refl).
  - repeat constructor; simpl; intuition discriminate.
  - simpl. lia.
  - intros p [<-|[<-|[]]]; discriminate.
Defined.

(** The claim C4 as stated fails on a table in which two pending rows match
    the webhook: the first delivery turns the first of them to paid; the
    second delivery selects the other one, its UPDATE is rejected by the
    UNIQUE constraint on [txn_id], and the answer is 500, not 404. *)
Lemma callback_second_delivery_server_error :
  let request := mkCallbackBody (Some twin_memo) (Some (whole 50000))
                                (Some "FT9"%string) in
  let run1 := exec (callback_handler request) [] twin_world in
  let run2 := exec (callback_handler request) [] (final run1) in
  outcome run1 = Returned processed
  /\ outcome run2
     = Returned (caught (QueryError (UniqueViolation "payment_txn_id_unique")))
  /\ outcome run2 <> Returned not_found.
Proof. vm_compute. repeat split. discriminate. Qed.
(** ** The token generator *)

Lemma existing_of_taken (d : Database) (token : string) :
  (List.length (existing_of d token) =? 0)%nat = negb (taken d token).
Proof.
  unfold existing_of, taken, db_select.
  induction (rows d) as [|p l IH]; simpl; [reflexivity|].
  destruct (String.eqb (payment.content p) token); simpl; [reflexivity|exact IH].
Qed.

Lemma taken_spec (d : Database) (token : string) :
  taken d token = false
  <-> forall p, In p (rows d) -> payment.content p <> token.
Proof.
  unfold taken. split.
  - intros H p Hp E.
    assert (Ht : existsb (fun q => String.eqb (payment.content q) token) (rows d)
                 = true).
    { apply existsb_exists. exists p. split; [exact Hp|].
      now apply String.eqb_eq. }
    congruence.
  - intros H.
    destruct (existsb (fun q => String.eqb (payment.content q) token) (rows d))
      eqn:E; [|reflexivity]. exfalso.
    apply existsb_exists in E. destruct E as [p [Hp E]].
    apply String.eqb_eq in E. exact (H p Hp E).
Qed.

Lemma exec_while_loop_unique (fuel : nat) (content : option string)
      (attempts : nat) env w :
  exec (while_loop fuel content true attempts) env w
  = mkRun (Returned (content, true)) w [] env.
Proof. destruct fuel; reflexivity. Qed.

Lemma exec_while_loop_exhausted (fuel : nat) (content : option string)
      (isUnique : bool) (attempts : nat) env w :
  (maxAttempts <= attempts)%nat ->
  exec (while_loop fuel content isUnique attempts) env w
  = mkRun (Returned (content, isUnique)) w [] env.
Proof.
  intros H. apply Nat.ltb_ge in H.
  destruct fuel; simpl; rewrite H, andb_false_r; reflexivity.
Qed.

(** Under any interference the loop stops within its fuel, after at most
    [maxAttempts - attempts] attempts, and does nothing but draw tokens and
    read. *)
Lemma while_loop_attempts (fuel : nat) :
  forall content isUnique attempts env w,
    (maxAttempts - attempts <= fuel)%nat ->
    let run := exec (while_loop fuel content isUnique attempts) env w in
    (exists r, outcome run = Returned r)
    /\ exists n, attempts_trace n (trace run)
                 /\ (n <= maxAttempts - attempts)%nat.
Proof.
  induction fuel as [|fuel IH]; intros content isUnique attempts env w Hfuel.
  - rewrite exec_while_loop_exhausted by lia. simpl.
    split; [eauto|]. exists 0%nat. split; [constructor|lia].
  - destruct isUnique.
    { rewrite exec_while_loop_unique. simpl.
      split; [eauto|]. exists 0%nat. split; [constructor|lia]. }
    destruct (Nat.ltb_spec attempts maxAttempts) as [Hlt|Hge].
    2:{ rewrite exec_while_loop_exhausted by lia. simpl.
        split; [eauto|]. exists 0%nat. split; [constructor|lia]. }
    cbn [while_loop]. apply Nat.ltb_lt in Hlt. rewrite Hlt. apply Nat.ltb_lt in Hlt.
    cbn [negb andb exec bind select]. destruct (arrive env _) as [w1 env1].
    cbn [exec bind].
    match goal with
    | |- context [exec (while_loop fuel ?c ?u ?a) ?e ?x] =>
        destruct (IH c u a e x ltac:(lia)) as [[r Hr] [n [Htr Hn]]]
    end.
    cbv zeta. cbn [after outcome trace]. split; [eauto|].
    exists (S n). split; [now constructor|lia].
Qed.

Lemma last_cons {A : Type} (x d : A) (l : list A) : last (x :: l) d = last l x.
Proof.
  revert x d. induction l as [|y l IH]; intros x d; [reflexivity|].
  change (last (x :: y :: l) d) with (last (y :: l) d). now rewrite !IH.
Qed.

Lemma tokens_drawn_length (d : Database) (source : nat -> string) (n : nat) :
  forall calls, (List.length (tokens_drawn d source calls n) <= n)%nat.
Proof.
  induction n as [|n IH]; intros calls; simpl; [lia|].
  destruct (taken d (source calls)); simpl; [specialize (IH (S calls))|]; lia.
Qed.

(** The loop running alone, as an equation. *)
Lemma exec_while_loop_alone (fuel : nat) :
  forall content attempts w,
    (maxAttempts - attempts <= fuel)%nat ->
    exec (while_loop fuel content false attempts) [] w
    = let tokens := tokens_drawn (db w) (nanoid_source w) (nanoid_calls w)
                                 (maxAttempts - attempts) in
      mkRun (Returned (last (map Some tokens) content,
                       negb (forallb (taken (db w)) tokens)))
            (drew w (List.length tokens))
            (attempt_events (db w) tokens)
            [].
Proof.
  induction fuel as [|fuel IH]; intros content attempts w Hfuel.
  - rewrite exec_while_loop_exhausted by lia.
    replace (maxAttempts - attempts)%nat with 0%nat by lia.
    destruct w; unfold drew; simpl. now rewrite Nat.add_0_r.
  - destruct (Nat.ltb_spec attempts maxAttempts) as [Hlt|Hge].
    2:{ rewrite exec_while_loop_exhausted by lia.
        replace (maxAttempts - attempts)%nat with 0%nat by lia.
        destruct w; unfold drew; simpl. now rewrite Nat.add_0_r. }
    replace (maxAttempts - attempts)%nat with (S (maxAttempts - S attempts))
      by lia.
    cbn [while_loop]. apply Nat.ltb_lt in Hlt. rewrite Hlt.
    cbn [negb andb exec bind select arrive db].
    fold (existing_of (db w) (nanoid_source w (nanoid_calls w))).
    rewrite existing_of_taken. cbn [tokens_drawn]. cbv zeta.
    destruct (taken (db w) (nanoid_source w (nanoid_calls w))) eqn:Htaken.
    + cbn [negb]. rewrite IH by lia. cbv zeta.
      cbn [db nanoid_source nanoid_calls clock after outcome final trace rest].
      cbn [map forallb List.length attempt_events flat_map app].
      rewrite Htaken, last_cons. cbn [andb]. unfold drew.
      cbn [db nanoid_source nanoid_calls clock].
      now rewrite Nat.add_succ_r.
    + cbn [negb]. rewrite exec_while_loop_unique.
      cbn [after outcome final trace rest map last forallb List.length
                 attempt_events flat_map app].
      rewrite Htaken. unfold drew. cbn [andb negb].
      now rewrite Nat.add_1_r.
Qed.

(** [generateUniqueContent] running alone, as an equation. *)
Lemma exec_generateUniqueContent_alone (w : World) :
  exec generateUniqueContent [] w
  = let tokens := tokens_drawn (db w) (nanoid_source w) (nanoid_calls w)
                               maxAttempts in
    mkRun (if forallb (taken (db w)) tokens
           then Uncaught exhausted
           else Returned (last (map Some tokens) None))
          (drew w (List.length tokens))
          (attempt_events (db w) tokens)
          [].
Proof.
  unfold generateUniqueContent. rewrite exec_bind.
  rewrite (exec_while_loop_alone maxAttempts None 0 w) by lia.
  rewrite Nat.sub_0_r. cbv zeta. unfold then_run. cbn [outcome final rest trace snd fst].
  destruct (forallb (taken (db w)) _); cbn [negb exec outcome final trace rest];
    now rewrite app_nil_r.
Qed.

(** Under any interference [generateUniqueContent] terminates, draws at
    most [maxAttempts] tokens, reads once per token and writes nothing. *)
Lemma generateUniqueContent_attempts env w :
  let run := exec generateUniqueContent env w in
  outcome run <> OutOfFuel
  /\ exists n, attempts_trace n (trace run) /\ (n <= maxAttempts)%nat.
Proof.
  intros run. subst run. unfold generateUniqueContent. rewrite exec_bind.
  destruct (while_loop_attempts maxAttempts None false 0 env w)
    as [[r Hr] [n [Htr Hn]]]; [lia|].
  unfold then_run. rewrite Hr.
  destruct (negb (snd r)); cbn [exec outcome trace];
    (split; [discriminate|]); exists n; rewrite app_nil_r;
    (split; [exact Htr|lia]).
Qed.

(** ** CreatePayment *)

Lemma existing_ref_exists (d : Database) (ref : string) :
  (0 <? List.length (existing_ref d ref))%nat = ref_exists d ref.
Proof.
  unfold existing_ref, ref_exists, db_select.
  induction (rows d) as [|p l IH]; simpl; [reflexivity|].
  destruct (String.eqb (payment.ref p) ref); simpl; [reflexivity|exact IH].
Qed.

Lemma exec_init_handler (request : InitBody) env w :
  exec (init_handler request) env w
  = let w1 := fst (arrive env w) in
    let env1 := snd (arrive env w) in
    let existingRef := existing_ref (db w1) (init_ref request) in
    after (EvSelect (db w1) existingRef)
          (if ref_exists (db w1) (init_ref request)
           then mkRun (Returned duplicate_reference) w1 [] env1
           else catch_run (exec (create_after_check request) env1 w1)
                          (fun e env' w' => mkRun (Returned (caught e)) w' [] env')).
Proof.
  unfold init_handler. rewrite exec_try_catch. cbv zeta.
  rewrite exec_bind. cbn [select exec]. destruct (arrive env w) as [w1 env1].
  cbn [fst snd]. rewrite then_run_after, catch_run_after. f_equal.
  unfold then_run. cbn [outcome final rest trace].
  fold (existing_ref (db w1) (init_ref request)). rewrite existing_ref_exists.
  destruct (ref_exists (db w1) (init_ref request)).
  - reflexivity.
  - fold (create_after_check request).
    destruct (exec (create_after_check request) env1 w1) as [[a|e|] f t rs];
      reflexivity.
Qed.

(** The handler running alone, as an equation. *)
Lemma exec_init_handler_alone (request : InitBody) (w : World) :
  exec (init_handler request) [] w
  = let checked := EvSelect (db w) (existing_ref (db w) (init_ref request)) in
    let tokens := tokens_drawn (db w) (nanoid_source w) (nanoid_calls w)
                               maxAttempts in
    let content := last (map Some tokens) None in
    let v := mkInsertValues (init_amount request) (init_ref request) content in
    let u := db_insert (clock w) v (db w) in
    if ref_exists (db w) (init_ref request)
    then mkRun (Returned duplicate_reference) w [checked] []
    else if forallb (taken (db w)) tokens
    then mkRun (Returned (caught exhausted)) (drew w (List.length tokens))
               (checked :: attempt_events (db w) tokens) []
    else mkRun (Returned (insert_reply request content (snd u)))
               (with_db (drew w (List.length tokens)) (fst u))
               (checked :: attempt_events (db w) tokens ++ [EvInsert v (snd u)])
               [].
Proof.
  rewrite exec_init_handler. cbn [arrive fst snd]. cbv zeta.
  destruct (ref_exists (db w) (init_ref request)); [reflexivity|].
  unfold create_after_check. rewrite exec_bind, exec_generateUniqueContent_alone.
  cbv zeta. unfold then_run, catch_run. cbn [outcome final rest trace].
  destruct (forallb (taken (db w)) _).
  - cbn [outcome final rest trace after]. now rewrite app_nil_r.
  - cbn [outcome final rest trace after insert bind exec arrive await_result
                 drew db clock].
    destruct (db_insert (clock w) _ (db w)) as [d2 [e|]];
      cbn [outcome final rest trace after exec await_result bind fst snd
                   insert_reply app];
      unfold after; cbn [outcome final rest trace];
      rewrite ?app_nil_r; reflexivity.
Qed.

(** C5.  When the table has a row with the [ref] of the request, the
    handler answers 400 with the duplicate-reference failure, issues no
    INSERT, and leaves the table, and everything else, as it was. *)
Theorem init_duplicate_reference (request : InitBody) (w : World) :
  (exists p, In p (rows (db w)) /\ payment.ref p = init_ref request) ->
  let run := exec (init_handler request) [] w in
  outcome run = Returned duplicate_reference
  /\ code duplicate_reference = 400
  /\ success duplicate_reference = false
  /\ (forall v r, ~ In (EvInsert v r) (trace run))
  /\ final run = w.
Proof.
  intros [p [Hin Href]] run. subst run. rewrite exec_init_handler_alone. cbv zeta.
  assert (Hex : ref_exists (db w) (init_ref request) = true).
  { apply existsb_exists. exists p. split; [exact Hin|]. now apply String.eqb_eq. }
  rewrite Hex. cbn [outcome trace final]. repeat split.
  intros v r [Hev|[]]. discriminate Hev.
Qed.

Lemma init_duplicate_reference_witness :
  outcome (exec (init_handler (mkInitBody (whole 99000) "order-2")) [] sample_world)
  = Returned duplicate_reference
  /\ final (exec (init_handler (mkInitBody (whole 99000) "order-2")) [] sample_world)
     = sample_world.
Proof.
  assert (H : exists p, In p (rows (db sample_world))
                        /\ payment.ref p = init_ref (mkInitBody (whole 99000) "order-2")).
  { exists paid_row. split; [right; now left | reflexivity]. }
  destruct (init_duplicate_reference (mkInitBody (whole 99000) "order-2") sample_world H)
    as [Hout [_ [_ [_ Hfin]]]].
  split; [exact Hout | exact Hfin].
Defined.

Lemma attempts_trace_no_insert (n : nat) (tr : list Event) :
  attempts_trace n tr -> forall v r, ~ In (EvInsert v r) tr.
Proof.
  induction 1 as [|n token seen result tr Htr IH]; intros v r; simpl.
  - tauto.
  - intros [E|[E|Hin]]; [discriminate E | discriminate E | exact (IH v r Hin)].
Qed.

(** C6 (as amended).  Whatever other requests commit in between, when the
    INSERT of the handler is rejected for a uniqueness violation the handler
    answers 500 with the message of that rejection; this is not the reply
    of the check of [ref], which is 400. *)
Theorem init_insert_rejected_is_server_error
        (request : InitBody) (env : Interference) (w : World)
        (constraint : string) :
  let run := exec (init_handler request) env w in
  (exists v, In (EvInsert v (Some (UniqueViolation constraint))) (trace run)) ->
  outcome run = Returned (caught (QueryError (UniqueViolation constraint)))
  /\ code (caught (D := InitData) (QueryError (UniqueViolation constraint))) = 500
  /\ caught (QueryError (UniqueViolation constraint)) <> duplicate_reference.
Proof.
  intros run [v Hev]. subst run. rewrite exec_init_handler in *.
  cbv zeta in *. destruct (arrive env w) as [w1 env1]. cbn [fst snd] in *.
  split; [|split; [reflexivity|discriminate]].
  destruct (ref_exists (db w1) (init_ref request)).
  { destruct Hev as [E|[]]. discriminate E. }
  unfold create_after_check in *. rewrite exec_bind in *.
  destruct (generateUniqueContent_attempts env1 w1) as [_ [n [Htr _]]].
  pose proof (attempts_trace_no_insert n _ Htr) as Hno.
  destruct (exec generateUniqueContent env1 w1) as [[content|e|] w2 tr env2];
    unfold then_run, catch_run in *; cbn [outcome final rest trace after] in *.
  - cbn [insert bind exec] in *. destruct (arrive env2 w2) as [w3 env3].
    destruct (db_insert (clock w3) _ (db w3)) as [d4 [e|]];
      cbn [await_result bind exec outcome final rest trace after] in *.
    + rewrite app_nil_r in Hev. destruct Hev as [E|Hev]; [discriminate E|].
      apply in_app_or in Hev. destruct Hev as [Hev|[E|[]]].
      * exfalso. exact (Hno _ _ Hev).
      * injection E as _ ->. reflexivity.
    + exfalso. destruct Hev as [E|Hev]; [discriminate E|].
      apply in_app_or in Hev. destruct Hev as [Hev|[E|[]]].
      * exact (Hno _ _ Hev).
      * discriminate E.
  - exfalso. rewrite app_nil_r in Hev.
    destruct Hev as [E|Hev]; [discriminate E | exact (Hno _ _ Hev)].
  - exfalso. destruct Hev as [E|Hev]; [discriminate E | exact (Hno _ _ Hev)].
Qed.

Lemma init_insert_rejected_is_server_error_witness :
  outcome (exec (init_handler (mkInitBody (whole 99000) "order-9")) race sample_world)
  = Returned (caught (QueryError (UniqueViolation "payment_ref_unique"))).
Proof.
  apply (init_insert_rejected_is_server_error
           (mkInitBody (whole 99000) "order-9") race sample_world "payment_ref_unique").
  exists (mkInsertValues (whole 99000) "order-9" (Some "AAAAAAAAAAA")).
  vm_compute. right. right. right. left. reflexivity.
Defined.

(** The claim C6 as stated fails when a concurrent request wins the race
    on [ref]: the INSERT is rejected for the uniqueness violation and the
    handler answers 500 with the caught error, not the 400 of the check. *)
Lemma init_race_is_not_duplicate_reference :
  let run := exec (init_handler (mkInitBody (whole 99000) "order-9")) race sample_world in
  In (EvInsert (mkInsertValues (whole 99000) "order-9" (Some "AAAAAAAAAAA"))
               (Some (UniqueViolation "payment_ref_unique")))
     (trace run)
  /\ outcome run
     = Returned (caught (QueryError (UniqueViolation "payment_ref_unique")))
  /\ outcome run <> Returned duplicate_reference.
Proof.
  vm_compute. split; [|split; [reflexivity|discriminate]].
  right. right. right. left. reflexivity.
Qed.

(** ** The tokens of a run of attempts *)

Lemma tokens_all_taken (d : Database) (source : nat -> string) (n : nat) :
  forall calls,
    (forall i, (i < n)%nat -> taken d (source (calls + i)%nat) = true) ->
    forallb (taken d) (tokens_drawn d source calls n) = true
    /\ List.length (tokens_drawn d source calls n) = n.
Proof.
  induction n as [|n IH]; intros calls H; simpl; [auto|].
  assert (H0 : taken d (source calls) = true).
  { rewrite <- (Nat.add_0_r calls). apply H. lia. }
  rewrite H0. simpl. rewrite ?H0. simpl.
  destruct (IH (S calls)) as [Hall Hlen].
  { intros i Hi. replace (S calls + i)%nat with (calls + S i)%nat by lia.
    apply H. lia. }
  now rewrite Hall, Hlen.
Qed.

(** When some token drawn is free, the last one is, and it is the value
    [content] holds at the end of the loop. *)
Lemma tokens_last_free (d : Database) (source : nat -> string) (n : nat) :
  forall calls,
    forallb (taken d) (tokens_drawn d source calls n) = false ->
    exists i, (i < n)%nat
              /\ last (map Some (tokens_drawn d source calls n)) None
                 = Some (source (calls + i)%nat)
              /\ taken d (source (calls + i)%nat) = false.
Proof.
  induction n as [|n IH]; intros calls H; [discriminate|].
  cbn [tokens_drawn forallb] in H. cbn [tokens_drawn map]. rewrite last_cons.
  destruct (taken d (source calls)) eqn:Htaken.
  - cbn [andb] in H.
    destruct (IH (S calls) H) as [i [Hi [Hlast Hfree]]].
    exists (S i). replace (calls + S i)%nat with (S calls + i)%nat by lia.
    split; [lia|]. split; [|exact Hfree].
    rewrite <- Hlast. destruct (tokens_drawn d source (S calls) n) as [|t ts].
    + simpl in Hlast. discriminate.
    + cbn [map]. now rewrite !last_cons.
  - exists 0%nat. rewrite Nat.add_0_r. split; [lia|]. simpl. auto.
Qed.

(** ** The table under an INSERT *)

(** What an INSERT answers: it is rejected and adds no row, or its values
    fit their columns, no row has the id, the [ref] or the [content] of the
    new one, and the new row is the last of the table. *)
Lemma db_insert_cases (now : Z) (v : InsertValues) (d : Database) :
  (exists e, snd (db_insert now v d) = Some e
             /\ rows (fst (db_insert now v d)) = rows d)
  \/ (exists amount ref token c,
         int4_in (ins_amount v) = inr amount
         /\ varchar 50 (ins_ref v) = inr ref
         /\ ins_content v = Some token
         /\ varchar 20 token = inr c
         /\ existsb (fun p => payment.id p =? payment_id_seq d) (rows d) = false
         /\ existsb (fun p => String.eqb (payment.ref p) ref) (rows d) = false
         /\ existsb (fun p => String.eqb (payment.content p) c) (rows d) = false
         /\ db_insert now v d
            = (mkDatabase
                 (rows d ++ [payment.mkRow (payment_id_seq d) None amount ref c
                                           false now None])
                 (payment_id_seq d + 1),
               None)).
Proof.
  unfold db_insert.
  destruct (int4_in (ins_amount v)) as [e|amount] eqn:Ha;
    [left; eexists; split; reflexivity|].
  destruct (negb _);
    [left; eexists; split; reflexivity|].
  destruct (varchar 50 (ins_ref v)) as [e|ref] eqn:Hr;
    [left; eexists; split; reflexivity|].
  destruct (ins_content v) as [token|] eqn:Ht;
    [|left; eexists; split; reflexivity].
  destruct (varchar 20 token) as [e|c] eqn:Hc;
    [left; eexists; split; reflexivity|].
  destruct (existsb (fun p => payment.id p =? payment_id_seq d) (rows d)) eqn:H1;
    [left; eexists; split; reflexivity|].
  destruct (existsb (fun p => String.eqb (payment.ref p) ref) (rows d)) eqn:H2;
    [left; eexists; split; reflexivity|].
  destruct (existsb (fun p => String.eqb (payment.content p) c) (rows d)) eqn:H3;
    [left; eexists; split; reflexivity|].
  right. exists amount, ref, token, c. repeat split; assumption.
Qed.

(** ** Generated content *)

Lemma generated_is_free (w : World) (content : option string) :
  outcome (exec generateUniqueContent [] w) = Returned content ->
  exists i, content = Some (nanoid_source w (nanoid_calls w + i)%nat)
            /\ taken (db w) (nanoid_source w (nanoid_calls w + i)%nat) = false.
Proof.
  rewrite exec_generateUniqueContent_alone. cbv zeta. cbn [outcome].
  destruct (forallb (taken (db w)) _) eqn:Hall; [discriminate|].
  intros E. injection E as <-.
  destruct (tokens_last_free _ _ _ _ Hall) as [i [_ [Hlast Hfree]]].
  exists i. auto.
Qed.

(** A success reply of POST /init running alone: the [content] of the
    reply is a token that was free, and what the [content] column stores of
    it was in no row before and is in a row afterwards. *)
Lemma init_success_persists (request : InitBody) (w : World) (d : InitData) :
  outcome (exec (init_handler request) [] w) = Returned (send (Success d)) ->
  exists token c,
    data_content d = Some token
    /\ taken (db w) token = false
    /\ varchar 20 token = inr c
    /\ taken (db w) c = false
    /\ taken (db (final (exec (init_handler request) [] w))) c = true.
Proof.
  rewrite exec_init_handler_alone. cbv zeta.
  destruct (ref_exists (db w) (init_ref request)); [discriminate|].
  destruct (forallb (taken (db w)) _) eqn:Hall; [discriminate|].
  destruct (tokens_last_free _ _ _ _ Hall) as [i [_ [Hlast Hfree]]].
  rewrite Hlast. cbn [outcome final db with_db].
  set (token := nanoid_source w (nanoid_calls w + i)%nat) in *.
  destruct (db_insert_cases
              (clock w)
              (mkInsertValues (init_amount request) (init_ref request) (Some token))
              (db w))
    as [[e [-> _]]|[amount [ref [t [c [_ [_ [Ht [Hc [_ [_ [Hnew ->]]]]]]]]]]]];
    cbn [fst snd insert_reply]; [discriminate|].
  cbn [ins_content] in Ht. injection Ht as <-.
  intros E. injection E as <-. exists token, c. cbn [data_content].
  split; [reflexivity|]. split; [exact Hfree|]. split; [exact Hc|].
  split; [exact Hnew|].
  unfold taken. cbn [rows]. rewrite existsb_app. simpl.
  now rewrite String.eqb_refl, orb_true_r.
Qed.

(** C8 (as amended).  A content value [generateUniqueContent] returns is a
    token drawn by [nanoid]: it has the configured length (11 by default)
    and only characters of the 62-symbol alphabet, as [customAlphabet]
    promises, and it is not the [content] of any row of the table it was
    checked against; generation writes nothing.  Consequently generation
    never returns a value that is persisted in the table it runs against,
    and two successive successful CreatePayment requests, the first of
    which persists its value, get different values. *)
Theorem generated_content_is_fresh
        (w : World) (parsed : option Z) (content : option string) :
  outcome (exec generateUniqueContent [] w) = Returned content ->
  exists token,
    content = Some token
    /\ (nanoid_contract (content_length parsed) w ->
        Z.of_nat (String.length token) = content_length parsed
        /\ forall c, In c (list_ascii_of_string token) -> in_alphabet c)
    /\ content_length None = 11
    /\ String.length alphabet = 62%nat
    /\ (forall p, In p (rows (db w)) -> payment.content p <> token)
    /\ db (final (exec generateUniqueContent [] w)) = db w
    /\ (forall w', (exists p, In p (rows (db w')) /\ payment.content p = token) ->
                   outcome (exec generateUniqueContent [] w')
                   <> Returned (Some token))
    /\ (forall request1 request2 d1 d2,
           let run1 := exec (init_handler request1) [] w in
           let run2 := exec (init_handler request2) [] (final run1) in
           outcome run1 = Returned (send (Success d1)) ->
           outcome run2 = Returned (send (Success d2)) ->
           data_content d1 <> data_content d2).
Proof.
  intros Hrun. destruct (generated_is_free w content Hrun) as [i [-> Hfree]].
  exists (nanoid_source w (nanoid_calls w + i)%nat).
  split; [reflexivity|].
  split; [intros Hc; exact (Hc _)|].
  split; [reflexivity|]. split; [reflexivity|].
  split; [exact (proj1 (taken_spec _ _) Hfree)|].
  split; [now rewrite exec_generateUniqueContent_alone|].
  split.
  - intros w' [p [Hp Hcontent]] Hrun'.
    destruct (generated_is_free w' _ Hrun') as [j [E Hfree']].
    injection E as E. rewrite <- E in Hfree'.
    exact (proj1 (taken_spec _ _) Hfree' p Hp Hcontent).
  - intros request1 request2 d1 d2 run1 run2 H1 H2 Heq.
    destruct (init_success_persists request1 w d1 H1)
      as [t1 [c1 [E1 [_ [Hc1 [_ Hin1]]]]]].
    destruct (init_success_persists request2 (final run1) d2 H2)
      as [t2 [c2 [E2 [_ [Hc2 [Hfree2 _]]]]]].
    fold run1 in Hin1. rewrite E1, E2 in Heq. injection Heq as ->. congruence.
Qed.

Lemma sample_tokens_well_drawn : nanoid_contract 11 sample_world.
Proof.
  intros n. split; [reflexivity|].
  intros c Hc. unfold in_alphabet. simpl in Hc.
  repeat (destruct Hc as [<-|Hc];
          [simpl; repeat (try (left; reflexivity); right)|]).
  destruct Hc.
Defined.

Lemma generated_content_is_fresh_witness :
  exists token,
    Some "AAAAAAAAAAA"%string = Some token
    /\ Z.of_nat (String.length token) = 11
    /\ forall p, In p (rows (db sample_world)) -> payment.content p <> token.
Proof.
  destruct (generated_content_is_fresh sample_world None (Some "AAAAAAAAAAA")
                                       eq_refl)
    as [token [E [Hdrawn [_ [_ [Hfree _]]]]]].
  exists token. split; [exact E|].
  split; [exact (proj1 (Hdrawn sample_tokens_well_drawn)) | exact Hfree].
Defined.

(** The claim C8 as stated fails for two calls against one storage state:
    generation writes nothing, so when [nanoid] draws the same token twice
    both calls return it. *)
Lemma generation_repeats_on_same_storage :
  let run1 := exec generateUniqueContent [] empty_world in
  let run2 := exec generateUniqueContent [] (final run1) in
  db (final run1) = db empty_world
  /\ outcome run1 = Returned (Some "AAAAAAAAAAA"%string)
  /\ outcome run2 = Returned (Some "AAAAAAAAAAA"%string).
Proof. vm_compute. repeat split. Qed.

(** ** Bounded generation *)

(** C9.  Under any interference [generateUniqueContent] terminates after at
    most 10 attempts, each of which draws one token and reads the table
    once, and it issues no INSERT or UPDATE; running alone it leaves the
    table as it was.  When the tokens of all 10 attempts are taken it
    throws the exhaustion error after exactly 10 attempts, and the handler
    of POST /init answers 500 with that error without touching the
    table. *)
Theorem generation_is_bounded (env : Interference) (w : World) :
  let run := exec generateUniqueContent env w in
  outcome run <> OutOfFuel
  /\ (exists n, attempts_trace n (trace run) /\ (n <= 10)%nat)
  /\ db (final (exec generateUniqueContent [] w)) = db w
  /\ ((forall i, (i < 10)%nat ->
                 taken (db w) (nanoid_source w (nanoid_calls w + i)%nat) = true) ->
      outcome (exec generateUniqueContent [] w) = Uncaught exhausted
      /\ attempts_trace 10 (trace (exec generateUniqueContent [] w))
      /\ forall request,
           ref_exists (db w) (init_ref request) = false ->
           outcome (exec (init_handler request) [] w) = Returned (caught exhausted)
           /\ code (caught (D := InitData) exhausted) = 500
           /\ db (final (exec (init_handler request) [] w)) = db w).
Proof.
  intros run.
  destruct (generateUniqueContent_attempts env w) as [Hfuel Hatt].
  split; [exact Hfuel|]. split; [exact Hatt|].
  split; [now rewrite exec_generateUniqueContent_alone|].
  intros Hall.
  destruct (tokens_all_taken (db w) (nanoid_source w) maxAttempts
                             (nanoid_calls w) Hall) as [Htaken Hlen].
  split; [|split].
  - rewrite exec_generateUniqueContent_alone. cbv zeta. now rewrite Htaken.
  - destruct (generateUniqueContent_attempts [] w) as [_ [n [Htr Hn]]].
    rewrite exec_generateUniqueContent_alone in *. cbv zeta in *.
    cbn [trace] in *.
    assert (Hcount : forall m tr, attempts_trace m tr -> List.length tr = (2 * m)%nat).
    { induction 1; simpl in *; lia. }
    apply Hcount in Htr as Hn'.
    assert (Hev : forall ts, List.length (attempt_events (db w) ts)
                             = (2 * List.length ts)%nat).
    { induction ts as [|t ts IH]; simpl in *; lia. }
    rewrite Hev, Hlen in Hn'. unfold maxAttempts in Hn'.
    assert (n = 10%nat) by lia. now subst n.
  - intros request Href. rewrite exec_init_handler_alone. cbv zeta.
    rewrite Href, Htaken. cbn [outcome final db drew]. repeat split.
Qed.

Lemma generation_is_bounded_witness :
  outcome (exec (init_handler (mkInitBody (whole 99000) "order-9")) [] crowded_world)
  = Returned (caught exhausted).
Proof.
  refine (proj1 (proj2 (proj2 (proj2 (proj2 (proj2
            (generation_is_bounded [] crowded_world))) _))
            (mkInitBody (whole 99000) "order-9") _)).
  - intros i _. reflexivity.
  - reflexivity.
Defined.

(** ** SearchPayments *)

(** Building the conditions touches nothing; it ends with the list of
    conditions or with the [RangeError] of an invalid date. *)
Lemma exec_search_conditions (query : SearchQuery) env w :
  exists o, exec (search_conditions query) env w = mkRun o w [] env
            /\ ((exists conditions, o = Returned conditions)
                \/ o = Uncaught (RangeError "Invalid time value")).
Proof.
  unfold search_conditions.
  destruct (truthy (q_from query)) as [from|];
    [destruct (new_Date_utc7 from 0 0 0) as [t|]|];
    (destruct (truthy (q_to query)) as [to|];
     [destruct (new_Date_utc7 to 23 59 59) as [t'|]|]);
    cbn [date_param bind exec]; eexists; split; try reflexivity; eauto.
Qed.

(** C2 (what the code does).  [formatPaymentResponse] is not bound in
    route.js, so whatever the query, the table and the interference, the
    handler of GET /search ends in its [catch]: it answers 500 with
    [success: false], never a success result.  The error caught is the
    [ReferenceError], thrown after the SELECT, unless a date of the query
    is invalid. *)
Theorem search_is_server_error
        {View : Type} (declared : Payment -> View) (query : SearchQuery)
        (env : Interference) (w : World) :
  let run := exec (search_handler declared query) env w in
  exists e,
    outcome run = Returned (caught e)
    /\ code (caught (D := SearchData View) e) = 500
    /\ success (caught (D := SearchData View) e) = false
    /\ (e = not_defined \/ e = RangeError "Invalid time value").
Proof.
  intros run. subst run. unfold search_handler.
  change (binding_in route_js_bindings "formatPaymentResponse" declared)
    with (@None (Payment -> View)).
  unfold search_handler_in. rewrite exec_try_catch, exec_bind.
  destruct (exec_search_conditions query env w) as [o [-> [[conditions ->]| ->]]];
    unfold then_run, catch_run; cbn [outcome final rest trace].
  - cbn [select bind exec identifier]. destruct (arrive env w) as [w1 env1].
    cbn [bind exec after outcome final rest trace].
    exists not_defined. repeat split. now left.
  - cbn [exec outcome]. eexists. repeat split. now right.
Qed.

(** With no filter on the empty table the handler answers 500. *)
Example search_no_filter_empty_table :
  outcome (exec (search_handler (fun p => p)
                                (mkSearchQuery None None None None None))
                [] empty_world)
  = Returned (caught not_defined).
Proof. reflexivity. Qed.

(** *** What the handler would answer if [formatPaymentResponse] were bound *)

Lemma like_rest_any (s : string) : existsb (like_match "") (suffixes s) = true.
Proof.
  induction s as [|c s IH]; [reflexivity|].
  cbn [suffixes existsb]. rewrite IH. apply orb_true_r.
Qed.

Lemma like_plain_prefix (t : string) :
  plain t = true -> forall s, like_match (t ++ "%") s = String.prefix t s.
Proof.
  induction t as [|c t IH]; intros Hplain s.
  - cbn [String.append like_match]. rewrite Ascii.eqb_refl.
    rewrite like_rest_any. now destruct s.
  - cbn [plain] in Hplain. apply andb_true_iff in Hplain.
    destruct Hplain as [Hc Ht]. unfold plain_char in Hc.
    apply negb_true_iff in Hc. apply orb_false_iff in Hc.
    destruct Hc as [Hc H3]. apply orb_false_iff in Hc. destruct Hc as [H1 H2].
    cbn [String.append like_match]. rewrite H1, H2, H3.
    destruct s as [|d s]; [reflexivity|]. rewrite (IH Ht). simpl.
    destruct (ascii_dec c d) as [->|Hne].
    + now rewrite Ascii.eqb_refl.
    + apply Ascii.eqb_neq in Hne. now rewrite Hne.
Qed.

Lemma includes_suffixes (s t : string) :
  includes s t = existsb (String.prefix t) (suffixes s).
Proof.
  induction s as [|c s IH]; cbn [includes suffixes existsb]; [reflexivity|].
  now rewrite IH.
Qed.

(** For a text without [%], [_] and backslash, the LIKE pattern of the
    handler is the substring test. *)
Lemma like_contains (t s : string) :
  plain t = true -> like_match ("%" ++ t ++ "%") s = includes s t.
Proof.
  intros Hplain. rewrite includes_suffixes.
  cbn [String.append like_match]. rewrite Ascii.eqb_refl.
  induction (suffixes s) as [|s' l IH]; [reflexivity|].
  cbn [existsb]. now rewrite IH, like_plain_prefix.
Qed.

(** With a wildcard in the text the LIKE pattern is not the substring
    test. *)
Example like_wildcard_is_not_substring :
  like_match ("%" ++ "_" ++ "%") "order-1" = true
  /\ includes "order-1" "_" = false.
Proof. split; reflexivity. Qed.

Lemma filter_all {A : Type} (f : A -> bool) (l : list A) :
  (forall x, f x = true) -> filter f l = l.
Proof.
  intros H. induction l as [|x l IH]; simpl; [reflexivity|].
  now rewrite H, IH.
Qed.

Lemma exec_search_handler_bound {View : Type} (format : Payment -> View)
      (query : SearchQuery) (w : World) (conditions : list (Payment -> bool)) :
  exec (search_conditions query) [] w = mkRun (Returned conditions) w [] [] ->
  exec (search_handler_in (Some format) query) [] w
  = let payments :=
      sort_by payment.createdAt (filter (and_ conditions) (rows (db w))) in
    mkRun (Returned (send (Success (mkSearchData (map format payments)
                                                 (List.length payments)))))
          w [EvSelect (db w) payments] [].
Proof.
  intros Hc. unfold search_handler_in. rewrite exec_try_catch, exec_bind, Hc.
  unfold then_run, catch_run. cbn [outcome final rest trace].
  cbn [select bind exec identifier arrive after outcome final rest trace app].
  destruct conditions as [|c cs]; cbn [List.length Nat.ltb Nat.leb db_select].
  - rewrite filter_all; [reflexivity|]. intros p. reflexivity.
  - reflexivity.
Qed.

Lemma is_string_spec (s : option string) (lit : string) :
  is_string s lit = true <-> s = Some lit.
Proof.
  destruct s as [s|]; simpl; [|split; discriminate].
  rewrite String.eqb_eq. split; congruence.
Qed.

Lemma and_app (cs cs' : list (Payment -> bool)) (p : Payment) :
  and_ (cs ++ cs') p = and_ cs p && and_ cs' p.
Proof. unfold and_. apply forallb_app. Qed.

Lemma is_string_neq (s : option string) (lit : string) :
  is_string s lit = false -> s <> Some lit.
Proof.
  intros H E. apply is_string_spec in E. congruence.
Qed.

Ltac same_option :=
  repeat match goal with
         | E : Some _ = Some _ |- _ => injection E as <-
         | E : None = Some _ |- _ => discriminate E
         | E1 : ?x = Some _, E2 : ?x = Some _ |- _ => rewrite E1 in E2
         end.

Lemma search_conditions_spec (query : SearchQuery) (w : World)
      (conditions : list (Payment -> bool)) (p : Payment) :
  exec (search_conditions query) [] w = mkRun (Returned conditions) w [] [] ->
  and_ conditions p = true <-> matches query p.
Proof.
  unfold search_conditions, matches.
  destruct (truthy (q_ref query)) as [ref|];
    destruct (truthy (q_content query)) as [content|];
    (destruct (is_string (q_status query) "paid") eqn:Hpaid;
     [apply (proj1 (is_string_spec _ _)) in Hpaid | apply is_string_neq in Hpaid]);
    (destruct (is_string (q_status query) "unpaid") eqn:Hunpaid;
     [apply (proj1 (is_string_spec _ _)) in Hunpaid
     | apply is_string_neq in Hunpaid]);
    try congruence;
    (destruct (truthy (q_from query)) as [from|];
     [destruct (new_Date_utc7 from 0 0 0) as [t|] eqn:Hfrom|]);
    (destruct (truthy (q_to query)) as [to|];
     [destruct (new_Date_utc7 to 23 59 59) as [t'|] eqn:Hto|]);
    cbn [date_param bind exec app]; intros E; try discriminate E;
    injection E as <-;
    unfold and_, like, gte, lte; cbn [forallb];
    rewrite ?andb_true_r, ?andb_true_iff, ?Z.leb_le, ?Bool.eqb_true_iff,
      ?Bool.eqb_false_iff;
    (split;
     [ intros H; repeat split; intros; same_option;
       try congruence; try tauto
     | intros [H1 [H2 [H3 [H4 [H5 H6]]]]];
       repeat split;
       first [exact (H1 _ eq_refl) | exact (H2 _ eq_refl) | eauto] ]).
Qed.

Lemma insert_by_perm (key : Payment -> Z) (p : Payment) (l : list Payment) :
  Permutation (insert_by key p l) (p :: l).
Proof.
  induction l as [|q l IH]; simpl; [reflexivity|].
  destruct (key p <? key q); [reflexivity|].
  rewrite IH. apply perm_swap.
Qed.

Lemma insert_by_ascending (key : Payment -> Z) (p : Payment) (l : list Payment) :
  ascending key l -> ascending key (insert_by key p l).
Proof.
  unfold ascending. induction 1 as [|q l Hl IH Hq]; simpl.
  - constructor; constructor.
  - destruct (Z.ltb_spec (key p) (key q)) as [Hlt|Hge].
    + constructor; [now constructor|]. constructor; [lia|].
      eapply Forall_impl; [|exact Hq]. simpl. intros a Ha. lia.
    + constructor; [exact IH|].
      apply (Permutation_Forall (Permutation_sym (insert_by_perm key p l))).
      constructor; [lia|exact Hq].
Qed.

Lemma sort_by_spec (key : Payment -> Z) (l : list Payment) :
  ascending key (sort_by key l) /\ Permutation (sort_by key l) l.
Proof.
  unfold sort_by.
  assert (H : forall acc, ascending key acc ->
                          ascending key (fold_left (fun acc p => insert_by key p acc) l acc)
                          /\ Permutation (fold_left (fun acc p => insert_by key p acc) l acc)
                                         (l ++ acc)).
  { induction l as [|p l IH]; intros acc Hacc; simpl; [split; auto|].
    destruct (IH (insert_by key p acc) (insert_by_ascending key p acc Hacc))
      as [Hs Hp].
    split; [exact Hs|]. rewrite Hp, insert_by_perm.
    symmetry. apply Permutation_middle. }
  destruct (H [] (SSorted_nil _)) as [Hs Hp].
  split; [exact Hs|]. now rewrite app_nil_r in Hp.
Qed.

(** Were [formatPaymentResponse] bound to [format], the handler would
    answer with the success reply: the rows that pass every filter of the
    query, ascending by [createdAt], each mapped by [format], and their
    number. *)
Lemma search_result_if_bound {View : Type} (format : Payment -> View)
      (query : SearchQuery) (w : World) (conditions : list (Payment -> bool)) :
  exec (search_conditions query) [] w = mkRun (Returned conditions) w [] [] ->
  exists payments,
    outcome (exec (search_handler_in (Some format) query) [] w)
    = Returned (send (Success (mkSearchData (map format payments)
                                            (List.length payments))))
    /\ (forall p, In p payments <-> In p (rows (db w)) /\ matches query p)
    /\ ascending payment.createdAt payments
    /\ final (exec (search_handler_in (Some format) query) [] w) = w.
Proof.
  intros Hc. rewrite (exec_search_handler_bound format query w conditions Hc).
  cbv zeta. cbn [outcome final]. eexists. split; [reflexivity|].
  destruct (sort_by_spec payment.createdAt
                         (filter (and_ conditions) (rows (db w)))) as [Hs Hp].
  split; [|split; [exact Hs|reflexivity]].
  intros p. rewrite <- (search_conditions_spec query w conditions p Hc).
  rewrite <- filter_In. split; intros H.
  - exact (Permutation_in p Hp H).
  - exact (Permutation_in p (Permutation_sym Hp) H).
Qed.

(** * Further properties of the code *)

(** ** The API key check *)

Lemma truthy_some (s : option string) (key : string) :
  truthy s = Some key <-> s = Some key /\ key <> EmptyString.
Proof.
  destruct s as [[|c s]|]; simpl; split.
  - discriminate.
  - intros [E H]. injection E as <-. now contradiction H.
  - intros E. injection E as <-. split; [reflexivity|discriminate].
  - intros [E _]. exact E.
  - discriminate.
  - intros [E _]. discriminate E.
Qed.

Lemma apiKeyMiddleware_spec (apiKey validApiKey : option string) :
  (apiKeyMiddleware apiKey validApiKey = None
   <-> exists key, apiKey = Some key /\ validApiKey = Some key
                   /\ key <> EmptyString)
  /\ (validApiKey = None \/ validApiKey = Some EmptyString ->
      apiKeyMiddleware apiKey validApiKey <> None)
  /\ (forall d, apiKeyMiddleware apiKey validApiKey = Some d ->
                (truthy apiKey = None /\ denial_code d = 401)
                \/ (truthy apiKey <> None /\ denial_code d = 403)).
Proof.
  assert (Hiff : apiKeyMiddleware apiKey validApiKey = None
                 <-> exists key, apiKey = Some key /\ validApiKey = Some key
                                 /\ key <> EmptyString).
  { unfold apiKeyMiddleware. destruct (truthy apiKey) as [key|] eqn:Hkey.
    - apply truthy_some in Hkey. destruct Hkey as [-> Hne].
      destruct validApiKey as [valid|].
      + destruct (String.eqb_spec key valid) as [->|Hdiff]; simpl.
        * split; [intros _; now exists valid | reflexivity].
        * split; [discriminate|]. intros [k [E1 [E2 _]]]. congruence.
      + split; [discriminate|]. intros [k [_ [E2 _]]]. discriminate E2.
    - split; [discriminate|]. intros [k [E1 [_ Hne]]].
      assert (Hk : truthy apiKey = Some k) by (apply truthy_some; auto).
      congruence. }
  split; [exact Hiff|]. split.
  - intros Hunset Hpass. apply Hiff in Hpass.
    destruct Hpass as [key [_ [E Hne]]]. destruct Hunset as [H|H]; congruence.
  - intros d. unfold apiKeyMiddleware.
    destruct (truthy apiKey) as [key|].
    + destruct (match validApiKey with
                | Some valid => negb (String.eqb key valid)
                | None => true
                end); [|discriminate].
      intros E. injection E as <-. right. split; [discriminate|reflexivity].
    + intros E. injection E as <-. left. split; reflexivity.
Qed.

(** X1.  [apiKeyMiddleware] lets a request through exactly when its
    [x-api-key] header is a non-empty string equal to [APP_KEY]; so when
    [APP_KEY] is unset or empty no request gets through.  A request it stops
    is answered 401 when the header is missing or empty and 403
    otherwise. *)
Theorem api_key_check_passes_iff (apiKey validApiKey : option string) :
  (apiKeyMiddleware apiKey validApiKey = None
   <-> exists key, apiKey = Some key /\ validApiKey = Some key
                   /\ key <> EmptyString)
  /\ (validApiKey = None \/ validApiKey = Some EmptyString ->
      apiKeyMiddleware apiKey validApiKey <> None)
  /\ (forall d, apiKeyMiddleware apiKey validApiKey = Some d ->
                (truthy apiKey = None /\ denial_code d = 401)
                \/ (truthy apiKey <> None /\ denial_code d = 403)).
Proof. exact (apiKeyMiddleware_spec apiKey validApiKey). Qed.

(** X2.  POST /init and GET /search stop at the key check when the
    [x-api-key] header is missing, empty or not [APP_KEY]: the reply is the
    one of the check, no token is drawn, no statement is sent to the
    database, and the world is as it was. *)
Theorem wrong_key_runs_no_handler
        {View : Type} (declared : Payment -> View)
        (apiKey validApiKey : option string)
        (request : InitBody) (query : SearchQuery)
        (env : Interference) (w : World) :
  truthy apiKey = None \/ apiKey <> validApiKey ->
  exists d,
    (denial_code d = 401 \/ denial_code d = 403)
    /\ exec (post_init apiKey validApiKey request) env w
       = mkRun (Returned (Denied d)) w [] env
    /\ exec (get_search declared apiKey validApiKey query) env w
       = mkRun (Returned (Denied d)) w [] env.
Proof.
  intros Hwrong.
  destruct (apiKeyMiddleware apiKey validApiKey) as [d|] eqn:Hcheck.
  - exists d. unfold post_init, get_search. rewrite Hcheck. simpl.
    destruct (proj2 (proj2 (apiKeyMiddleware_spec apiKey validApiKey)) d Hcheck)
      as [[_ H]|[_ H]]; auto.
  - exfalso.
    apply (proj1 (apiKeyMiddleware_spec apiKey validApiKey)) in Hcheck.
    destruct Hcheck as [key [E1 [E2 Hne]]]. destruct Hwrong as [H|H].
    + assert (Hk : truthy apiKey = Some key) by (apply truthy_some; auto).
      congruence.
    + congruence.
Qed.

Lemma wrong_key_runs_no_handler_witness :
  exists d,
    (denial_code d = 401 \/ denial_code d = 403)
    /\ exec (post_init (Some "guess"%string) (Some "secret"%string)
                       (mkInitBody (whole 99000) "order-9")) [] sample_world
       = mkRun (Returned (Denied d)) sample_world [] []
    /\ exec (get_search (fun p => p) (Some "guess"%string) (Some "secret"%string)
                        (mkSearchQuery None None None None None)) [] sample_world
       = mkRun (Returned (Denied d)) sample_world [] [].
Proof.
  apply (wrong_key_runs_no_handler
           (fun p => p) (Some "guess"%string) (Some "secret"%string)
           (mkInitBody (whole 99000) "order-9") (mkSearchQuery None None None None None)
           [] sample_world).
  right. discriminate.
Defined.

(** ** GET /txn/:txnId *)

(** X3.  The handler of GET /txn/:txnId sends at most one request, and
    only with a configured, non-empty [SEPAY_API_KEY]: the request is a GET
    of the details URL followed by the [txnId] as given, with the key as
    bearer credential.  Without the key it answers 500 and sends
    nothing. *)
Theorem txn_requests (sepayApiKey : option string)
        (fetch : FetchRequest -> FetchOutcome) (txnId : string) :
  let requests := snd (txn_handler sepayApiKey fetch txnId) in
  (List.length requests <= 1)%nat
  /\ (forall request, In request requests ->
        exists key,
          sepayApiKey = Some key /\ key <> EmptyString
          /\ fetch_url request
             = ("https://my.sepay.vn/userapi/transactions/details/" ++ txnId)%string
          /\ fetch_method request = "GET"%string
          /\ In ("Authorization"%string, ("Bearer " ++ key)%string)
                (fetch_headers request))
  /\ (truthy sepayApiKey = None ->
      txn_handler sepayApiKey fetch txnId
      = (mkTxnReply 500 (TxnFailure (JString "SEPAY_API_KEY not configured")),
         [])).
Proof.
  unfold txn_handler. destruct (truthy sepayApiKey) as [key|] eqn:Hkey; cbv zeta.
  - apply truthy_some in Hkey. destruct Hkey as [-> Hne]. cbn [snd List.length].
    split; [lia|]. split; [|discriminate].
    intros request [<-|[]]. exists key. cbn. repeat split; auto.
  - cbn [snd List.length]. split; [lia|]. split; [intros r []|reflexivity].
Qed.

Lemma txn_requests_witness :
  txn_handler (Some EmptyString) (fun _ => Failed "unreachable") "12345"
  = (mkTxnReply 500 (TxnFailure (JString "SEPAY_API_KEY not configured")), []).
Proof.
  apply (proj2 (proj2 (txn_requests (Some EmptyString)
                                    (fun _ => Failed "unreachable") "12345"))).
  reflexivity.
Defined.

Lemma txn_payload_success (data : Json) (t : option Json) :
  txn_body (txn_payload_reply data) = TxnSuccess t
  <-> property data "status" = Some (JNumber 200)
      /\ json_truthy (optional_property (property data "messages") "success") = true
      /\ t = property data "transaction".
Proof.
  unfold txn_payload_reply.
  assert (H200 : forall v, is_not_200 v = false <-> v = Some (JNumber 200)).
  { intros [[| | n | | |]|]; simpl; split; try discriminate; try congruence.
    - intros H. apply negb_false_iff, Z.eqb_eq in H. now subst.
    - intros E. injection E as ->. reflexivity. }
  destruct data; try (simpl; split; [discriminate | intros [E _]; discriminate E]);
    (destruct (is_not_200 _) eqn:Hs;
     [ cbn [orb txn_body]; split; [discriminate|];
       intros [E _]; apply H200 in E; congruence
     | apply H200 in Hs;
       destruct (json_truthy _) eqn:Ht; cbn [orb negb txn_body];
       [ split; [intros E; injection E as <-; auto | intros [_ [_ ->]]; reflexivity]
       | split; [discriminate | intros [_ [E _]]; discriminate E] ] ]).
Qed.

Lemma txn_payload_code (data : Json) :
  txn_code (txn_payload_reply data) = 200
  <-> exists t, txn_body (txn_payload_reply data) = TxnSuccess t.
Proof.
  unfold txn_payload_reply.
  destruct data; try (simpl; split; [discriminate | intros [t E]; discriminate E]);
    (destruct (is_not_200 _ || negb (json_truthy _)); cbn [txn_code txn_body];
     [ split; [discriminate | intros [t E]; discriminate E]
     | split; [eauto | reflexivity] ]).
Qed.

(** X4.  The handler of GET /txn/:txnId hands the success payload to
    [reply.send] exactly when the key is configured, the upstream response
    has a 2xx status, its body is JSON with [status] the number 200 and a
    truthy [messages.success]; the [data] of the payload handed over is
    then the [transaction] of the upstream payload.  The reply has status
    200 exactly when the payload handed over is the success payload.  (What
    the client receives of [data] is decided afterwards by the response
    schema of the route.) *)
Theorem txn_success_iff (sepayApiKey : option string)
        (fetch : FetchRequest -> FetchOutcome) (txnId : string) :
  let reply := fst (txn_handler sepayApiKey fetch txnId) in
  (forall t,
      txn_body reply = TxnSuccess t
      <-> exists key response data,
          truthy sepayApiKey = Some key
          /\ fetch (sepay_request key txnId) = Responded response
          /\ response_ok response = true
          /\ response_body response = Parsed data
          /\ property data "status" = Some (JNumber 200)
          /\ json_truthy (optional_property (property data "messages") "success")
             = true
          /\ t = property data "transaction")
  /\ (txn_code reply = 200 <-> exists t, txn_body reply = TxnSuccess t).
Proof.
  unfold txn_handler. destruct (truthy sepayApiKey) as [key|]; cbv zeta; cbn [fst].
  2:{ split.
      - intros t. split; [discriminate|]. intros [k [r [d [E _]]]]. discriminate E.
      - cbn. split; [discriminate | intros [t E]; discriminate E]. }
  destruct (fetch (sepay_request key txnId)) as [response|message] eqn:Hfetch.
  2:{ split.
      - intros t. split; [discriminate|].
        intros [k [r [d [E [F _]]]]]. injection E as <-. congruence.
      - cbn. split; [discriminate | intros [t E]; discriminate E]. }
  destruct (response_ok response) eqn:Hok; cbn [negb].
  2:{ assert (Hbody : forall b, exists c b',
                 txn_reply_code (response_status response) b = mkTxnReply c b'
                 /\ c <> 200 /\ (b' = b \/ exists e, b' = TxnCaught e)).
      { intros b. unfold txn_reply_code.
        destruct ((100 <=? response_status response)
                  && (response_status response <=? 599)).
        - exists (response_status response), b. split; [reflexivity|].
          split; [|now left]. unfold response_ok in Hok. lia.
        - eexists _, _. split; [reflexivity|]. split; [lia|]. right. eauto. }
      destruct (Hbody (TxnFailure
                         (JString ("SePay API error: "
                                   ++ response_statusText response)%string)))
        as [c [b' [-> [Hc Hb]]]].
      cbn [txn_body txn_code]. split.
      - intros t. split.
        + intros E. destruct Hb as [->|[e ->]]; discriminate E.
        + intros [k [r [d [E [F [G _]]]]]]. injection E as <-.
          rewrite Hfetch in F. injection F as <-. congruence.
      - split; [contradiction|]. intros [t E].
        destruct Hb as [->|[e ->]]; discriminate E. }
  destruct (response_body response) as [data|message] eqn:Hbody.
  2:{ split.
      - intros t. split; [discriminate|].
        intros [k [r [d [E [F [_ [G _]]]]]]]. injection E as <-.
        rewrite Hfetch in F. injection F as <-. congruence.
      - cbn. split; [discriminate | intros [t E]; discriminate E]. }
  split; [|apply txn_payload_code].
  intros t. rewrite txn_payload_success. split.
  - intros H. exists key, response, data. tauto.
  - intros [k [r [d [E [F [_ [G H]]]]]]]. injection E as <-.
    rewrite Hfetch in F. injection F as <-. rewrite Hbody in G.
    injection G as <-. exact H.
Qed.

(** X5.  When the upstream response has a status outside 200-299 (and
    within the 100-599 a reply can carry), the handler forwards that status
    with the failure body naming the upstream status text, whatever the
    body of the response. *)
Theorem txn_forwards_upstream_status
        (key : string) (fetch : FetchRequest -> FetchOutcome) (txnId : string)
        (response : Response) :
  key <> EmptyString ->
  fetch (sepay_request key txnId) = Responded response ->
  response_ok response = false ->
  100 <= response_status response <= 599 ->
  fst (txn_handler (Some key) fetch txnId)
  = mkTxnReply (response_status response)
               (TxnFailure (JString ("SePay API error: "
                                     ++ response_statusText response)%string)).
Proof.
  intros Hne Hfetch Hok Hrange. unfold txn_handler.
  assert (Hkey : truthy (Some key) = Some key) by (apply truthy_some; auto).
  rewrite Hkey. cbv zeta. cbn [fst]. rewrite Hfetch, Hok. cbn [negb].
  unfold txn_reply_code.
  replace ((100 <=? response_status response)
           && (response_status response <=? 599)) with true; [reflexivity|].
  symmetry. apply andb_true_iff. split; apply Z.leb_le; lia.
Qed.

Lemma txn_forwards_upstream_status_witness :
  fst (txn_handler (Some "sk-live"%string)
                   (fun _ => Responded (mkResponse 404 "Not Found"
                                                   (Unparsable "Unexpected token")))
                   "12345")
  = mkTxnReply 404 (TxnFailure (JString "SePay API error: Not Found")).
Proof.
  apply (txn_forwards_upstream_status
           "sk-live"
           (fun _ => Responded (mkResponse 404 "Not Found"
                                           (Unparsable "Unexpected token")))
           "12345"
           (mkResponse 404 "Not Found" (Unparsable "Unexpected token")));
    [discriminate | reflexivity | reflexivity | simpl; lia].
Defined.

(** ** The token generator returns the first free token *)

Lemma tokens_first_free (d : Database) (source : nat -> string) (i : nat) :
  forall calls n,
    (i < n)%nat ->
    (forall j, (j < i)%nat -> taken d (source (calls + j)%nat) = true) ->
    taken d (source (calls + i)%nat) = false ->
    tokens_drawn d source calls n
    = map (fun j => source (calls + j)%nat) (seq 0 (S i)).
Proof.
  induction i as [|i IH]; intros calls n Hn Hbefore Hfree.
  - destruct n as [|n]; [lia|]. cbn [tokens_drawn seq map].
    rewrite Nat.add_0_r in *. now rewrite Hfree.
  - destruct n as [|n]; [lia|]. cbn [tokens_drawn].
    assert (H0 : taken d (source calls) = true).
    { rewrite <- (Nat.add_0_r calls). apply Hbefore. lia. }
    rewrite H0. rewrite (IH (S calls) n); [| lia | |].
    + change (seq 0 (S (S i))) with (0%nat :: seq 1 (S i)).
      cbn [map]. rewrite Nat.add_0_r. f_equal.
      rewrite <- seq_shift, map_map. apply map_ext.
      intros j. f_equal. lia.
    + intros j Hj. replace (S calls + j)%nat with (calls + S j)%nat by lia.
      apply Hbefore. lia.
    + replace (S calls + i)%nat with (calls + S i)%nat by lia. exact Hfree.
Qed.

Lemma first_free_result (d : Database) (source : nat -> string) (calls i : nat) :
  (forall j, (j < i)%nat -> taken d (source (calls + j)%nat) = true) ->
  taken d (source (calls + i)%nat) = false ->
  let tokens := map (fun j => source (calls + j)%nat) (seq 0 (S i)) in
  forallb (taken d) tokens = false
  /\ last (map Some tokens) None = Some (source (calls + i)%nat)
  /\ List.length tokens = S i.
Proof.
  intros Hbefore Hfree tokens. subst tokens.
  rewrite length_map, length_seq. split; [|split; [|reflexivity]].
  - rewrite seq_S, map_app, forallb_app. cbn [map forallb Nat.add].
    rewrite Hfree. cbn [andb]. apply andb_false_r.
  - rewrite seq_S, !map_app. cbn [map Nat.add]. apply last_last.
Qed.

(** X7.  Running alone, [generateUniqueContent] returns the first token
    [nanoid] draws that is not the [content] of a row: if the first [i]
    tokens are taken and the next one is free ([i] below 10), it returns
    that one after exactly [i + 1] draws, each followed by one read. *)
Theorem generator_returns_first_free (w : World) (i : nat) :
  (i < 10)%nat ->
  (forall j, (j < i)%nat ->
             taken (db w) (nanoid_source w (nanoid_calls w + j)%nat) = true) ->
  taken (db w) (nanoid_source w (nanoid_calls w + i)%nat) = false ->
  let run := exec generateUniqueContent [] w in
  outcome run = Returned (Some (nanoid_source w (nanoid_calls w + i)%nat))
  /\ final run = drew w (S i)
  /\ trace run
     = attempt_events (db w)
                      (map (fun j => nanoid_source w (nanoid_calls w + j)%nat)
                           (seq 0 (S i))).
Proof.
  intros Hi Hbefore Hfree run. subst run.
  rewrite exec_generateUniqueContent_alone. cbv zeta.
  rewrite (tokens_first_free (db w) (nanoid_source w) i (nanoid_calls w)
                             maxAttempts Hi Hbefore Hfree).
  destruct (first_free_result (db w) (nanoid_source w) (nanoid_calls w) i
                              Hbefore Hfree) as [Hall [Hlast Hlen]].
  rewrite Hall, Hlast, Hlen. repeat split.
Qed.

Lemma generator_returns_first_free_witness :
  outcome (exec generateUniqueContent [] second_free_world)
  = Returned (Some "BBBBBBBBBBB"%string).
Proof.
  refine (proj1 (generator_returns_first_free second_free_world 1 _ _ _)).
  - lia.
  - intros j Hj. assert (j = 0%nat) as -> by lia. reflexivity.
  - reflexivity.
Defined.

(** ** CreatePayment: what a success leaves behind *)

(** A success reply of POST /init running alone: the values of the request
    fit their columns, and the row was inserted as the last row of the
    table, with what the columns store of the [ref] of the request and of
    the [content] of the reply. *)
Lemma init_success_inserted (request : InitBody) (w : World) (d : InitData) :
  outcome (exec (init_handler request) [] w) = Returned (send (Success d)) ->
  exists token amount ref c,
    d = mkInitData (Some token) (init_ref request) (init_amount request)
    /\ int4_in (init_amount request) = inr amount
    /\ varchar 50 (init_ref request) = inr ref
    /\ varchar 20 token = inr c
    /\ db (final (exec (init_handler request) [] w))
       = mkDatabase (rows (db w) ++ [created_row amount ref c (db w) (clock w)])
                    (payment_id_seq (db w) + 1)
    /\ clock (final (exec (init_handler request) [] w)) = clock w
    /\ existsb (fun p => payment.id p =? payment_id_seq (db w)) (rows (db w))
       = false
    /\ ref_exists (db w) (init_ref request) = false
    /\ taken (db w) token = false
    /\ exists i, token = nanoid_source w (nanoid_calls w + i)%nat.
Proof.
  rewrite exec_init_handler_alone. cbv zeta.
  destruct (ref_exists (db w) (init_ref request)) eqn:Href; [discriminate|].
  destruct (forallb (taken (db w)) _) eqn:Hall; [discriminate|].
  destruct (tokens_last_free _ _ _ _ Hall) as [i [_ [Hlast Hfree]]].
  rewrite Hlast. cbn [outcome final db with_db clock drew].
  set (token := nanoid_source w (nanoid_calls w + i)%nat) in *.
  destruct (db_insert_cases
              (clock w)
              (mkInsertValues (init_amount request) (init_ref request) (Some token))
              (db w))
    as [[e [-> _]]|[amount [ref [t [c [Ha [Hr [Ht [Hc [Hid [_ [_ ->]]]]]]]]]]]];
    cbn [fst snd insert_reply]; [discriminate|].
  cbn [ins_content ins_amount ins_ref] in *. injection Ht as <-.
  intros E. injection E as <-. exists token, amount, ref, c.
  repeat split; auto. now exists i.
Qed.

(** The run of [generateUniqueContent] and of POST /init when the first
    [i] tokens drawn are taken and the next one is free. *)
Lemma exec_init_handler_first_free (request : InitBody) (w : World) (i : nat) :
  ref_exists (db w) (init_ref request) = false ->
  (i < 10)%nat ->
  (forall j, (j < i)%nat ->
             taken (db w) (nanoid_source w (nanoid_calls w + j)%nat) = true) ->
  taken (db w) (nanoid_source w (nanoid_calls w + i)%nat) = false ->
  let token := nanoid_source w (nanoid_calls w + i)%nat in
  let v := mkInsertValues (init_amount request) (init_ref request) (Some token) in
  let u := db_insert (clock w) v (db w) in
  outcome (exec (init_handler request) [] w)
  = Returned (insert_reply request (Some token) (snd u))
  /\ db (final (exec (init_handler request) [] w)) = fst u.
Proof.
  intros Hr Hi Hbefore Hfree token v u. subst token v u.
  rewrite exec_init_handler_alone. cbv zeta. rewrite Hr.
  rewrite (tokens_first_free (db w) (nanoid_source w) i (nanoid_calls w)
                             maxAttempts Hi Hbefore Hfree).
  destruct (first_free_result (db w) (nanoid_source w) (nanoid_calls w) i
                              Hbefore Hfree) as [Hall [Hlast _]].
  rewrite Hall, Hlast. split; reflexivity.
Qed.

Lemma ref_exists_false (d : Database) (ref : string) :
  ref_exists d ref = false
  <-> forall p, In p (rows d) -> payment.ref p <> ref.
Proof.
  unfold ref_exists. rewrite existsb_false. split; intros H p Hp.
  - intros E. specialize (H p Hp). apply String.eqb_neq in H. contradiction.
  - apply String.eqb_neq. now apply H.
Qed.

(** X8.  Running alone on a table whose ids are below the sequence, with an
    [amount] the database reads as the integer [amt], a [ref] of at most 50
    characters that no row has, and among the first 10 tokens drawn a free
    one of at most 20 characters (both without the NUL character),
    POST /init hands to [reply.send] the success payload with the first
    free token as [content] and the [ref] and [amount] of the request, and
    adds exactly one row: pending, without [txnId] and [updatedAt], created
    at the instant of the request, with the next id of the sequence. *)
Theorem init_creates_pending_row
        (request : InitBody) (w : World) (amt : Z) (i : nat) :
  int4_in (init_amount request) = inr amt ->
  nul_free (init_ref request) = true ->
  (char_length (init_ref request) <= 50)%nat ->
  (forall p, In p (rows (db w)) -> payment.id p < payment_id_seq (db w)) ->
  (forall p, In p (rows (db w)) -> payment.ref p <> init_ref request) ->
  (i < 10)%nat ->
  (forall j, (j < i)%nat ->
             taken (db w) (nanoid_source w (nanoid_calls w + j)%nat) = true) ->
  taken (db w) (nanoid_source w (nanoid_calls w + i)%nat) = false ->
  nul_free (nanoid_source w (nanoid_calls w + i)%nat) = true ->
  (char_length (nanoid_source w (nanoid_calls w + i)%nat) <= 20)%nat ->
  let run := exec (init_handler request) [] w in
  let token := nanoid_source w (nanoid_calls w + i)%nat in
  outcome run
  = Returned (send (Success (mkInitData (Some token) (init_ref request)
                                        (init_amount request))))
  /\ Permutation
       (rows (db (final run)))
       (payment.mkRow (payment_id_seq (db w)) None amt (init_ref request) token
                      false (clock w) None
        :: rows (db w))
  /\ payment_id_seq (db (final run)) = payment_id_seq (db w) + 1.
Proof.
  intros Hamt Href_nul Href_len Hseq Href Hi Hbefore Hfree Htoken_nul Htoken_len
         run token.
  subst run token.
  assert (Hr : ref_exists (db w) (init_ref request) = false)
    by now apply ref_exists_false.
  destruct (exec_init_handler_first_free request w i Hr Hi Hbefore Hfree)
    as [-> ->].
  unfold db_insert. cbn [ins_content ins_ref ins_amount].
  rewrite Hamt, Href_nul, Htoken_nul. cbn [andb negb].
  rewrite (varchar_fits 50 _ Href_nul Href_len),
    (varchar_fits 20 _ Htoken_nul Htoken_len).
  assert (Hid : existsb (fun p => payment.id p =? payment_id_seq (db w))
                        (rows (db w)) = false).
  { apply existsb_false. intros p Hp. apply Z.eqb_neq.
    specialize (Hseq p Hp). lia. }
  rewrite Hid. fold (ref_exists (db w) (init_ref request)). rewrite Hr.
  fold (taken (db w) (nanoid_source w (nanoid_calls w + i)%nat)). rewrite Hfree.
  cbn [fst snd insert_reply rows payment_id_seq].
  split; [reflexivity|]. split; [|reflexivity].
  symmetry. apply Permutation_cons_append.
Qed.

Lemma init_creates_pending_row_witness :
  Permutation
    (rows (db (final (exec (init_handler (mkInitBody (whole 99000) "order-9")) []
                           sample_world))))
    [payment.mkRow 3 None 99000 "order-9" "AAAAAAAAAAA" false 5000 None;
     pending_row; paid_row].
Proof.
  refine (proj1 (proj2 (init_creates_pending_row
                          (mkInitBody (whole 99000) "order-9")
                          sample_world 99000 0 eq_refl eq_refl _ _ _ _ _ _
                          eq_refl _))).
  - simpl. lia.
  - intros p [<-|[<-|[]]]; simpl; lia.
  - intros p [<-|[<-|[]]]; discriminate.
  - lia.
  - intros j Hj. lia.
  - reflexivity.
  - simpl. lia.
Defined.

(** X9.  After POST /init has handed over the success payload for a [ref],
    a second POST /init with that [ref] as the table stores it (the [ref]
    itself when it has at most 50 characters) is answered 400 (duplicate
    reference), whatever its amount, and leaves the world as the first
    request left it. *)
Theorem init_again_is_duplicate
        (request1 request2 : InitBody) (w : World) (d : InitData) :
  let run1 := exec (init_handler request1) [] w in
  let run2 := exec (init_handler request2) [] (final run1) in
  outcome run1 = Returned (send (Success d)) ->
  varchar 50 (init_ref request1) = inr (init_ref request2) ->
  outcome run2 = Returned duplicate_reference /\ final run2 = final run1.
Proof.
  intros run1 run2 Hok Href.
  destruct (init_success_inserted request1 w d Hok)
    as [token [amount [ref [c [_ [_ [Hr [_ [Hdb _]]]]]]]]].
  rewrite Href in Hr. injection Hr as <-.
  fold run1 in Hdb. subst run2. rewrite exec_init_handler_alone. cbv zeta.
  assert (Hex : ref_exists (db (final run1)) (init_ref request2) = true).
  { rewrite Hdb. unfold ref_exists. cbn [rows].
    rewrite existsb_app. simpl. now rewrite String.eqb_refl, orb_true_r. }
  rewrite Hex. split; reflexivity.
Qed.

Lemma init_again_is_duplicate_witness :
  outcome (exec (init_handler (mkInitBody (whole 120000) "order-9")) []
                (final (exec (init_handler (mkInitBody (whole 99000) "order-9")) []
                             sample_world)))
  = Returned duplicate_reference.
Proof.
  exact (proj1 (init_again_is_duplicate
                  (mkInitBody (whole 99000) "order-9")
                  (mkInitBody (whole 120000) "order-9")
                  sample_world
                  (mkInitData (Some "AAAAAAAAAAA"%string) "order-9" (whole 99000))
                  eq_refl eq_refl)).
Defined.

(** A [ref] of more than 50 characters whose excess is spaces is stored cut
    to 50 characters, so a second request with the same [ref] passes the
    check of [ref], and its INSERT is rejected: the answer is 500, not
    400. *)
Example init_again_with_padded_ref :
  let request := mkInitBody (whole 99000) "order-9xxxxxxxxxxxxxxxxxxxxxxxxxxxxxxxxxxxxxxxxxxx " in
  let w := mkWorld (db sample_world) 5000 (nanoid_source second_free_world) 0 in
  let run1 := exec (init_handler request) [] w in
  let run2 := exec (init_handler request) [] (final run1) in
  outcome run1
  = Returned (send (Success (mkInitData (Some "AAAAAAAAAAA"%string)
                                        (init_ref request) (whole 99000))))
  /\ varchar 50 (init_ref request) = inr "order-9xxxxxxxxxxxxxxxxxxxxxxxxxxxxxxxxxxxxxxxxxxx"%string
  /\ outcome run2
     = Returned (caught (QueryError (UniqueViolation "payment_ref_unique"))).
Proof. vm_compute. repeat split. Qed.

(** ** From CreatePayment to ProcessCallback *)

Lemma others_of_new (row : Payment) (l : list Payment) :
  existsb (fun p => payment.id p =? payment.id row) l = false ->
  others row (l ++ [row]) = l.
Proof.
  intros Hnew. unfold others. rewrite filter_app. cbn [filter].
  unfold same_id at 2. rewrite Z.eqb_refl. cbn [negb]. rewrite app_nil_r.
  apply filter_keeps. intros p Hp. unfold same_id.
  rewrite existsb_false in Hnew. now rewrite (Hnew p Hp).
Qed.

(** X10.  A payment created by POST /init is paid by the webhook that
    carries its token: on a table with distinct ids, after POST /init has
    handed over the success payload with a [content] of at most 20
    characters, POST /callback with a memo that contains [content], the
    amount of the payment and a [referenceCode] of at most 100 characters,
    none of them NUL, that no row has as [txnId] is answered with the
    success reply and turns the created row, and no other, to paid with
    that [referenceCode], provided no older pending row of that amount has
    its token in the memo. *)
Theorem created_payment_gets_paid
        (request : InitBody) (w : World) (d : InitData) (amt : Z)
        (ref content wc refc : string) :
  let run1 := exec (init_handler request) [] w in
  let run2 := exec (callback_handler
                      (mkCallbackBody (Some wc) (Some (init_amount request))
                                      (Some refc)))
                   [] (final run1) in
  unique_ids (db w) ->
  outcome run1 = Returned (send (Success d)) ->
  int4_in (init_amount request) = inr amt ->
  varchar 50 (init_ref request) = inr ref ->
  data_content d = Some content ->
  (char_length content <= 20)%nat ->
  is_substring content wc ->
  nul_free refc = true -> (char_length refc <= 100)%nat ->
  (forall p, In p (rows (db w)) -> payment.txnId p <> Some refc) ->
  (forall p, In p (rows (db w)) -> payment.status p = false ->
             payment.amount p = amt ->
             ~ is_substring (payment.content p) wc) ->
  outcome run2 = Returned processed
  /\ Permutation
       (rows (db (final run2)))
       (payment.mkRow (payment_id_seq (db w)) (Some refc) amt ref content true
                      (clock w) (Some (clock w))
        :: rows (db w)).
Proof.
  intros run1 run2 Hnd Hok Hamt Href Hcontent Hlen Hsub Hrefc_nul Hrefc Hfresh
         Hothers.
  destruct (init_success_inserted request w d Hok)
    as [token [amount [ref' [c [Hd [Ha [Hr [Hc [Hdb [Hclock [Hid _]]]]]]]]]]].
  fold run1 in Hdb, Hclock. subst d. cbn [data_content] in Hcontent.
  injection Hcontent as ->.
  rewrite Hamt in Ha. injection Ha as <-. rewrite Href in Hr. injection Hr as <-.
  assert (Hcontent_nul : nul_free content = true).
  { unfold varchar in Hc. destruct (nul_free content); [reflexivity|discriminate]. }
  rewrite (varchar_fits 20 content Hcontent_nul Hlen) in Hc. injection Hc as <-.
  set (row := created_row amt ref content (db w) (clock w)) in *.
  assert (Hold : filter (memo_has wc) (filter (pending_of amt) (rows (db w))) = []).
  { apply filter_none. intros p Hp. apply filter_In in Hp.
    destruct Hp as [Hp Hpend]. apply pending_of_spec in Hpend.
    destruct Hpend as [Hst Ham].
    destruct (memo_has wc p) eqn:Hm; [|reflexivity]. exfalso.
    apply includes_spec in Hm. exact (Hothers p Hp Hst Ham Hm). }
  assert (Hpay : filter (memo_has wc)
                        (filter (pending_of amt) (rows (db (final run1))))
                 = [row]).
  { rewrite Hdb. cbn [rows]. rewrite !filter_app, Hold. cbn [filter app].
    replace (pending_of amt row) with true
      by (unfold pending_of, row, created_row; cbn; now rewrite Z.eqb_refl).
    cbn [filter]. unfold memo_has at 1.
    replace (includes wc (payment.content row)) with true; [reflexivity|].
    symmetry. apply includes_spec. exact Hsub. }
  assert (Hnd1 : unique_ids (db (final run1))).
  { unfold unique_ids. rewrite Hdb. cbn [rows]. rewrite map_app. simpl.
    apply NoDup_app; [exact Hnd | repeat constructor; intros [] |].
    intros x Hx [<-|[]]. apply in_map_iff in Hx. destruct Hx as [p [E Hp]].
    rewrite existsb_false in Hid. specialize (Hid p Hp).
    apply Z.eqb_neq in Hid. contradiction. }
  set (s := mkUpdateSet (Some refc) true (clock (final run1))).
  assert (Hset : stored_set s = inr s).
  { apply stored_set_fits. intros r E. injection E as <-. now split. }
  subst run2.
  rewrite (callback_accepted wc (init_amount request) amt (Some refc) (final run1)
                             row [] s Hamt Hnd1 Hpay Hset).
  - cbn [outcome final db with_db rows]. split; [reflexivity|].
    rewrite Hdb. cbn [rows].
    rewrite (others_of_new row (rows (db w)) Hid).
    unfold s. rewrite Hclock. symmetry. apply Permutation_cons_append.
  - intros t p E Hp _. injection E as <-. rewrite Hdb in Hp. cbn [rows] in Hp.
    apply in_app_or in Hp. destruct Hp as [Hp|[<-|[]]];
      [now apply Hfresh | discriminate].
Qed.

Lemma created_payment_gets_paid_witness :
  outcome (exec (callback_handler
                   (mkCallbackBody (Some "TT AAAAAAAAAAA"%string)
                                   (Some (whole 99000)) (Some "FT9"%string)))
                []
                (final (exec (init_handler (mkInitBody (whole 99000) "order-9")) []
                             sample_world)))
  = Returned processed.
Proof.
  refine (proj1 (created_payment_gets_paid
                   (mkInitBody (whole 99000) "order-9") sample_world
                   (mkInitData (Some "AAAAAAAAAAA"%string) "order-9" (whole 99000))
                   99000 "order-9" "AAAAAAAAAAA" "TT AAAAAAAAAAA" "FT9"
                   _ eq_refl eq_refl eq_refl eq_refl _ _ eq_refl _ _ _)).
  - repeat constructor; simpl; intuition discriminate.
  - simpl. lia.
  - exists "TT "%string, EmptyString. reflexivity.
  - simpl. lia.
  - intros p [<-|[<-|[]]]; discriminate.
  - intros p [<-|[<-|[]]] Hst Ham; discriminate.
Defined.

(** ** ProcessCallback: what it leaves alone *)

(** X11.  Running alone on a table with distinct ids, POST /callback never
    adds or removes a row and never moves the sequence: the rows after it
    have the [id], [amount], [ref], [content] and [createdAt] of the rows
    before it; and a row that is paid is left exactly as it is, whatever
    the request. *)
Theorem callback_leaves_paid_rows (request : CallbackBody) (w : World) :
  unique_ids (db w) ->
  let run := exec (callback_handler request) [] w in
  payment_id_seq (db (final run)) = payment_id_seq (db w)
  /\ Permutation (map identity_of (rows (db (final run))))
                 (map identity_of (rows (db w)))
  /\ forall p, In p (rows (db w)) -> payment.status p = true ->
               In p (rows (db (final run))).
Proof.
  intros Hnd run. subst run.
  destruct (callback_final_cases request w)
    as [->|[n [amt [wc [first [more [_ [_ [_ [Hpay ->]]]]]]]]]]; [auto|].
  pose proof (first_match_in_table wc amt _ first more Hpay) as Hin.
  assert (Hpending : payment.status first = false).
  { assert (H : In first (filter (memo_has wc)
                                 (filter (pending_of amt) (rows (db w))))).
    { rewrite Hpay. now left. }
    apply in_callback_payments in H. tauto. }
  rewrite (db_update_by_id _ first (db w) Hnd Hin).
  destruct (stored_set _) as [e|s']; [cbn [fst db with_db]; auto|].
  destruct (match set_txnId s' with
            | Some t => existsb (has_txnId t) (others first (rows (db w)))
            | None => false
            end); cbn [fst db with_db rows payment_id_seq]; [auto|].
  split; [reflexivity|]. split.
  - rewrite (rows_split_by_id first (rows (db w)) Hnd Hin) at 2.
    rewrite map_app. cbn [map].
    change (identity_of (apply_set s' first)) with (identity_of first).
    symmetry. apply Permutation_cons_append.
  - intros p Hp Hpaid. apply in_or_app. left. apply in_others.
    split; [exact Hp|]. intros Hid.
    assert (p = first)
      by exact (NoDup_map_inv_eq payment.id (rows (db w)) Hnd p first Hp Hin Hid).
    congruence.
Qed.

(** ** ProcessCallback: two deliveries at once *)

(** X12.  The UPDATE of POST /callback is keyed by the id alone.  When a
    concurrent delivery pays the selected row, with another reference,
    between the SELECT and the UPDATE of the handler, the UPDATE of the
    handler is still accepted: the handler answers with the success reply
    too, and the row ends with the [txnId] and [updatedAt] of the later
    UPDATE.  (Both references have at most 100 characters, none of them
    NUL, and are the [txnId] of no row.) *)
Theorem concurrent_callbacks_overwrite
        (w : World) (wc : string) (n : Number) (amt : Z) (refc rival : string)
        (at_ : Z) (first : Payment) (more : list Payment) :
  let paid_by_rival :=
    fun d => fst (db_update (mkUpdateSet (Some rival) true at_)
                            (same_id first) d) in
  let run := exec (callback_handler
                     (mkCallbackBody (Some wc) (Some n) (Some refc)))
                  [fun d => d; paid_by_rival] w in
  int4_in n = inr amt ->
  unique_ids (db w) ->
  filter (candidate wc amt) (rows (db w)) = first :: more ->
  nul_free refc = true -> (char_length refc <= 100)%nat ->
  nul_free rival = true -> (char_length rival <= 100)%nat ->
  (forall p, In p (rows (db w)) ->
             payment.txnId p <> Some refc /\ payment.txnId p <> Some rival) ->
  rival <> refc ->
  In (paid first (Some rival) at_) (rows (paid_by_rival (db w)))
  /\ outcome run = Returned processed
  /\ In (paid first (Some refc) (clock w)) (rows (db (final run)))
  /\ ~ In (paid first (Some rival) at_) (rows (db (final run))).
Proof.
  intros paid_by_rival run Hn Hnd Hpay Hrefc_nul Hrefc Hrival_nul Hrival Hfresh
         Hdiff.
  unfold candidate in Hpay. rewrite <- filter_filter_and in Hpay.
  pose proof (first_match_in_table wc amt _ first more Hpay) as Hin.
  set (theirs := paid first (Some rival) at_).
  set (ours := paid first (Some refc) (clock w)).
  assert (Hdb2 : paid_by_rival (db w)
                 = mkDatabase (others first (rows (db w)) ++ [theirs])
                              (payment_id_seq (db w))).
  { subst paid_by_rival. cbv beta.
    rewrite (db_update_by_id _ first (db w) Hnd Hin).
    rewrite stored_set_fits
      by (intros r E; injection E as <-; now split).
    cbn [set_txnId].
    replace (existsb (has_txnId rival) (others first (rows (db w)))) with false;
      [reflexivity|].
    symmetry. apply existsb_false. intros p Hp. apply in_others in Hp.
    destruct (has_txnId rival p) eqn:Hh; [|reflexivity].
    apply has_txnId_spec in Hh. exfalso.
    exact (proj2 (Hfresh p (proj1 Hp)) Hh). }
  assert (Hupd : db_update (mkUpdateSet (Some refc) true (clock w))
                           (same_id first) (paid_by_rival (db w))
                 = (mkDatabase (others first (rows (db w)) ++ [ours])
                               (payment_id_seq (db w)),
                    None)).
  { rewrite Hdb2. change (same_id first) with (same_id theirs).
    rewrite (db_update_by_id _ theirs).
    - rewrite stored_set_fits
        by (intros r E; injection E as <-; now split).
      cbn [set_txnId rows payment_id_seq].
      change (others theirs) with (others first).
      rewrite (others_updated first theirs (rows (db w)) eq_refl).
      replace (existsb (has_txnId refc) (others first (rows (db w)))) with false;
        [reflexivity|].
      symmetry. apply existsb_false. intros p Hp. apply in_others in Hp.
      destruct (has_txnId refc p) eqn:Hh; [|reflexivity].
      apply has_txnId_spec in Hh. exfalso.
      exact (proj1 (Hfresh p (proj1 Hp)) Hh).
    - now apply unique_ids_updated.
    - cbn [rows]. apply in_or_app. right. now left. }
  split.
  { rewrite Hdb2. cbn [rows]. apply in_or_app. right. now left. }
  assert (Hrun : outcome run = Returned processed
                 /\ rows (db (final run)) = others first (rows (db w)) ++ [ours]).
  { subst run. rewrite exec_callback_handler.
    cbn [arrive fst snd cb_content cb_transferAmount cb_referenceCode].
    cbv zeta. cbv beta. rewrite with_db_same.
    rewrite (callback_where_int4 n amt Hn), Hpay.
    cbn [db with_db clock]. rewrite Hupd.
    cbn [fst snd after outcome final update_reply db with_db rows].
    split; reflexivity. }
  destruct Hrun as [Hout Hrows]. split; [exact Hout|]. rewrite Hrows. split.
  - apply in_or_app. right. now left.
  - intros Htheirs. apply in_app_or in Htheirs.
    destruct Htheirs as [H|[H|[]]].
    + apply in_others in H. destruct H as [_ H]. now apply H.
    + unfold ours, theirs, paid in H. congruence.
Qed.

Lemma concurrent_callbacks_overwrite_witness :
  outcome (exec (callback_handler
                   (mkCallbackBody (Some memo) (Some (whole 50000))
                                   (Some "FT9"%string)))
                [fun d => d;
                 fun d => fst (db_update (mkUpdateSet (Some "FT8"%string) true 4900)
                                         (same_id pending_row) d)]
                sample_world)
  = Returned processed.
Proof.
  refine (proj1 (proj2 (concurrent_callbacks_overwrite
                          sample_world memo (whole 50000) 50000 "FT9" "FT8" 4900
                          pending_row [] eq_refl _ _ eq_refl _ eq_refl _ _ _))).
  - repeat constructor; simpl; intuition discriminate.
  - reflexivity.
  - simpl. lia.
  - simpl. lia.
  - intros p [<-|[<-|[]]]; split; discriminate.
  - discriminate.
Defined.

(** ** ProcessCallback: what every run looks like *)

(** X13.  Whatever the request, with or without [content],
    [transferAmount] and [referenceCode], and whatever other requests
    commit in between, POST /callback ends with a reply of status 200, 404
    or 500.  It first logs the body and then sends one SELECT.  Either the
    database rejects the SELECT, because [transferAmount] is a number it
    does not read as a 32-bit integer: the reply is 500.  Or the handler
    sends nothing more, and the reply is not 200.  Or it sends one UPDATE,
    and never an INSERT: the UPDATE is keyed by the id of a pending row of
    the transferred amount that the SELECT returned and whose [content] is
    in the memo; it sets [status = true] and sets [txnId] to the
    [referenceCode] of the body (leaving it alone when the body has none);
    and the reply is 200 exactly when the database accepted that
    UPDATE. *)
Theorem callback_always_replies
        (request : CallbackBody) (env : Interference) (w : World) :
  let run := exec (callback_handler request) env w in
  exists r tail,
    outcome run = Returned r
    /\ (code r = 200 \/ code r = 404 \/ code r = 500)
    /\ trace run = EvLog (mkLogEntry "sepay_webhook" request) :: tail
    /\ ((exists n e,
            cb_transferAmount request = Some n /\ int4_in n = inl e
            /\ tail = [EvSelectRejected e]
            /\ r = caught (QueryError e))
        \/ (exists seen results,
               tail = [EvSelect seen results] /\ code r <> 200)
        \/ (exists seen results s first res n amt wc,
               tail = [EvSelect seen results; EvUpdate s (payment.id first) res]
               /\ In first results
               /\ cb_transferAmount request = Some n /\ int4_in n = inr amt
               /\ cb_content request = Some wc
               /\ payment.status first = false
               /\ payment.amount first = amt
               /\ is_substring (payment.content first) wc
               /\ set_txnId s = cb_referenceCode request
               /\ set_status s = true
               /\ (code r = 200 <-> res = None))).
Proof.
  intros run. subst run. rewrite exec_callback_handler. cbv zeta.
  destruct (arrive env w) as [w1 env1]. cbn [fst snd].
  destruct (callback_where_cases (cb_transferAmount request))
    as [[n [e [Hta [Hn ->]]]]|[[n [amt [Hta [Hn ->]]]]|[_ [f [-> Hf]]]]].
  - exists (caught (QueryError e)), [EvSelectRejected e].
    cbn [after outcome trace]. split; [reflexivity|]. split; [auto|].
    split; [reflexivity|]. left. exists n, e. auto.
  - destruct (cb_content request) as [wc|] eqn:Hc.
    + destruct (filter (memo_has wc) (filter (pending_of amt) (rows (db w1))))
        as [|first more] eqn:Hpay.
      * exists not_found, [EvSelect (db w1) (filter (pending_of amt) (rows (db w1)))].
        cbn [after outcome trace]. split; [reflexivity|]. split; [auto|].
        split; [reflexivity|]. right. left. eexists _, _.
        split; [reflexivity|discriminate].
      * destruct (arrive env1 w1) as [w2 env2]. cbn [fst snd].
        assert (Hfirst : In first (filter (memo_has wc)
                                          (filter (pending_of amt) (rows (db w1))))).
        { rewrite Hpay. now left. }
        pose proof Hfirst as Hres. apply filter_In in Hres.
        destruct Hres as [Hres _].
        apply in_callback_payments in Hfirst.
        destruct Hfirst as [_ [Hst [Ham Hsub]]].
        destruct (db_update (mkUpdateSet (cb_referenceCode request) true (clock w1))
                            (same_id first) (db w2)) as [d3 res] eqn:Hupd.
        exists (update_reply res),
          [EvSelect (db w1) (filter (pending_of amt) (rows (db w1)));
           EvUpdate (mkUpdateSet (cb_referenceCode request) true (clock w1))
                    (payment.id first) res].
        cbn [after outcome trace fst snd]. split; [reflexivity|].
        split; [destruct res; simpl; auto|]. split; [reflexivity|].
        right. right.
        exists (db w1), (filter (pending_of amt) (rows (db w1))),
          (mkUpdateSet (cb_referenceCode request) true (clock w1)), first, res,
          n, amt, wc.
        repeat split; auto; destruct res; simpl; congruence.
    + eexists _, [EvSelect (db w1) (filter (pending_of amt) (rows (db w1)))].
      cbn [after outcome trace]. split; [reflexivity|].
      destruct (filter (pending_of amt) (rows (db w1))); simpl;
        (split; [auto|]); (split; [reflexivity|]);
        right; left; eexists _, _; (split; [reflexivity|discriminate]).
  - rewrite Hf.
    exists not_found, [EvSelect (db w1) []].
    destruct (cb_content request); cbn [filter after outcome trace];
      (split; [reflexivity|]); (split; [auto|]); (split; [reflexivity|]);
      right; left; eexists _, _; (split; [reflexivity|discriminate]).
Qed.
(** ** CreatePayment: the reply and the INSERT *)

Lemma while_loop_returns_drawn (fuel : nat) :
  forall content isUnique attempts env w c,
    outcome (exec (while_loop fuel content isUnique attempts) env w)
    = Returned (c, true) ->
    (isUnique = true /\ c = content)
    \/ exists token,
        c = Some token
        /\ In (EvNanoid token)
              (trace (exec (while_loop fuel content isUnique attempts) env w)).
Proof.
  induction fuel as [|fuel IH]; intros content isUnique attempts env w c.
  - cbn [while_loop].
    destruct (negb isUnique && (attempts <? maxAttempts)%nat);
      cbn [exec outcome]; [discriminate|].
    intros E. injection E as <- ->. now left.
  - cbn [while_loop].
    destruct (negb isUnique && (attempts <? maxAttempts)%nat);
      cbn [exec outcome].
    2:{ intros E. injection E as <- ->. now left. }
    cbn [select bind exec]. destruct (arrive env _) as [w1 env1].
    cbn [bind exec after outcome trace]. intros Hrun. right.
    destruct (IH _ _ _ _ _ _ Hrun) as [[_ ->]|[token [-> Hin]]].
    + eexists. split; [reflexivity|]. now left.
    + exists token. split; [reflexivity|]. right. right. exact Hin.
Qed.

Lemma generateUniqueContent_returns_drawn env w (content : option string) :
  outcome (exec generateUniqueContent env w) = Returned content ->
  exists token,
    content = Some token
    /\ In (EvNanoid token) (trace (exec generateUniqueContent env w)).
Proof.
  unfold generateUniqueContent. rewrite exec_bind. unfold then_run.
  destruct (exec (while_loop maxAttempts None false 0) env w)
    as [[[c u]|e|] w1 tr env1] eqn:Hloop; cbn [outcome final rest trace];
    [|discriminate|discriminate].
  destruct u; cbn [negb snd fst exec outcome trace]; [|discriminate].
  intros E. injection E as <-.
  destruct (while_loop_returns_drawn maxAttempts None false 0 env w c)
    as [[Hf _]|[token [-> Hin]]].
  - now rewrite Hloop.
  - discriminate Hf.
  - exists token. split; [reflexivity|]. rewrite Hloop in Hin.
    cbn [trace] in Hin. rewrite app_nil_r. exact Hin.
Qed.

(** X14.  Whatever other requests commit in between, POST /init ends with
    a reply of status 200, 400 or 500.  An INSERT it sends carries the
    [amount] and [ref] of the request and, as [content], a token drawn in
    this request, so never an undefined one; the reply is 200 exactly when
    an INSERT was accepted, and the payload the handler then hands to
    [reply.send] names the [content], [ref] and [amount] of that INSERT.
    (What the client receives of that payload is decided afterwards by the
    response schema of the route.) *)
Theorem init_reply_matches_insert
        (request : InitBody) (env : Interference) (w : World) :
  let run := exec (init_handler request) env w in
  exists r,
    outcome run = Returned r
    /\ (code r = 200 \/ code r = 400 \/ code r = 500)
    /\ (forall v res,
           In (EvInsert v res) (trace run) ->
           ins_amount v = init_amount request
           /\ ins_ref v = init_ref request
           /\ (exists token, ins_content v = Some token
                             /\ In (EvNanoid token) (trace run))
           /\ r = insert_reply request (ins_content v) res)
    /\ (code r = 200 <-> exists v, In (EvInsert v None) (trace run)).
Proof.
  intros run. subst run. rewrite exec_init_handler. cbv zeta.
  destruct (arrive env w) as [w1 env1]. cbn [fst snd].
  destruct (ref_exists (db w1) (init_ref request)).
  { exists duplicate_reference. cbn [after outcome trace].
    split; [reflexivity|]. split; [auto|]. split.
    - intros v res [E|[]]. discriminate E.
    - split; [discriminate|]. intros [v [E|[]]]. discriminate E. }
  unfold create_after_check. rewrite exec_bind.
  destruct (generateUniqueContent_attempts env1 w1) as [Hfuel [n [Htr _]]].
  pose proof (attempts_trace_no_insert n _ Htr) as Hno.
  pose proof (generateUniqueContent_returns_drawn env1 w1) as Hdrawn.
  destruct (exec generateUniqueContent env1 w1) as [[content|e|] w2 tr env2];
    unfold then_run, catch_run; cbn [outcome final rest trace after] in *.
  - destruct (Hdrawn content eq_refl) as [token [-> Htoken]].
    cbn [insert bind exec]. destruct (arrive env2 w2) as [w3 env3].
    destruct (db_insert (clock w3) _ (db w3)) as [d4 res].
    exists (insert_reply request (Some token) res).
    destruct res as [e|];
      cbn [await_result bind exec outcome final rest trace after insert_reply];
      rewrite ?app_nil_r.
    + split; [reflexivity|]. split; [auto|]. split.
      * intros v res [E|Hin]; [discriminate E|].
        apply in_app_or in Hin. destruct Hin as [Hin|[E|[]]].
        -- exfalso. exact (Hno _ _ Hin).
        -- injection E as <- <-. cbn. repeat split.
           exists token. split; [reflexivity|]. right. apply in_or_app. now left.
      * split; [discriminate|]. intros [v [E|Hin]]; [discriminate E|].
        apply in_app_or in Hin. destruct Hin as [Hin|[E|[]]].
        -- exfalso. exact (Hno _ _ Hin).
        -- discriminate E.
    + split; [reflexivity|]. split; [auto|]. split.
      * intros v res [E|Hin]; [discriminate E|].
        apply in_app_or in Hin. destruct Hin as [Hin|[E|[]]].
        -- exfalso. exact (Hno _ _ Hin).
        -- injection E as <- <-. cbn. repeat split.
           exists token. split; [reflexivity|]. right. apply in_or_app. now left.
      * split; [|reflexivity]. intros _. eexists. right.
        apply in_or_app. right. now left.
  - exists (caught e). rewrite app_nil_r. split; [reflexivity|].
    split; [auto|]. split.
    + intros v res [E|Hin]; [discriminate E | exfalso; exact (Hno _ _ Hin)].
    + split; [discriminate|]. intros [v [E|Hin]];
        [discriminate E | exfalso; exact (Hno _ _ Hin)].
  - exfalso. now apply Hfuel.
Qed.


(** ** SearchPayments: the query it sends *)

Lemma format_date_parse (s : string) :
  format_date s = true ->
  exists y m d, parse_date s = Some (y, m, d).
Proof.
  unfold format_date, parse_date.
  destruct (date_fields s) as [[[y m] d]|]; [|discriminate].
  intros H. apply andb_true_iff in H. destruct H as [H Hd].
  apply andb_true_iff in H. destruct H as [H Hd1].
  rewrite H, Hd1. cbn [andb].
  assert (Hle : (d <=? 31) = true).
  { apply Z.leb_le. apply Z.leb_le in Hd. unfold days_in_month in Hd.
    destruct (m =? 2); [destruct (is_leap y)|]; [lia|lia|].
    destruct ((m =? 4) || (m =? 6) || (m =? 9) || (m =? 11)); lia. }
  rewrite Hle. now exists y, m, d.
Qed.

(** The bounds of a day of the calendar: the first one is 17:00:00 UTC,
    which is 00:00:00 at UTC+7, and the second one 23 hours, 59 minutes and
    59 seconds later. *)
Lemma day_bounds (s : string) :
  format_date s = true ->
  exists t, new_Date_utc7 s 0 0 0 = Some t
            /\ t mod 86400000 = 61200000
            /\ new_Date_utc7 s 23 59 59 = Some (t + 86399000).
Proof.
  intros Hs. destruct (format_date_parse s Hs) as [y [m [d Hp]]].
  unfold new_Date_utc7. rewrite Hp. eexists. split; [reflexivity|]. split.
  - set (days := days_from_civil y m d).
    replace ((days * 86400 + 0 * 3600 + 0 * 60 + 0 - 7 * 3600) * 1000)
      with (61200000 + (days - 1) * 86400000) by lia.
    rewrite Z.mod_add by lia. reflexivity.
  - f_equal. lia.
Qed.

(** With dates that pass the schema, the conditions are built without
    error. *)
Lemma search_conditions_valid (query : SearchQuery) env w :
  dates_pass_schema query ->
  exists conditions,
    exec (search_conditions query) env w = mkRun (Returned conditions) w [] env.
Proof.
  intros [Hfrom Hto]. unfold search_conditions.
  destruct (truthy (q_from query)) as [from|].
  - destruct (day_bounds from (Hfrom from eq_refl)) as [t [-> _]].
    destruct (truthy (q_to query)) as [to|].
    + destruct (day_bounds to (Hto to eq_refl)) as [t' [_ [_ ->]]].
      cbn [date_param bind exec]. eexists. reflexivity.
    + cbn [date_param bind exec]. eexists. reflexivity.
  - destruct (truthy (q_to query)) as [to|].
    + destruct (day_bounds to (Hto to eq_refl)) as [t' [_ [_ ->]]].
      cbn [date_param bind exec]. eexists. reflexivity.
    + cbn [date_param bind exec]. eexists. reflexivity.
Qed.

(** The run of GET /search, alone, on a query whose dates pass the schema:
    one SELECT, then the [ReferenceError]. *)
Lemma exec_search_handler_alone {View : Type} (declared : Payment -> View)
      (query : SearchQuery) (w : World) :
  dates_pass_schema query ->
  exists conditions,
    exec (search_conditions query) [] w = mkRun (Returned conditions) w [] []
    /\ exec (search_handler declared query) [] w
       = mkRun (Returned (caught not_defined)) w
               [EvSelect (db w)
                         (sort_by payment.createdAt
                                  (filter (and_ conditions) (rows (db w))))]
               [].
Proof.
  intros Hdates.
  destruct (search_conditions_valid query [] w Hdates) as [conditions Hc].
  exists conditions. split; [exact Hc|].
  unfold search_handler.
  change (binding_in route_js_bindings "formatPaymentResponse" declared)
    with (@None (Payment -> View)).
  unfold search_handler_in. rewrite exec_try_catch, exec_bind, Hc.
  unfold then_run, catch_run. cbn [outcome final rest trace].
  cbn [select bind exec identifier arrive after outcome final rest trace app].
  assert (Hsel : db_select
                   (if (0 <? List.length conditions)%nat
                    then Some (and_ conditions) else None)
                   (Some payment.createdAt) None (db w)
                 = sort_by payment.createdAt
                           (filter (and_ conditions) (rows (db w)))).
  { destruct conditions as [|c cs]; cbn [List.length Nat.ltb Nat.leb db_select].
    - rewrite filter_all; [reflexivity|]. intros p. reflexivity.
    - reflexivity. }
  now rewrite Hsel.
Qed.

(** X15.  Running alone on a query whose dates pass the schema and whose
    text filters hold no NUL character, GET /search changes nothing and
    sends exactly one statement, a SELECT.  The SELECT returns the rows of
    the table that pass every filter the query supplies, all rows when it
    supplies none, each as often as the table holds it, in ascending order
    of [createdAt]; the handler then ends in its [catch] with the 500 of
    the [ReferenceError].  A [from] date holds
    for the rows created at or after 00:00:00 of that day at UTC+7, a [to]
    date for the rows created at or before 23:59:59 of that day at
    UTC+7. *)
Theorem search_sends_one_select
        {View : Type} (declared : Payment -> View) (query : SearchQuery)
        (w : World) :
  dates_pass_schema query ->
  filters_are_text query ->
  let run := exec (search_handler declared query) [] w in
  final run = w
  /\ outcome run = Returned (caught not_defined)
  /\ (exists payments keep,
         trace run = [EvSelect (db w) payments]
         /\ (forall p, keep p = true <-> matches query p)
         /\ Permutation payments (filter keep (rows (db w)))
         /\ ascending payment.createdAt payments)
  /\ (forall day, truthy (q_from query) = Some day \/ truthy (q_to query) = Some day ->
        exists t, new_Date_utc7 day 0 0 0 = Some t
                  /\ t mod 86400000 = 61200000
                  /\ new_Date_utc7 day 23 59 59 = Some (t + 86399000)).
Proof.
  intros Hdates _ run. subst run.
  destruct (exec_search_handler_alone declared query w Hdates)
    as [conditions [Hc ->]].
  cbn [final outcome trace]. split; [reflexivity|]. split; [reflexivity|].
  split.
  - exists (sort_by payment.createdAt (filter (and_ conditions) (rows (db w)))),
      (and_ conditions).
    destruct (sort_by_spec payment.createdAt
                           (filter (and_ conditions) (rows (db w)))) as [Hs Hp].
    split; [reflexivity|]. split; [|split; [exact Hp|exact Hs]].
    intros p. exact (search_conditions_spec query w conditions p Hc).
  - intros day [H|H]; apply day_bounds; [apply (proj1 Hdates)|apply (proj2 Hdates)];
      exact H.
Qed.

Lemma search_sends_one_select_witness :
  exists payments,
    trace (exec (search_handler (fun p => p)
                                (mkSearchQuery None None (Some "unpaid"%string)
                                               (Some "2024-01-01"%string)
                                               (Some "2024-01-01"%string)))
                [] new_year_world)
    = [EvSelect (db new_year_world) payments]
    /\ payments
       = [payment.mkRow 4 None 50000 "order-4" "Lm07k9Qw2Zx" false
                        1704042000000 None;
          payment.mkRow 2 None 50000 "order-2" "k9Qw2LmZx07" false
                        1704128399000 None].
Proof.
  assert (Hdates : dates_pass_schema
                     (mkSearchQuery None None (Some "unpaid"%string)
                                    (Some "2024-01-01"%string)
                                    (Some "2024-01-01"%string))).
  { split; intros day E; injection E as <-; reflexivity. }
  assert (Htext : filters_are_text
                    (mkSearchQuery None None (Some "unpaid"%string)
                                   (Some "2024-01-01"%string)
                                   (Some "2024-01-01"%string))).
  { split; intros s E; discriminate E. }
  destruct (proj1 (proj2 (proj2 (search_sends_one_select
                                   (fun p => p) _ new_year_world Hdates Htext))))
    as [payments [keep [Htrace _]]].
  exists payments. split; [exact Htrace|].
  vm_compute in Htrace. injection Htrace as <-. reflexivity.
Defined.

Lemma like_any_char (s : string) :
  like_match "%_%" s = true <-> s <> EmptyString.
Proof.
  cbn [like_match]. change (Ascii.eqb "%" "%") with true. cbv iota.
  destruct s as [|c s]; cbn [suffixes existsb like_match].
  - change (Ascii.eqb "_" "%") with false. change (Ascii.eqb "_" "_") with true.
    cbv iota. simpl. split; [discriminate|]. intros H. now contradiction H.
  - change (Ascii.eqb "_" "%") with false. change (Ascii.eqb "_" "_") with true.
    cbv iota. change (Ascii.eqb "%" "%") with true. cbv iota.
    rewrite like_rest_any. split; [discriminate|reflexivity].
Qed.

(** X16.  The [ref] and [content] filters of GET /search reach the database
    as the LIKE pattern of the text between two [%], unescaped.  The SELECT
    of a query with only such a filter, of a text without the NUL
    character, returns, for a text without [%], [_] and backslash, exactly
    the rows whose column contains the text; and for the text [_], every
    row whose [ref] is not empty. *)
Theorem search_text_filter
        {View : Type} (declared : Payment -> View) (text : string) (w : World) :
  text <> EmptyString ->
  nul_free text = true ->
  let by_ref :=
    exec (search_handler declared (mkSearchQuery (Some text) None None None None))
         [] w in
  let by_content :=
    exec (search_handler declared (mkSearchQuery None (Some text) None None None))
         [] w in
  exists refs contents,
    trace by_ref = [EvSelect (db w) refs]
    /\ trace by_content = [EvSelect (db w) contents]
    /\ (plain text = true ->
        (forall p, In p refs
                   <-> In p (rows (db w)) /\ is_substring text (payment.ref p))
        /\ (forall p, In p contents
                      <-> In p (rows (db w))
                          /\ is_substring text (payment.content p)))
    /\ (text = "_"%string ->
        forall p, In p refs
                  <-> In p (rows (db w)) /\ payment.ref p <> EmptyString).
Proof.
  intros Hne _ by_ref by_content. subst by_ref by_content.
  assert (Htruthy : truthy (Some text) = Some text).
  { destruct text; [now contradiction Hne | reflexivity]. }
  assert (Hdates : forall q, q_from q = None -> q_to q = None ->
                             dates_pass_schema q).
  { intros q Hf Ht. split; intros day E; [rewrite Hf in E|rewrite Ht in E];
      discriminate E. }
  destruct (exec_search_handler_alone
              declared (mkSearchQuery (Some text) None None None None) w
              (Hdates (mkSearchQuery (Some text) None None None None)
                      eq_refl eq_refl)) as [c1 [Hc1 ->]].
  destruct (exec_search_handler_alone
              declared (mkSearchQuery None (Some text) None None None) w
              (Hdates (mkSearchQuery None (Some text) None None None)
                      eq_refl eq_refl)) as [c2 [Hc2 ->]].
  cbn [trace]. eexists _, _. split; [reflexivity|]. split; [reflexivity|].
  assert (Hin : forall c l p,
             In p (sort_by payment.createdAt (filter (and_ c) l))
             <-> In p l /\ and_ c p = true).
  { intros c l p. rewrite <- filter_In.
    destruct (sort_by_spec payment.createdAt (filter (and_ c) l)) as [_ Hp].
    split; intros H.
    - exact (Permutation_in p Hp H).
    - exact (Permutation_in p (Permutation_sym Hp) H). }
  unfold search_conditions in Hc1, Hc2.
  cbn [q_ref q_content q_status q_from q_to is_string] in Hc1, Hc2.
  rewrite Htruthy in Hc1, Hc2.
  cbn [truthy bind exec app] in Hc1, Hc2.
  injection Hc1 as <-. injection Hc2 as <-.
  split.
  - intros Hplain.
    split; intros p; rewrite Hin; unfold and_, like; cbn [forallb];
      rewrite andb_true_r, (like_contains text _ Hplain), includes_spec;
      reflexivity.
  - intros ->. intros p. rewrite Hin. unfold and_, like. cbn [forallb].
    rewrite andb_true_r.
    change ("%" ++ "_" ++ "%")%string with "%_%"%string.
    now rewrite like_any_char.
Qed.

Lemma search_text_filter_witness :
  exists refs,
    trace (exec (search_handler (fun p => p)
                                (mkSearchQuery (Some "der-2"%string) None None
                                               None None))
                [] sample_world)
    = [EvSelect (db sample_world) refs]
    /\ (In paid_row refs <-> In paid_row (rows (db sample_world))
                             /\ is_substring "der-2" (payment.ref paid_row)).
Proof.
  destruct (search_text_filter (fun p => p) "der-2" sample_world)
    as [refs [contents [Href [_ [Hplain _]]]]]; [discriminate|reflexivity|].
  exists refs. split; [exact Href|].
  exact (proj1 (Hplain eq_refl) paid_row).
Defined.

(** ** ProcessCallback: a webhook without reference *)

Lemma others_comm (a b : Payment) (l : list Payment) :
  others a (others b l) = others b (others a l).
Proof. unfold others. apply filter_comm. Qed.

(** X17.  A webhook whose body has no [referenceCode] is not idempotent:
    the UPDATE then sets only [status] and [updatedAt], so nothing marks
    the delivery.  When two or more pending rows match, on a table with
    distinct ids, the first delivery pays the first match and the second
    delivery of the same body pays the second one; both are answered with
    the success reply, and both rows keep the [txnId] they had. *)
Theorem callback_without_reference_pays_again
        (w : World) (wc : string) (n : Number) (amt : Z)
        (first second : Payment) (more : list Payment) :
  int4_in n = inr amt ->
  unique_ids (db w) ->
  outcome (exec (callback_payments (Some wc) (Some n)) [] w)
  = Returned (first :: second :: more) ->
  let request := mkCallbackBody (Some wc) (Some n) None in
  let run1 := exec (callback_handler request) [] w in
  let run2 := exec (callback_handler request) [] (final run1) in
  outcome run1 = Returned processed
  /\ outcome run2 = Returned processed
  /\ Permutation (rows (db (final run1)))
                 (paid first (payment.txnId first) (clock w)
                  :: others first (rows (db w)))
  /\ Permutation (rows (db (final run2)))
                 (paid first (payment.txnId first) (clock w)
                  :: paid second (payment.txnId second) (clock w)
                  :: others first (others second (rows (db w)))).
Proof.
  intros Hn Hnd Hpay request run1 run2. subst run1 run2 request.
  rewrite (exec_callback_payments wc n amt w Hn) in Hpay.
  cbn [outcome] in Hpay. injection Hpay as Hpay.
  pose proof (first_match_in_table wc amt _ first _ Hpay) as Hin.
  set (s := mkUpdateSet None true (clock w)).
  rewrite (callback_accepted wc n amt None w first (second :: more) s Hn Hnd Hpay
                             eq_refl).
  2:{ intros t p E. discriminate E. }
  cbn [outcome final db with_db rows]. split; [reflexivity|].
  set (w1 := with_db w (mkDatabase (others first (rows (db w)) ++ [apply_set s first])
                                   (payment_id_seq (db w)))).
  assert (Hother : same_id first second = false).
  { rewrite filter_filter_and in Hpay.
    exact (later_matches_other_ids _ _ _ _ Hnd Hpay second (or_introl eq_refl)). }
  assert (Hpay1 : filter (memo_has wc) (filter (pending_of amt) (rows (db w1)))
                  = second :: more).
  { unfold w1. cbn [db with_db rows].
    now apply candidates_after_paid. }
  assert (Hnd1 : unique_ids (db w1)).
  { unfold w1. cbn [db with_db]. now apply unique_ids_updated. }
  rewrite (callback_accepted wc n amt None w1 second more s Hn Hnd1 Hpay1 eq_refl).
  2:{ intros t p E. discriminate E. }
  cbn [outcome final db with_db rows]. split; [reflexivity|].
  split; [apply updated_rows_perm|].
  unfold w1. cbn [db with_db rows]. unfold others at 1. rewrite filter_app.
  cbn [filter].
  replace (same_id second (apply_set s first)) with false.
  2:{ unfold same_id in *. cbn [apply_set payment.id]. rewrite Z.eqb_sym.
      now rewrite Hother. }
  cbn [negb]. fold (others second (others first (rows (db w)))).
  rewrite (others_comm second first).
  change (apply_set s first) with (paid first (payment.txnId first) (clock w)).
  change (apply_set s second) with (paid second (payment.txnId second) (clock w)).
  rewrite <- app_assoc. cbn [app].
  rewrite Permutation_app_comm. reflexivity.
Qed.

Lemma callback_without_reference_pays_again_witness :
  outcome (exec (callback_handler
                   (mkCallbackBody (Some twin_memo) (Some (whole 50000)) None))
                []
                (final (exec (callback_handler
                                (mkCallbackBody (Some twin_memo)
                                                (Some (whole 50000)) None))
                             [] twin_world)))
  = Returned processed.
Proof.
  refine (proj1 (proj2 (callback_without_reference_pays_again
                          twin_world twin_memo (whole 50000) 50000
                          pending_row twin_row [] eq_refl _ eq_refl))).
  repeat constructor; simpl; intuition discriminate.
Defined.

(** ** CreatePayment: values that do not fit their columns *)

(** X18.  POST /init does not check its values against the columns: when
    the check of [ref] has passed and a free token was drawn (both texts
    without the NUL character), a request whose [amount] the database does
    not read as a 32-bit integer, whose [ref] is too long for the
    [varchar(50)] column, or for which the token drawn is too long for the
    [varchar(20)] column, is answered 500 with the error of the database;
    no row is added. *)
Theorem init_rejects_what_does_not_fit
        (request : InitBody) (w : World) (i : nat) (e : DbError) :
  (forall p, In p (rows (db w)) -> payment.ref p <> init_ref request) ->
  nul_free (init_ref request) = true ->
  nul_free (nanoid_source w (nanoid_calls w + i)%nat) = true ->
  (i < 10)%nat ->
  (forall j, (j < i)%nat ->
             taken (db w) (nanoid_source w (nanoid_calls w + j)%nat) = true) ->
  taken (db w) (nanoid_source w (nanoid_calls w + i)%nat) = false ->
  int4_in (init_amount request) = inl e
  \/ (exists amt, int4_in (init_amount request) = inr amt
                  /\ varchar 50 (init_ref request) = inl e)
  \/ (exists amt ref, int4_in (init_amount request) = inr amt
                      /\ varchar 50 (init_ref request) = inr ref
                      /\ varchar 20 (nanoid_source w (nanoid_calls w + i)%nat)
                         = inl e) ->
  let run := exec (init_handler request) [] w in
  outcome run = Returned (caught (QueryError e))
  /\ code (caught (D := InitData) (QueryError e)) = 500
  /\ rows (db (final run)) = rows (db w).
Proof.
  intros Href Hnul_ref Hnul_token Hi Hbefore Hfree Hwhy run. subst run.
  assert (Hr : ref_exists (db w) (init_ref request) = false)
    by now apply ref_exists_false.
  rewrite exec_init_handler_alone. cbv zeta. rewrite Hr.
  rewrite (tokens_first_free (db w) (nanoid_source w) i (nanoid_calls w)
                             maxAttempts Hi Hbefore Hfree).
  destruct (first_free_result (db w) (nanoid_source w) (nanoid_calls w) i
                              Hbefore Hfree) as [Hall [Hlast _]].
  rewrite Hall, Hlast.
  assert (Hins : db_insert (clock w)
                           (mkInsertValues (init_amount request) (init_ref request)
                              (Some (nanoid_source w (nanoid_calls w + i)%nat)))
                           (db w)
                 = (db w, Some e)).
  { unfold db_insert. cbn [ins_amount ins_ref ins_content].
    rewrite Hnul_ref, Hnul_token.
    destruct Hwhy as [Ha|[[amt [Ha Hv]]|[amt [ref [Ha [Hv Hc]]]]]].
    - now rewrite Ha.
    - now rewrite Ha, Hv.
    - now rewrite Ha, Hv, Hc. }
  rewrite Hins. cbn [fst snd insert_reply outcome final trace db with_db drew].
  split; [reflexivity|]. split; reflexivity.
Qed.

Lemma init_rejects_what_does_not_fit_witness :
  outcome (exec (init_handler (mkInitBody (whole 2147483648) "order-9")) []
                sample_world)
  = Returned (caught (QueryError NumericValueOutOfRange)).
Proof.
  refine (proj1 (init_rejects_what_does_not_fit
                   (mkInitBody (whole 2147483648) "order-9") sample_world 0
                   NumericValueOutOfRange _ eq_refl eq_refl _ _ _ _)).
  - intros p [<-|[<-|[]]]; discriminate.
  - lia.
  - intros j Hj. lia.
  - reflexivity.
  - left. reflexivity.
Defined.

(** ** CreatePayment: tokens longer than the column *)

Lemma alphabet_char (c : ascii) :
  in_alphabet c ->
  continuation c = false /\ c <> " "%char /\ Ascii.eqb c Ascii.zero = false.
Proof.
  unfold in_alphabet. cbn [alphabet list_ascii_of_string].
  intros H.
  repeat (destruct H as [<-|H];
          [split; [reflexivity|split; [discriminate|reflexivity]]|]).
  destruct H.
Qed.

Lemma alphabet_nul_free (t : string) :
  (forall c, In c (list_ascii_of_string t) -> in_alphabet c) ->
  nul_free t = true.
Proof.
  induction t as [|a t IH]; intros Hall; [reflexivity|].
  cbn [nul_free].
  destruct (alphabet_char a (Hall a (or_introl eq_refl))) as [_ [_ ->]].
  cbn [negb andb]. apply IH. intros c Hc. apply Hall. now right.
Qed.

(** The characters of a text of the alphabet are its bytes. *)
Lemma drop_chars_alphabet (n : nat) :
  forall t,
    (forall c, In c (list_ascii_of_string t) -> in_alphabet c) ->
    (n < String.length t)%nat ->
    exists c rest, drop_chars n t = String c rest /\ in_alphabet c.
Proof.
  induction n as [|n IH]; intros t Hall Hlen.
  - destruct t as [|a t]; [simpl in Hlen; lia|].
    exists a, t. split; [reflexivity|]. apply Hall. now left.
  - destruct t as [|a t]; [simpl in Hlen; lia|].
    cbn [drop_chars]. simpl in Hlen.
    destruct t as [|b t]; [simpl in Hlen; lia|].
    assert (Hb : continuation b = false).
    { apply alphabet_char. apply Hall. right. now left. }
    cbn [skip_continuation]. rewrite Hb. apply IH.
    + intros c Hc. apply Hall. now right.
    + simpl. simpl in Hlen. lia.
Qed.

Lemma varchar_alphabet_too_long (n : nat) (t : string) :
  (forall c, In c (list_ascii_of_string t) -> in_alphabet c) ->
  (n < String.length t)%nat ->
  varchar n t = inl (StringDataRightTruncation n).
Proof.
  intros Hall Hlen. unfold varchar. rewrite (alphabet_nul_free t Hall).
  destruct (drop_chars_alphabet n t Hall Hlen) as [c [rest [-> Hc]]].
  cbn [spaces].
  destruct (alphabet_char c Hc) as [_ [Hsp _]].
  apply Ascii.eqb_neq in Hsp. now rewrite Hsp.
Qed.

(** X19.  The [content] column takes 20 characters, and the length of the
    tokens is the [CONTENT_LENGTH] of the environment: when tokens are
    drawn, as [customAlphabet] promises, with a length above 20, POST /init
    never hands over a success payload and never adds a row, whatever the
    request and the table. *)
Theorem init_fails_with_long_tokens
        (request : InitBody) (w : World) (size : Z) :
  nanoid_contract size w -> 20 < size ->
  let run := exec (init_handler request) [] w in
  (forall d, outcome run <> Returned (send (Success d)))
  /\ rows (db (final run)) = rows (db w).
Proof.
  intros Hcontract Hsize run. subst run.
  assert (Hlong : forall k, varchar 20 (nanoid_source w k)
                            = inl (StringDataRightTruncation 20)).
  { intros k. destruct (Hcontract k) as [Hlen Hall].
    apply varchar_alphabet_too_long; [exact Hall|lia]. }
  split.
  - intros d Hok.
    destruct (init_success_inserted request w d Hok)
      as [token [amount [ref [c [_ [_ [_ [Hc [_ [_ [_ [_ [_ [i ->]]]]]]]]]]]]]].
    rewrite Hlong in Hc. discriminate Hc.
  - rewrite exec_init_handler_alone. cbv zeta.
    destruct (ref_exists (db w) (init_ref request)); [reflexivity|].
    destruct (forallb (taken (db w)) _) eqn:Hall; [reflexivity|].
    destruct (tokens_last_free _ _ _ _ Hall) as [i [_ [Hlast _]]].
    rewrite Hlast. cbn [final db with_db].
    unfold db_insert. cbn [ins_amount ins_ref ins_content].
    destruct (int4_in (init_amount request)); [reflexivity|].
    destruct (negb _); [reflexivity|].
    destruct (varchar 50 (init_ref request)); [reflexivity|].
    now rewrite Hlong.
Qed.

Lemma long_tokens_well_drawn : nanoid_contract 21 long_token_world.
Proof.
  intros n. split; [reflexivity|].
  intros c Hc. unfold in_alphabet. simpl in Hc.
  repeat (destruct Hc as [<-|Hc];
          [simpl; repeat (try (left; reflexivity); right)|]).
  destruct Hc.
Defined.

Lemma init_fails_with_long_tokens_witness :
  rows (db (final (exec (init_handler (mkInitBody (whole 99000) "order-9")) []
                        long_token_world)))
  = rows (db sample_world).
Proof.
  refine (proj2 (init_fails_with_long_tokens
                   (mkInitBody (whole 99000) "order-9") long_token_world
                   21 long_tokens_well_drawn _)).
  lia.
Defined.

(** ** The properties at sample inputs *)

Lemma api_key_check_passes_iff_witness :
  apiKeyMiddleware (Some "secret"%string) (Some "secret"%string) = None.
Proof.
  apply (proj1 (api_key_check_passes_iff (Some "secret"%string)
                                         (Some "secret"%string))).
  exists "secret"%string. repeat split. discriminate.
Defined.

Lemma txn_success_iff_witness :
  txn_body
    (fst (txn_handler
            (Some "sk-live"%string)
            (fun _ =>
               Responded
                 (mkResponse 200 "OK"
                    (Parsed (JObject
                               [("status"%string, JNumber 200);
                                ("messages"%string,
                                 JObject [("success"%string, JBool true)]);
                                ("transaction"%string,
                                 JObject [("id"%string, JString "12345")])]))))
            "12345"))
  = TxnSuccess (Some (JObject [("id"%string, JString "12345")])).
Proof.
  apply (proj1 (txn_success_iff (Some "sk-live"%string) _ "12345")).
  eexists "sk-live"%string, _, _. repeat split.
Defined.

Lemma callback_leaves_paid_rows_witness :
  In paid_row
     (rows (db (final (exec (callback_handler
                               (mkCallbackBody (Some memo) (Some (whole 50000))
                                               (Some "FT9"%string)))
                            [] sample_world)))).
Proof.
  refine (proj2 (proj2 (callback_leaves_paid_rows
                          (mkCallbackBody (Some memo) (Some (whole 50000))
                                          (Some "FT9"%string))
                          sample_world _))
                paid_row _ eq_refl).
  - repeat constructor; simpl; intuition discriminate.
  - right. now left.
Defined.

Lemma callback_always_replies_witness :
  exists r,
    outcome (exec (callback_handler (mkCallbackBody None None None))
                  race sample_world)
    = Returned r
    /\ (code r = 200 \/ code r = 404 \/ code r = 500).
Proof.
  destruct (callback_always_replies (mkCallbackBody None None None)
                                    race sample_world)
    as [r [tail [Hout [Hcode _]]]].
  exists r. split; [exact Hout | exact Hcode].
Defined.

Lemma init_reply_matches_insert_witness :
  exists r,
    outcome (exec (init_handler (mkInitBody (whole 99000) "order-9"))
                  race sample_world)
    = Returned r
    /\ (code r = 200 \/ code r = 400 \/ code r = 500).
Proof.
  destruct (init_reply_matches_insert (mkInitBody (whole 99000) "order-9")
                                      race sample_world)
    as [r [Hout [Hcode _]]].
  exists r. split; [exact Hout | exact Hcode].
Defined.
